(** * Wash-trading / bot / holder risk analysis: a shallow embedding

  The development follows the Python sources of the analysis pipeline:

  - [srs/data_fetcher.py]              ([Module DataFetcher])
  - [analysis/wash_trading_detector.py] ([Module WashTradingDetector])
  - [analysis/bot_detector.py]          ([Module BotDetector])
  - [srs/holder_analyzer.py]            ([Module HolderAnalyzer])
  - [srs/full_risk_score_analysis.py]   ([Module RiskScoreAnalyzer])

  Conventions.  Python floats are embedded as rationals [Q]; a NaN or a
  missing cell is [None].  [Module Binary64] repeats the Gini
  coefficient in IEEE 754 double precision, where rounding shows.
  Pandas timestamps are integers (nanoseconds).
  A DataFrame is the list of its rows, in row order.  Wallet addresses
  are strings and are compared as Python compares [str] values. *)

From Stdlib Require Import ZArith QArith Qminmax Qabs List String Ascii Bool Lia
Permutation Sorted Lqa.
From Stdlib Require OrderedTypeEx.
From Stdlib Require Floats.PrimFloat.
From stdpp Require Import gmap strings.

Close Scope Q_scope.
#[local] Set Warnings "-clear-no-such-hyp".
#[local] Set Warnings "-inexact-float".
Local Open Scope string_scope.
Local Open Scope list_scope.
Import ListNotations.

(** ** Pandas-style helpers shared by all components *)
Module Frame.

Section Sorting.
Context {A : Type} (leb : A -> A -> bool).

  (** Insertion in front of the first row that is not smaller: rows with
      equal keys keep their relative order. *)
Fixpoint insert_row (x : A) (l : list A) : list A :=
    match l with
    | [] => [x]
    | y :: l' => if leb x y then x :: y :: l' else y :: insert_row x l'
    end.

  (** [df.sort_values(key)], ascending for the order [leb]. *)
Fixpoint sort_values (l : list A) : list A :=
    match l with
    | [] => []
    | x :: l' => insert_row x (sort_values l')
    end.
End Sorting.

(** The order relation decided by a comparison function. *)
Definition in_order {A : Type} (leb : A -> A -> bool) (a b : A) : Prop :=
  leb a b = true.

Section Grouping.
Context {A K : Type} (cmp : K -> K -> comparison) (key : A -> K).

Fixpoint insert_key (k : K) (ks : list K) : list K :=
    match ks with
    | [] => [k]
    | k' :: ks' =>
        match cmp k k' with
        | Eq => ks
        | Lt => k :: ks
        | Gt => k' :: insert_key k ks'
        end
    end.

  (** The distinct keys of a column, in increasing order. *)
Definition unique_keys (rows : list A) : list K :=
    fold_right insert_key [] (map key rows).

Definition key_is (k : K) (r : A) : bool :=
    match cmp (key r) k with Eq => true | _ => false end.

  (** [df.groupby(key)]: one group per distinct key, groups in key order,
      each group holding its rows in their original order. *)
Definition groupby (rows : list A) : list (K * list A) :=
    map (fun k => (k, List.filter (key_is k) rows)) (unique_keys rows).
End Grouping.

(** Order of Python tuples of two strings. *)
Definition pair_compare (p q : string * string) : comparison :=
  match String.compare (fst p) (fst q) with
  | Eq => String.compare (snd p) (snd q)
  | c => c
  end.

(** [Series.sum()]: missing cells are skipped. *)
Definition sum_skipna (l : list (option Q)) : Q :=
  fold_right (fun o acc => match o with Some v => Qplus v acc | None => acc end)
             (0%Q) l.

Definition Qsum (l : list Q) : Q := fold_right Qplus 0%Q l.

(** [x in column.values] for a column of strings. *)
Definition isin (x : string) (l : list string) : bool :=
  existsb (String.eqb x) l.

Definition Qltb (x y : Q) : bool := negb (Qle_bool y x).

(** [df.head(n)] and the slice [l[:n]], including the reading of a
    negative [n] (all but the last [-n] rows). *)
Definition head {A : Type} (n : Z) (l : list A) : list A :=
  if (0 <=? n)%Z then firstn (Z.to_nat n) l
  else firstn (length l - Z.to_nat (- n)) l.

End Frame.

(** ** srs/data_fetcher.py *)
Module DataFetcher.

(** A JSON address object: [{'address': ..., 'arkhamEntity': {'type': ...}}]. *)
Record AddressObj := {
  address : option string;
  arkhamEntity_type : option string
}.

(** One row of the raw transfer table.  [log_index] is the position of the
    hop inside its transaction (TransferHop.log_index of the data model);
    this file never reads it. *)
Record Transfer := {
  transactionHash : string;
  blockNumber : Z;
  log_index : Z;
  blockTimestamp : Z;
  fromAddress : AddressObj;
  toAddress : AddressObj;
  historicalUSD : option Q;
  chain : option string
}.

Record UserFlow := {
  transaction_hash : string;
  start_wallet : string;
  end_wallet : string;
  start_entity_type : option string;
  end_entity_type : option string;
  timestamp : Z;
  block_number : Z;
  usd_value : Q;
  token_symbol : string;
  token_address : string;
  flow_chain : string;
  hop_count : nat;
  is_self_transfer : bool
}.

Definition intermediaries : list string :=
  ["dex"; "cex"; "dex_aggregator"; "bridge"; "mixer"].

Definition get_entity_type (a : AddressObj) : option string :=
  arkhamEntity_type a.

Definition get_address (a : AddressObj) : option string := address a.

(** [Series.isin(intermediaries)]; a missing type is not a member. *)
Definition is_intermediary (t : option string) : bool :=
  match t with
  | Some s => Frame.isin s intermediaries
  | None => false
  end.

Definition from_is_intermediary (r : Transfer) : bool :=
  is_intermediary (get_entity_type (fromAddress r)).

Definition to_is_intermediary (r : Transfer) : bool :=
  is_intermediary (get_entity_type (toAddress r)).

(** Python truthiness of an address: neither [None] nor the empty string.
    A missing address is the [None] that [get_address] returned, as an
    object column keeps it (pandas 3 turns it into NaN, which is truthy). *)
Definition truthy (w : option string) : option string :=
  match w with
  | Some s => if String.eqb s "" then None else Some s
  | None => None
  end.

Definition by_blockNumber (a b : Transfer) : bool :=
  (blockNumber a <=? blockNumber b)%Z.

(** The forward loop: the first row whose sender is not an intermediary. *)
Definition scan_start (rows : list Transfer) : option Transfer :=
  List.find (fun r => negb (from_is_intermediary r)) rows.

(** The backward loop over [iloc[::-1]]. *)
Definition scan_end (rows : list Transfer) : option Transfer :=
  List.find (fun r => negb (to_is_intermediary r)) (rev rows).

(** Body of the loop over [df.groupby('transactionHash')]. *)
Definition process_group (display_name token : string)
           (tx_hash : string) (group : list Transfer) : option UserFlow :=
  let tx_transfers := Frame.sort_values by_blockNumber group in
  let start := scan_start tx_transfers in
  let stop := scan_end tx_transfers in
  match tx_transfers with
  | [] => None
  | first :: _ =>
      match start, stop with
      | Some rs, Some re =>
          match truthy (get_address (fromAddress rs)),
                truthy (get_address (toAddress re)) with
          | Some sw, Some ew =>
              Some {| transaction_hash := tx_hash;
                      start_wallet := sw;
                      end_wallet := ew;
                      start_entity_type := get_entity_type (fromAddress rs);
                      end_entity_type := get_entity_type (toAddress re);
                      timestamp := blockTimestamp first;
                      block_number := blockNumber first;
                      usd_value :=
                        Frame.sum_skipna (map historicalUSD tx_transfers);
                      token_symbol := display_name;
                      token_address := token;
                      flow_chain :=
                        match chain first with
                        | Some c => c
                        | None => "solana"
                        end;
                      hop_count := length tx_transfers;
                      is_self_transfer := String.eqb sw ew |}
          | _, _ => None
          end
      | _, _ => None
      end
  end.

Definition process_transfers_to_user_flows
           (display_name token : string) (df : list Transfer) : list UserFlow :=
  omap (fun g => process_group display_name token (fst g) (snd g))
       (Frame.groupby String.compare transactionHash df).

End DataFetcher.

(** ** analysis/wash_trading_detector.py *)
Module WashTradingDetector.
Import DataFetcher.

Record SelfTransferRow := {
  st_wallet : string;
  st_transfer_count : nat;
  st_total_volume_usd : Q;
  st_avg_volume_usd : Q
}.

Record RoundtripRow := {
  rt_wallet_a : string;
  rt_wallet_b : string;
  roundtrip_count : nat;
  total_transactions : nat
}.

Record HighFrequencyRow := {
  hf_wallet_a : string;
  hf_wallet_b : string;
  hf_transaction_count : nat
}.

Record CycleRow := {
  cycle_length : nat;
  wallets : list string
}.

Record VolumeRow := {
  vc_wallet : string;
  vc_total_volume_usd : Q
}.

Record ClusterRow := {
  tc_timestamp : Z;
  tc_transaction_count : nat
}.

(** The [results] dictionary once [run_all_analyses] has filled it; an
    analysis that found nothing holds an empty table. *)
Record Results := {
  self_transfers : list SelfTransferRow;
  rapid_roundtrips : list RoundtripRow;
  high_frequency_pairs : list HighFrequencyRow;
  circular_patterns : list CycleRow;
  volume_concentration : list VolumeRow;
  temporal_clustering : list ClusterRow
}.

(** [nx.DiGraph] restricted to what the detector stores: one weighted edge
    per ordered wallet pair, in insertion order. *)
Definition DiGraph := list (string * string * Q).

Definition same_edge (u v : string) (e : string * string * Q) : bool :=
  String.eqb (fst (fst e)) u && String.eqb (snd (fst e)) v.

Definition has_edge (G : DiGraph) (u v : string) : bool :=
  existsb (same_edge u v) G.

Definition add_weight (u v : string) (w : Q) (G : DiGraph) : DiGraph :=
  map (fun e => if same_edge u v e then (fst e, Qplus (snd e) w) else e) G.

Definition add_edge (u v : string) (w : Q) (G : DiGraph) : DiGraph :=
  G ++ [(u, v, w)].

Definition build_graph (flows : list UserFlow) : DiGraph :=
  fold_left (fun G row =>
               if has_edge G (start_wallet row) (end_wallet row)
               then add_weight (start_wallet row) (end_wallet row) (usd_value row) G
               else add_edge (start_wallet row) (end_wallet row) (usd_value row) G)
            flows [].

(** [tuple(sorted([start_wallet, end_wallet]))]. *)
Definition wallet_pair (row : UserFlow) : string * string :=
  if String.leb (start_wallet row) (end_wallet row)
  then (start_wallet row, end_wallet row)
  else (end_wallet row, start_wallet row).

(** Membership test of the group of a wallet pair. *)
Abbreviation in_pair p := (Frame.key_is Frame.pair_compare wallet_pair p).

Definition by_timestamp (a b : UserFlow) : bool :=
  (timestamp a <=? timestamp b)%Z.

(** [timedelta(hours=h)] in timestamp units (nanoseconds). *)
Definition timedelta_hours (h : Z) : Z := (h * 3600000000000)%Z.

Definition timedelta_minutes (m : Z) : Z := (m * 60000000000)%Z.

(** The detector object: its flow table and the suspicious-wallet set the
    detectors update in place. *)
Record Detector := {
  user_flows : list UserFlow;
  suspicious_wallets : gset string
}.

Definition init (flows : list UserFlow) : Detector :=
  {| user_flows := flows; suspicious_wallets := ∅ |}.

Definition update (d : Detector) (ws : list string) : Detector :=
  {| user_flows := user_flows d;
     suspicious_wallets := suspicious_wallets d ∪ list_to_set ws |}.

(** *** [1/6] self-transfers *)
Definition self_transfer_summary (g : string * list UserFlow) : SelfTransferRow :=
  let vols := map usd_value (snd g) in
  {| st_wallet := fst g;
     st_transfer_count := length (snd g);
     st_total_volume_usd := Frame.Qsum vols;
     st_avg_volume_usd :=
       Qdiv (Frame.Qsum vols) (inject_Z (Z.of_nat (length (snd g)))) |}.

Definition detect_self_transfers (d : Detector)
  : list SelfTransferRow * Detector :=
  let self_rows := List.filter is_self_transfer (user_flows d) in
  match self_rows with
  | [] => ([], d)
  | _ =>
      let summary :=
        Frame.sort_values
          (fun a b => (st_transfer_count b <=? st_transfer_count a)%nat)
          (map self_transfer_summary
               (Frame.groupby String.compare start_wallet self_rows)) in
      (summary, update d (map st_wallet summary))
  end.

(** *** [2/6] rapid round-trips *)
Definition matching_returns (window_end_offset : Z) (b_to_a : list UserFlow)
           (out_transfer : UserFlow) : list UserFlow :=
  List.filter
    (fun r => (timestamp out_transfer <? timestamp r)%Z
              && (timestamp r <=? timestamp out_transfer + window_end_offset)%Z)
    b_to_a.

Definition count_roundtrips (time_threshold_hours : Z)
           (a_to_b b_to_a : list UserFlow) : nat :=
  fold_left
    (fun acc out_transfer =>
       (acc + length (matching_returns (timedelta_hours time_threshold_hours)
                                       b_to_a out_transfer))%nat)
    a_to_b 0%nat.

Definition roundtrip_of_group (time_threshold_hours : Z)
           (g : (string * string) * list UserFlow) : option RoundtripRow :=
  let group := snd g in
  if (length group <? 2)%nat then None
  else
    let wallet_a := fst (fst g) in
    let wallet_b := snd (fst g) in
    let a_to_b :=
      Frame.sort_values by_timestamp
        (List.filter (fun r => String.eqb (start_wallet r) wallet_a) group) in
    let b_to_a :=
      Frame.sort_values by_timestamp
        (List.filter (fun r => String.eqb (start_wallet r) wallet_b) group) in
    match a_to_b, b_to_a with
    | [], _ | _, [] => None
    | _, _ =>
        let n := count_roundtrips time_threshold_hours a_to_b b_to_a in
        if (2 <=? n)%nat
        then Some {| rt_wallet_a := wallet_a;
                     rt_wallet_b := wallet_b;
                     roundtrip_count := n;
                     total_transactions := length group |}
        else None
    end.

Definition detect_rapid_roundtrips (time_threshold_hours : Z) (d : Detector)
  : list RoundtripRow * Detector :=
  let roundtrips :=
    omap (roundtrip_of_group time_threshold_hours)
         (Frame.groupby Frame.pair_compare wallet_pair (user_flows d)) in
  match roundtrips with
  | [] => ([], d)
  | _ => (roundtrips,
          update (update d (map rt_wallet_a roundtrips))
                 (map rt_wallet_b roundtrips))
  end.

(** *** [3/6] high-frequency pairs *)
Definition detect_high_frequency_pairs (min_transactions : Z) (d : Detector)
  : list HighFrequencyRow * Detector :=
  let pair_counts :=
    map (fun g => (fst g, length (snd g)))
        (Frame.groupby Frame.pair_compare wallet_pair (user_flows d)) in
  let high_freq_pairs :=
    List.filter (fun pc => (min_transactions <=? Z.of_nat (snd pc))%Z)
                pair_counts in
  match high_freq_pairs with
  | [] => ([], d)
  | _ =>
      let result :=
        Frame.sort_values
          (fun a b => (hf_transaction_count b <=? hf_transaction_count a)%nat)
          (map (fun pc => {| hf_wallet_a := fst (fst pc);
                             hf_wallet_b := snd (fst pc);
                             hf_transaction_count := snd pc |})
               high_freq_pairs) in
      (result,
       update (update d (map hf_wallet_a result)) (map hf_wallet_b result))
  end.

(** *** [5/6] volume concentration *)
Definition volume_by (key : UserFlow -> string) (flows : list UserFlow)
  : list (string * Q) :=
  map (fun g => (fst g, Frame.Qsum (map usd_value (snd g))))
      (Frame.groupby String.compare key flows).

Definition lookup_volume (w : string) (s : list (string * Q)) : Q :=
  match List.find (fun kv => String.eqb (fst kv) w) s with
  | Some kv => snd kv
  | None => 0%Q
  end.

(** [start_volume.add(end_volume, fill_value=0)]. *)
Definition add_fill (s1 s2 : list (string * Q)) : list (string * Q) :=
  map (fun w => (w, Qplus (lookup_volume w s1) (lookup_volume w s2)))
      (Frame.unique_keys String.compare (fun w : string => w)
                         (map fst s1 ++ map fst s2)).

Definition analyze_volume_concentration (top_n : Z) (d : Detector)
  : list VolumeRow * Detector :=
  let start_volume := volume_by start_wallet (user_flows d) in
  let end_volume := volume_by end_wallet (user_flows d) in
  let total_volume :=
    Frame.sort_values (fun a b => Qle_bool (snd b) (snd a))
                      (add_fill start_volume end_volume) in
  let top_wallets := Frame.head top_n total_volume in
  (map (fun kv => {| vc_wallet := fst kv; vc_total_volume_usd := snd kv |})
       top_wallets, d).

(** *** [6/6] temporal clustering *)
Definition floor_to (window : Z) (t : Z) : Z := (t - t mod window)%Z.

Definition detect_temporal_clustering (time_window_minutes : Z) (d : Detector)
  : list ClusterRow * Detector :=
  let clusters :=
    map (fun g => (fst g, length (snd g)))
        (Frame.groupby Z.compare
           (fun r => floor_to (timedelta_minutes time_window_minutes) (timestamp r))
           (user_flows d)) in
  let significant_clusters :=
    List.filter (fun c => (3 <=? snd c)%nat) clusters in
  (map (fun c => {| tc_timestamp := fst c; tc_transaction_count := snd c |})
       significant_clusters, d).

(** *** [4/6] circular patterns and the driver.  [nx.simple_cycles] is
    the graph library's enumeration; [None] stands for an exception
    raised while the cycles are listed. *)
Section WithCycleEnumeration.
Variable simple_cycles : DiGraph -> option (list (list string)).

Definition keep_cycle (max_cycle_length : Z) (cycle : list string) : bool :=
    (2 <=? Z.of_nat (length cycle))%Z
    && (Z.of_nat (length cycle) <=? max_cycle_length)%Z.

Definition detect_circular_patterns (max_cycle_length : Z) (d : Detector)
    : list CycleRow * Detector :=
    let G := build_graph (user_flows d) in
    match simple_cycles G with
    | None => ([], d)
    | Some cycles =>
        fold_left
          (fun acc cycle =>
             if keep_cycle max_cycle_length cycle
             then (fst acc ++ [{| cycle_length := length cycle;
                                  wallets := cycle |}],
                   update (snd acc) cycle)
             else acc)
          (firstn 1000 cycles) ([], d)
    end.

Definition run_all_analyses (d : Detector) : Results * Detector :=
    let '(r1, d1) := detect_self_transfers d in
    let '(r2, d2) := detect_rapid_roundtrips 24 d1 in
    let '(r3, d3) := detect_high_frequency_pairs 10 d2 in
    let '(r4, d4) := detect_circular_patterns 4 d3 in
    let '(r5, d5) := analyze_volume_concentration 20 d4 in
    let '(r6, d6) := detect_temporal_clustering 5 d5 in
    ({| self_transfers := r1;
        rapid_roundtrips := r2;
        high_frequency_pairs := r3;
        circular_patterns := r4;
        volume_concentration := r5;
        temporal_clustering := r6 |}, d6).
End WithCycleEnumeration.

End WashTradingDetector.

(** ** analysis/bot_detector.py *)
Module BotDetector.
Import DataFetcher.

(** *** Endpoint payloads.  [None] is the absence marker of a failed or
    unconfigured fetch (also a payload without its list key); inside a
    table, [None] is a missing cell.  For [blockTimestamp], as for
    [arkhamEntity], the outer [None] is a row without the key and
    [Some None] a row whose cell is null: the column exists as soon as
    one row has the key. *)
Record TransferRow := {
  tr_blockTimestamp : option (option Z);
  tr_historicalUSD : option Q
}.

Record CounterpartyRow := {
  totalVolumeUSD : option Q;
  arkhamEntity : option (option string)
}.

Record ChainIntel := {
  tags : list string;
  entityPredictions : bool
}.

Record BalanceRow := { balanceUSD : option Q }.

Record FlowRow := { inflowUSD : option Q; outflowUSD : option Q }.

Record WalletData := {
  transfers : option (list TransferRow);
  counterparties : option (list CounterpartyRow);
  intelligence : option (list ChainIntel);
  balances : option (list BalanceRow);
  flow : option (list FlowRow)
}.

(** Values of the feature dictionary. *)
Inductive Value :=
| Num (q : Q)
| Flag (b : bool)
| Text (s : string).

Abbreviation Features := (gmap string Value).

(** [features.get(key, default)] read as a number / as a truth value. *)
Definition get_num (f : Features) (key : string) (default : Q) : Q :=
  match f !! key with
  | Some (Num q) => q
  | _ => default
  end.

Definition get_flag (f : Features) (key : string) (default : bool) : bool :=
  match f !! key with
  | Some (Flag b) => b
  | _ => default
  end.

Definition Qnat (n : nat) : Q := inject_Z (Z.of_nat n).

Definition mean (l : list Q) : Q := Qdiv (Frame.Qsum l) (Qnat (length l)).

Definition dropna {A : Type} (l : list (option A)) : list A :=
  omap (fun x => x) l.

Definition column_present {A : Type} (l : list (option A)) : bool :=
  existsb (fun o => match o with Some _ => true | None => false end) l.

Definition Zmaximum (l : list Z) : Z := fold_right Z.max (hd 0%Z l) l.
Definition Zminimum (l : list Z) : Z := fold_right Z.min (hd 0%Z l) l.
Definition Qmaximum (l : list Q) : Q := fold_right Qmax (hd 0%Q l) l.

(** [Series.diff()] followed by [dropna()]. *)
Fixpoint diffs (l : list (option Z)) : list Z :=
  match l with
  | a :: ((b :: _) as l') =>
      match a, b with
      | Some x, Some y => (y - x)%Z :: diffs l'
      | _, _ => diffs l'
      end
  | _ => []
  end.

Definition seconds (ns : Z) : Q := Qmake ns 1000000000.

Definition hour_of (ns : Z) : Z := ((ns / 3600000000000) mod 24)%Z.

Definition bot_keywords : list string :=
  ["bot"; "mev"; "flashbot"; "arbitrage"; "automated"; "sniper"].

Fixpoint prefix (p s : string) : bool :=
  match p, s with
  | EmptyString, _ => true
  | String a p', String b s' => Ascii.eqb a b && prefix p' s'
  | String _ _, EmptyString => false
  end.

(** [keyword in text] on Python strings. *)
Fixpoint contains (keyword text : string) : bool :=
  prefix keyword text
  || match text with
     | EmptyString => false
     | String _ text' => contains keyword text'
     end.

Definition lower_ascii (c : ascii) : ascii :=
  let n := nat_of_ascii c in
  if ((65 <=? n) && (n <=? 90))%nat then ascii_of_nat (n + 32) else c.

Fixpoint lower (s : string) : string :=
  match s with
  | EmptyString => EmptyString
  | String c s' => String (lower_ascii c) (lower s')
  end.

(** Distinct values of a column, in order of first appearance. *)
Fixpoint unique (l : list string) : list string :=
  match l with
  | [] => []
  | x :: l' => x :: List.filter (fun y => negb (String.eqb y x)) (unique l')
  end.

Definition Qgtb (x y : Q) : bool := Frame.Qltb y x.

(** Writes a cell unless its value is NaN or infinite ([None]): such a
    cell is only ever compared with a threshold, which fails for it as
    it fails for the default of the comparison. *)
Definition set_num (key : string) (v : option Q) (f : Features) : Features :=
  match v with
  | Some q => <[key := Num q]> f
  | None => f
  end.

Section WithStatistics.
  (** [Series.std()] (sample standard deviation, [None] when it is NaN)
      and the decimal-place count of the formatted float come from the
      numeric libraries. *)
Variable std : list Q -> option Q.
Variable count_decimals : Q -> nat.

  (** [x.std() / (x.mean() + 1)]; a zero divisor gives NaN or infinity. *)
Definition cv (l : list Q) : option Q :=
    match std l with
    | Some s =>
        if Qeq_bool (Qplus (mean l) 1) 0 then None
        else Some (Qdiv s (Qplus (mean l) 1))
    | None => None
    end.

  (** Without a single timestamp in an existing column [max() - min()]
      is NaT and the rate NaN; no hour is then an off hour. *)
Definition timing_features (rows : list TransferRow) (f : Features) : Features :=
    if column_present (map tr_blockTimestamp rows) then
      let stamps :=
        map (fun r => match tr_blockTimestamp r with
                      | Some cell => cell
                      | None => None
                      end) rows in
      let times := dropna stamps in
      let time_span :=
        Qdiv (seconds (Zmaximum times - Zminimum times)) (3600 # 1) in
      let f1 :=
        set_num "api_txs_per_hour"
                (match times with
                 | [] => None
                 | _ => Some (Qdiv (Qnat (length rows)) (Qmax time_span 1))
                 end) f in
      let off_hours :=
        length (List.filter
                  (fun t => (0 <=? hour_of t)%Z && (hour_of t <=? 6)%Z) times) in
      let f2 :=
        <["api_off_hours_ratio" :=
            Num (Qdiv (Qnat off_hours) (Qnat (length rows)))]> f1 in
      let time_diffs := map seconds (diffs stamps) in
      match time_diffs with
      | [] => f2
      | _ => set_num "api_time_regularity_cv" (cv time_diffs) f2
      end
    else f.

Definition value_features (rows : list TransferRow) (f : Features) : Features :=
    let cells := map tr_historicalUSD rows in
    if column_present cells then
      let usd_values := dropna cells in
      match usd_values with
      | [] => f
      | _ =>
          let f1 := set_num "api_value_cv" (cv usd_values) f in
          <["api_avg_decimal_places" :=
              Num (mean (map (fun v => Qnat (count_decimals v)) usd_values))]> f1
      end
    else f.

Definition transfers_features (payload : option (list TransferRow))
             (f : Features) : Features :=
    match payload with
    | None | Some [] => f
    | Some rows =>
        let f1 := <["api_transfer_count" := Num (Qnat (length rows))]> f in
        let f2 :=
          <["api_total_volume" :=
              Num (Frame.sum_skipna (map tr_historicalUSD rows))]> f1 in
        value_features rows (timing_features rows f2)
    end.

Definition entity_ratio (kind : string) (rows : list CounterpartyRow) : Q :=
    Qdiv (Qnat (length (List.filter
                          (fun r => match arkhamEntity r with
                                    | Some (Some t) => String.eqb t kind
                                    | _ => false
                                    end) rows)))
         (Qnat (length rows)).

Definition counterparties_features (payload : option (list CounterpartyRow))
             (f : Features) : Features :=
    match payload with
    | None | Some [] => f
    | Some ((first :: _) as rows) =>
        let f1 := <["cp_unique_counterparties" := Num (Qnat (length rows))]> f in
        let f2 :=
          if column_present (map totalVolumeUSD rows) then
            let total_vol := Frame.sum_skipna (map totalVolumeUSD rows) in
            if Qgtb total_vol 0 then
              set_num "cp_top_counterparty_ratio"
                      (match totalVolumeUSD first with
                       | Some v => Some (Qdiv v total_vol)
                       | None => None
                       end) f1
            else f1
          else f1 in
        if column_present (map arkhamEntity rows) then
          <["cp_cex_ratio" := Num (entity_ratio "cex" rows)]>
            (<["cp_dex_ratio" := Num (entity_ratio "dex" rows)]> f2)
        else f2
    end.

Definition intelligence_features (payload : option (list ChainIntel))
             (f : Features) : Features :=
    match payload with
    | None | Some [] => f
    | Some intel =>
        let all_tags := concat (map tags intel) in
        let has_prediction := existsb entityPredictions intel in
        let f1 := <["intel_tag_count" := Num (Qnat (length (unique all_tags)))]> f in
        let f2 := <["intel_has_entity_prediction" := Flag has_prediction]> f1 in
        <["intel_has_bot_tag" :=
            Flag (existsb (fun tag =>
                             existsb (fun keyword => contains keyword (lower tag))
                                     bot_keywords) all_tags)]> f2
    end.

Definition balances_features (payload : option (list BalanceRow))
             (f : Features) : Features :=
    match payload with
    | None | Some [] => f
    | Some rows =>
        let f1 := <["bal_token_diversity" := Num (Qnat (length rows))]> f in
        if column_present (map balanceUSD rows) then
          let total := Frame.sum_skipna (map balanceUSD rows) in
          let f2 := <["bal_total_usd" := Num total]> f1 in
          if Qgtb total 0 then
            <["bal_portfolio_concentration" :=
                Num (Qdiv (Qmaximum (dropna (map balanceUSD rows))) total)]> f2
          else f2
        else f1
    end.

Definition flow_features (payload : option (list FlowRow))
             (f : Features) : Features :=
    match payload with
    | None | Some [] => f
    | Some rows =>
        if column_present (map inflowUSD rows)
           && column_present (map outflowUSD rows) then
          let total_inflow := Frame.sum_skipna (map inflowUSD rows) in
          let total_outflow := Frame.sum_skipna (map outflowUSD rows) in
          if Qgtb (Qplus total_inflow total_outflow) 0 then
            <["flow_balance_ratio" :=
                Num (Qdiv (Qminus total_inflow total_outflow)
                          (Qplus total_inflow total_outflow))]> f
          else f
        else f
    end.

Definition extract_features (wallet_data : gmap string WalletData)
             (wallet : string) : Features :=
    match wallet_data !! wallet with
    | None => ∅
    | Some data =>
        let features : Features := {[ "wallet" := Text wallet ]} in
        flow_features (flow data)
          (balances_features (balances data)
             (intelligence_features (intelligence data)
                (counterparties_features (counterparties data)
                   (transfers_features (transfers data) features))))
    end.
End WithStatistics.

(** *** Scoring *)
Definition high_frequency_txs_per_hour : Q := 10 # 1.
Definition precision_decimals : Q := 4 # 1.
Definition counterparty_diversity : Q := 5 # 1.
Definition off_hours_ratio : Q := 2 # 5.

Definition w_timing : Q := 1 # 5.
Definition w_patterns : Q := 1 # 5.
Definition w_counterparty : Q := 1 # 5.
Definition w_intelligence : Q := 1 # 4.
Definition w_portfolio : Q := 1 # 10.
Definition w_flow : Q := 1 # 20.

(** One [if cond: score += points; reasoning[name] = True] statement. *)
Definition rule (cond : bool) (points : Q) (name : string)
           (acc : Q * list string) : Q * list string :=
  if cond then (Qplus (fst acc) points, snd acc ++ [name]) else acc.

Definition timing (f : Features) (reasoning : list string) : Q * list string :=
  rule (Qgtb (get_num f "api_off_hours_ratio" 0) off_hours_ratio)
       (2 # 1) "off_hours_active"
    (rule (Frame.Qltb (get_num f "api_time_regularity_cv" 1) (1 # 2))
          (3 # 2) "regular_timing"
       (rule (Qgtb (get_num f "api_txs_per_hour" 0) high_frequency_txs_per_hour)
             (3 # 2) "high_frequency" (0%Q, reasoning))).

Definition patterns (f : Features) (reasoning : list string) : Q * list string :=
  rule (Frame.Qltb (get_num f "api_value_cv" 1) (3 # 10))
       (3 # 2) "consistent_values"
    (rule (Qle_bool precision_decimals (get_num f "api_avg_decimal_places" 0))
          (3 # 2) "precise_values" (0%Q, reasoning)).

Definition counterparty (f : Features) (reasoning : list string) : Q * list string :=
  rule (Qgtb (get_num f "cp_top_counterparty_ratio" 0) (3 # 5))
       (2 # 1) "concentrated_trading"
    (rule (Frame.Qltb (get_num f "cp_unique_counterparties" (100 # 1))
                      counterparty_diversity)
          (2 # 1) "limited_counterparties" (0%Q, reasoning)).

Definition intelligence_score (f : Features) (reasoning : list string)
  : Q * list string :=
  if get_flag f "intel_has_bot_tag" false
  then ((3 # 1)%Q, reasoning ++ ["bot_tag_detected"])
  else if get_flag f "intel_has_entity_prediction" false
       then ((1 # 1)%Q, reasoning ++ ["known_entity"])
       else (0%Q, reasoning).

Definition portfolio (f : Features) (reasoning : list string) : Q * list string :=
  rule (Frame.Qltb (get_num f "bal_token_diversity" (100 # 1)) (3 # 1))
       (1 # 1) "low_diversity"
    (rule (Qgtb (get_num f "bal_portfolio_concentration" 0) (9 # 10))
          (1 # 1) "concentrated_portfolio" (0%Q, reasoning)).

Definition flow_score (f : Features) (reasoning : list string) : Q * list string :=
  rule (Frame.Qltb (Qabs (get_num f "flow_balance_ratio" 0)) (1 # 10))
       (1 # 1) "balanced_flow" (0%Q, reasoning).

Definition calculate_bot_score (f : Features) : Q * list string :=
  let '(timing_score, r1) := timing f [] in
  let score1 := Qmult (Qdiv timing_score (5 # 1)) w_timing in
  let '(pattern_score, r2) := patterns f r1 in
  let score2 := Qplus score1 (Qmult (Qdiv pattern_score (3 # 1)) w_patterns) in
  let '(cp_score, r3) := counterparty f r2 in
  let score3 := Qplus score2 (Qmult (Qdiv cp_score (4 # 1)) w_counterparty) in
  let '(intel_score, r4) := intelligence_score f r3 in
  let score4 := Qplus score3 (Qmult (Qdiv intel_score (3 # 1)) w_intelligence) in
  let '(port_score, r5) := portfolio f r4 in
  let score5 := Qplus score4 (Qmult (Qdiv port_score (2 # 1)) w_portfolio) in
  let '(fl_score, r6) := flow_score f r5 in
  let score6 := Qplus score5 (Qmult (Qdiv fl_score (1 # 1)) w_flow) in
  let max_score :=
    Qplus (Qplus (Qplus (Qplus (Qplus w_timing w_patterns) w_counterparty)
                        w_intelligence) w_portfolio) w_flow in
  (if Qgtb max_score 0 then Qdiv score6 max_score else 0%Q, r6).

(** *** Classification *)
Record Classified := {
  wallet : string;
  features : Features;
  bot_score : Q;
  bot_confidence : string;
  classification : string;
  reasoning : list string
}.

Definition occurrences (w : string) (col : list string) : nat :=
  length (List.filter (String.eqb w) col).

(** [Series.value_counts()]: one entry per distinct value, most frequent
    first. *)
Definition value_counts (col : list string) : list (string * nat) :=
  Frame.sort_values (fun a b => (snd b <=? snd a)%nat)
                    (map (fun w => (w, occurrences w col)) (unique col)).

Definition count_of (w : string) (counts : list (string * nat)) : nat :=
  match List.find (fun c => String.eqb (fst c) w) counts with
  | Some c => snd c
  | None => 0%nat
  end.

(** The eligibility list of [classify_wallets]: [end_wallets] is
    re-indexed on the index of [start_wallets] before the addition. *)
Definition eligible_wallets (flows : list UserFlow)
           (min_transactions : Z) (sample_size : option Z) : list string :=
  let start_wallets := value_counts (map start_wallet flows) in
  let end_wallets := value_counts (map end_wallet flows) in
  let all_wallets :=
    Frame.sort_values (fun a b => (snd b <=? snd a)%nat)
      (map (fun c => (fst c, (snd c + count_of (fst c) end_wallets)%nat))
           start_wallets) in
  let eligible :=
    map fst (List.filter (fun c => (min_transactions <=? Z.of_nat (snd c))%Z)
                         all_wallets) in
  match sample_size with
  | Some n => if (n =? 0)%Z then eligible else Frame.head n eligible
  | None => eligible
  end.

Section WithProvider.
Variable std : list Q -> option Q.
Variable count_decimals : Q -> nat.
  (** What the data provider answers for a wallet on the configured
      endpoints. *)
Variable api : string -> WalletData.

Definition batch_fetch_wallet_data (wallets : list string)
    : gmap string WalletData :=
    list_to_map (map (fun w => (w, api w)) wallets).

Definition classify_one (flows : list UserFlow)
             (wallet_data : gmap string WalletData) (w : string) : Classified :=
    let wallet_txs :=
      List.filter (fun r => String.eqb (start_wallet r) w
                            || String.eqb (end_wallet r) w) flows in
    let local : Features :=
      <["local_volume_usd" := Num (Frame.Qsum (map usd_value wallet_txs))]>
        (<["local_tx_count" := Num (Qnat (length wallet_txs))]>
           {[ "wallet" := Text w ]}) in
    let f : Features := extract_features std count_decimals wallet_data w ∪ local in
    let '(score, why) := calculate_bot_score f in
    {| wallet := w;
       features := f;
       bot_score := score;
       bot_confidence :=
         if Qgtb score (7 # 10) then "HIGH"
         else if Qgtb score (2 # 5) then "MEDIUM" else "LOW";
       classification :=
         if Qgtb score (3 # 5) then "BOT"
         else if Qgtb score (2 # 5) then "UNCERTAIN" else "HUMAN";
       reasoning := why |}.

Definition classify_wallets (flows : list UserFlow)
             (min_transactions : Z) (sample_size : option Z) : list Classified :=
    let eligible := eligible_wallets flows min_transactions sample_size in
    let wallet_data := batch_fetch_wallet_data eligible in
    Frame.sort_values (fun a b => Qle_bool (bot_score b) (bot_score a))
                      (map (classify_one flows wallet_data) eligible).
End WithProvider.

End BotDetector.

(** ** srs/holder_analyzer.py *)
Module HolderAnalyzer.

(** One entry of [addressTopHolders]. *)
Record HolderEntry := {
  entry_address : option string;
  arkhamEntity_name : option string;
  arkhamLabel_name : option string;
  balance : Q;
  usd : Q;
  pctOfCap : Q
}.

(** One row of [df_holders]. *)
Record Holder := {
  Address : string;
  Label : string;
  Balance : Q;
  USD_Value : Q;
  Holding_pct : Q;
  Rank : nat
}.

Record Metrics := {
  top_3_ratio : Q;
  top_10_ratio : Q;
  whale_dominance : Q;
  (** [None]: the float division did not produce a finite number. *)
  gini_coefficient : option Q
}.

Definition nonempty_name (o : option string) : option string :=
  match o with
  | Some s => if String.eqb s "" then None else Some s
  | None => None
  end.

Definition _extract_label (e : HolderEntry) : string :=
  match nonempty_name (arkhamEntity_name e) with
  | Some n => n
  | None =>
      match nonempty_name (arkhamLabel_name e) with
      | Some n => n
      | None => "Wallet"
      end
  end.

Definition by_holding_desc (a b : Holder) : bool :=
  Qle_bool (Holding_pct b) (Holding_pct a).

Fixpoint assign_rank (i : nat) (l : list Holder) : list Holder :=
  match l with
  | [] => []
  | h :: l' =>
      {| Address := Address h; Label := Label h; Balance := Balance h;
         USD_Value := USD_Value h; Holding_pct := Holding_pct h;
         Rank := S i |} :: assign_rank (S i) l'
  end.

Definition process_holder_data (holders_data : list HolderEntry) : list Holder :=
  assign_rank 0
    (Frame.sort_values by_holding_desc
       (map (fun e => {| Address := match entry_address e with
                                     | Some a => a
                                     | None => "Unknown"
                                     end;
                         Label := _extract_label e;
                         Balance := balance e;
                         USD_Value := usd e;
                         Holding_pct := Qmult (pctOfCap e) (100 # 1);
                         Rank := 0 |})
            holders_data)).

(** [(2 * index * sorted_holdings).sum()] with [index] starting at [i]. *)
Fixpoint ranked_sum (i : nat) (sorted_holdings : list Q) : Q :=
  match sorted_holdings with
  | [] => 0%Q
  | x :: l =>
      Qplus (Qmult (Qmult (2 # 1) (inject_Z (Z.of_nat i))) x) (ranked_sum (S i) l)
  end.

Definition gini (holdings : list Q) : option Q :=
  let sorted_holdings := Frame.sort_values Qle_bool holdings in
  let n := inject_Z (Z.of_nat (length sorted_holdings)) in
  match sorted_holdings with
  | [] => Some 0%Q
  | _ =>
      let numerator := ranked_sum 1 sorted_holdings in
      let denominator := Qmult n (Frame.Qsum sorted_holdings) in
      if Qeq_bool denominator 0 then None
      else Some (Qminus (Qdiv numerator denominator)
                        (Qdiv (Qplus n 1) n))
  end.

Definition calculate_concentration_metrics (df_holders : option (list Holder))
  : Metrics :=
  match df_holders with
  | None | Some [] =>
      {| top_3_ratio := 0; top_10_ratio := 0; whale_dominance := 0;
         gini_coefficient := Some 0%Q |}
  | Some ((first :: _) as rows) =>
      {| top_3_ratio := Frame.Qsum (map Holding_pct (Frame.head 3 rows));
         top_10_ratio := Frame.Qsum (map Holding_pct (Frame.head 10 rows));
         whale_dominance := Holding_pct first;
         gini_coefficient := gini (map Holding_pct rows) |}
  end.

(** The addresses [run_analysis] hands to the risk analysis. *)
Definition top_holders (df_holders : option (list Holder)) : list string :=
  match df_holders with
  | None => []
  | Some rows => map Address (Frame.head 50 rows)
  end.

End HolderAnalyzer.

(** ** srs/holder_analyzer.py: the Gini coefficient in double precision

  [HolderAnalyzer.gini] gives the value of the expression in exact
  arithmetic.  Here every operation is the IEEE 754 binary64 operation
  that Python and numpy perform, in the order of the source. *)
Module Binary64.
Import PrimFloat.
Local Open Scope float_scope.

(** [float(n)] of a non-negative integer (exact below [2^53]). *)
Fixpoint of_nat (n : nat) : float :=
  match n with
  | O => 0
  | S n' => of_nat n' + 1
  end.

(** ["Holding %": pct_of_cap * 100] of [process_holder_data]. *)
Definition holding_pct (pct_of_cap : float) : float := pct_of_cap * 100.

(** [Series.sum()]: the cells are added in row order.  numpy may group
    the additions of a longer column differently; for the two-cell
    columns evaluated in this file there is one addition only. *)
Definition sum (l : list float) : float := fold_left add l 0.

(** [2 * index * sorted_holdings] with [index] starting at [i]. *)
Fixpoint ranked_terms (i : nat) (sorted_holdings : list float) : list float :=
  match sorted_holdings with
  | [] => []
  | x :: l => of_nat (2 * i) * x :: ranked_terms (S i) l
  end.

Definition gini_coeff (holdings : list float) : float :=
  let sorted_holdings := Frame.sort_values leb holdings in
  let n := length sorted_holdings in
  match n with
  | O => 0
  | _ =>
      let numerator := sum (ranked_terms 1 sorted_holdings) in
      let denominator := of_nat n * sum sorted_holdings in
      numerator / denominator - of_nat (n + 1) / of_nat n
  end.

End Binary64.

(** ** srs/full_risk_score_analysis.py *)
Module RiskScoreAnalyzer.
Import WashTradingDetector.

Record RiskRow := {
  wallet : string;
  risk_level : string;
  risk_score : Q;
  bot_score : Q;
  bot_classification : string;
  bot_confidence : string;
  is_wash_trading : bool;
  wash_trading_flags : list string;
  wash_flag_count : nat;
  is_top_holder : bool;
  risk_threat : string
}.

Record TokenRisk := {
  token_risk_score : Q;
  risk_components : gmap string Q
}.

Definition _calculate_risk_level (bot_score : Q) (bot_classification : string)
           (is_wash_trading : bool) (wash_flag_count : nat)
           (is_top_holder : bool) : string * Q :=
  let s0 := Qplus 0 (Qmult bot_score (50 # 1)) in
  let s1 :=
    if is_wash_trading
    then Qplus s0 (inject_Z (Z.min (Z.of_nat wash_flag_count * 15) 50))
    else s0 in
  let s2 :=
    if is_top_holder then
      if is_wash_trading || String.eqb bot_classification "BOT"
      then (100 # 1)%Q
      else Qplus s1 (20 # 1)
    else s1 in
  let risk_score := Qmin s2 (100 # 1) in
  let risk_level :=
    if Qle_bool (75 # 1) risk_score then "CRITICAL"
    else if Qle_bool (50 # 1) risk_score then "HIGH"
    else if Qle_bool (25 # 1) risk_score then "MEDIUM"
    else "LOW" in
  (risk_level, risk_score).

(** The loop over [wash_detector.results.items()], in insertion order. *)
Definition wash_flags (results : Results) (w : string) : list string :=
  (if Frame.isin w (map st_wallet (self_transfers results))
   then ["self_transfers"] else [])
  ++ (if Frame.isin w (map rt_wallet_a (rapid_roundtrips results))
         || Frame.isin w (map rt_wallet_b (rapid_roundtrips results))
      then ["rapid_roundtrips"] else [])
  ++ (if Frame.isin w (map hf_wallet_a (high_frequency_pairs results))
         || Frame.isin w (map hf_wallet_b (high_frequency_pairs results))
      then ["high_frequency_pairs"] else [])
  ++ (if existsb (fun row => Frame.isin w (wallets row)) (circular_patterns results)
      then ["circular_patterns"] else [])
  ++ (if Frame.isin w (map vc_wallet (volume_concentration results))
      then ["volume_concentration"] else []).

Definition risk_row (results : Results) (wash_wallets : gset string)
           (bot_results : list BotDetector.Classified)
           (top_holders : list string) (w : string) : RiskRow :=
  let bot_row :=
    List.find (fun r => String.eqb (BotDetector.wallet r) w) bot_results in
  let bscore :=
    match bot_row with Some r => BotDetector.bot_score r | None => 0%Q end in
  let bclass :=
    match bot_row with
    | Some r => BotDetector.classification r
    | None => "UNKNOWN"
    end in
  let bconf :=
    match bot_row with
    | Some r => BotDetector.bot_confidence r
    | None => "N/A"
    end in
  let wash := bool_decide (w ∈ wash_wallets) in
  let flags := wash_flags results w in
  let whale := Frame.isin w top_holders in
  let '(level, score) :=
    _calculate_risk_level bscore bclass wash (length flags) whale in
  {| wallet := w;
     risk_level := level;
     risk_score := score;
     bot_score := bscore;
     bot_classification := bclass;
     bot_confidence := bconf;
     is_wash_trading := wash;
     wash_trading_flags := flags;
     wash_flag_count := length flags;
     is_top_holder := whale;
     risk_threat :=
       if String.eqb bclass "BOT" && wash then "CRITICAL"
       else if String.eqb bclass "BOT" || wash then "HIGH"
       else if String.eqb bclass "UNCERTAIN" then "MEDIUM" else "LOW" |}.

Definition ratio (count total : nat) : Q :=
  if (0 <? total)%nat
  then Qdiv (inject_Z (Z.of_nat count)) (inject_Z (Z.of_nat total))
  else 0%Q.

Definition metric (holder_metrics : gmap string Q) (key : string) : Q :=
  match holder_metrics !! key with
  | Some v => v
  | None => 0%Q
  end.

Definition calculate_token_risk_score (risk_results : option (list RiskRow))
           (holder_metrics : gmap string Q) : TokenRisk :=
  if bool_decide (holder_metrics = ∅)
  then {| token_risk_score := 0; risk_components := ∅ |}
  else
    let conc0 := Qmin (Qmult (metric holder_metrics "top_10_ratio") (5 # 4)) (100 # 1) in
    let conc_score :=
      if Frame.Qltb (9 # 10) (metric holder_metrics "gini_coefficient")
      then Qmax conc0 (90 # 1) else conc0 in
    let rows := match risk_results with Some r => r | None => [] end in
    let total_wallets := length rows in
    let bot_count :=
      length (List.filter (fun r => String.eqb (bot_classification r) "BOT") rows) in
    let bot_ratio := ratio bot_count total_wallets in
    let bot_score := Qmin (Qmult bot_ratio (333 # 1)) (100 # 1) in
    let wash_count := length (List.filter is_wash_trading rows) in
    let wash_ratio := ratio wash_count total_wallets in
    let wash_score := Qmin (Qmult wash_ratio (500 # 1)) (100 # 1) in
    let final_token_score :=
      Qplus (Qplus (Qmult conc_score (2 # 5)) (Qmult bot_score (3 # 10)))
            (Qmult wash_score (3 # 10)) in
    {| token_risk_score := final_token_score;
       risk_components :=
         <["wash_ratio" := wash_ratio]>
           (<["bot_ratio" := bot_ratio]>
              (<["wash_trading_risk" := wash_score]>
                 (<["bot_activity_risk" := bot_score]>
                    {[ "concentration_risk" := conc_score ]}))) |}.

(** [create_risk_analysis]: the risk table, sorted by decreasing score,
    and the token-level data when holder metrics were given. *)
Definition create_risk_analysis (results : Results) (wash_wallets : gset string)
           (bot_results : list BotDetector.Classified)
           (holder_metrics : gmap string Q) (top_holders : list string)
  : list RiskRow * option TokenRisk :=
  let all_wallets : gset string :=
    list_to_set (map BotDetector.wallet bot_results) ∪ wash_wallets in
  let risk_results :=
    Frame.sort_values (fun a b => Qle_bool (risk_score b) (risk_score a))
      (map (risk_row results wash_wallets bot_results top_holders)
           (elements all_wallets)) in
  (risk_results,
   if bool_decide (holder_metrics = ∅) then None
   else Some (calculate_token_risk_score (Some risk_results) holder_metrics)).

End RiskScoreAnalyzer.

(** ** analysis/combined_analyzer.py *)
Module CombinedAnalyzer.

Definition _calculate_risk_level (bot_score : Q) (bot_classification : string)
           (is_wash_trading : bool) (wash_flag_count : nat) : string * Q :=
  let s0 := Qplus 0 (Qmult bot_score (50 # 1)) in
  let s1 :=
    if is_wash_trading
    then Qplus s0 (inject_Z (Z.min (Z.of_nat wash_flag_count * 15) 50))
    else s0 in
  let risk_score := Qmin s1 (100 # 1) in
  let risk_level :=
    if Qle_bool (75 # 1) risk_score then "CRITICAL"
    else if Qle_bool (50 # 1) risk_score then "HIGH"
    else if Qle_bool (25 # 1) risk_score then "MEDIUM"
    else "LOW" in
  (risk_level, risk_score).

End CombinedAnalyzer.


(** ** The flow extractor as the design document words it *)
Module FlowSpec.
Import DataFetcher.

Definition by_log_index (a b : Transfer) : bool :=
  (log_index a <=? log_index b)%Z.

(** Hops ordered by [log_index]; start wallet from the first hop, going
    forward, whose sender is no intermediary; end wallet from the first
    hop, going backward, whose receiver is no intermediary. *)
Definition flow_endpoints (group : list Transfer) : option (string * string) :=
  let hops := Frame.sort_values by_log_index group in
  match List.find (fun r => negb (from_is_intermediary r)) hops,
        List.find (fun r => negb (to_is_intermediary r)) (rev hops) with
  | Some s, Some e =>
      match truthy (get_address (fromAddress s)),
            truthy (get_address (toAddress e)) with
      | Some a, Some b => Some (a, b)
      | _, _ => None
      end
  | _, _ => None
  end.
End FlowSpec.

(** ** The Gini formula as the design document words it *)
Module GiniSpec.
(** [Σ i·xᵢ] over the shares in the given order, ranks starting at 1. *)
Definition rank_weighted_sum (xs : list Q) : Q :=
  Frame.Qsum (map (fun p => Qmult (inject_Z (Z.of_nat (fst p))) (snd p))
                  (combine (seq 1 (length xs)) xs)).

(** [G = (2·Σ(i·xᵢ))/(n·Σxᵢ) − (n+1)/n]. *)
Definition formula (xs : list Q) : Q :=
  let n := inject_Z (Z.of_nat (length xs)) in
  Qminus (Qdiv (Qmult (2 # 1) (rank_weighted_sum xs)) (Qmult n (Frame.Qsum xs)))
         (Qdiv (Qplus n 1) n).
End GiniSpec.

(** ** The suspicious-wallet rule as the design document words it *)
Module SuspicionSpec.
Import WashTradingDetector.

(** Union of the wallets named by the self-transfer, round-trip,
    high-frequency and circular-pattern findings. *)
Definition finding_wallets (r : Results) : gset string :=
  list_to_set (map st_wallet (self_transfers r))
  ∪ list_to_set (map rt_wallet_a (rapid_roundtrips r)
                 ++ map rt_wallet_b (rapid_roundtrips r))
  ∪ list_to_set (map hf_wallet_a (high_frequency_pairs r)
                 ++ map hf_wallet_b (high_frequency_pairs r))
  ∪ list_to_set (concat (map wallets (circular_patterns r))).
End SuspicionSpec.

(** ** The round-trip count as the design document words it *)
Module RoundTripSpec.
Import DataFetcher.

(** [r] is a flow from [a] to [b]. *)
Definition is_flow (a b : string) (r : UserFlow) : bool :=
  String.eqb (start_wallet r) a && String.eqb (end_wallet r) b.

(** The [b -> a] flows whose time lies in [(t, t + window]] for the
    [a -> b] flow [out] made at time [t]. *)
Definition returns_in_window (window : Z) (flows : list UserFlow)
           (a b : string) (out : UserFlow) : list UserFlow :=
  List.filter (fun r => is_flow b a r
                        && (timestamp out <? timestamp r)%Z
                        && (timestamp r <=? timestamp out + window)%Z)
              flows.

(** Sum, over all [a -> b] flows, of the number of their returns. *)
Definition matched_returns (hours : Z) (flows : list UserFlow)
           (a b : string) : nat :=
  list_sum (map (fun out =>
                   length (returns_in_window (hours * 3600000000000) flows a b out))
                (List.filter (is_flow a b) flows)).

(** Number of flows between the two wallets, in either direction. *)
Definition flows_between (flows : list UserFlow) (a b : string) : nat :=
  length (List.filter (fun r => is_flow a b r || is_flow b a r) flows).

(** Smallest return latency among the matched returns, if any. *)
Definition min_return_latency (hours : Z) (flows : list UserFlow)
           (a b : string) : option Z :=
  let latencies :=
    concat (map (fun out =>
                   map (fun r => (timestamp r - timestamp out)%Z)
                       (returns_in_window (hours * 3600000000000) flows a b out))
                (List.filter (is_flow a b) flows)) in
  match latencies with
  | [] => None
  | t :: ts => Some (fold_right Z.min t ts)
  end.
End RoundTripSpec.

(** ** The risk formulas as the design document words them *)
Module RiskSpec.
Definition clamp (x : Q) : Q := Qmax 0 (Qmin x (100 # 1)).

(** [bot_score·50 + min(wash_flag_count·15, 50)], clamped to [0,100]. *)
Definition additive (bot_score : Q) (wash_flag_count : nat) : Q :=
  clamp (Qplus (Qmult bot_score (50 # 1))
               (inject_Z (Z.min (Z.of_nat wash_flag_count * 15) 50))).

(** The additive formula plus the flat premium of 20, clamped. *)
Definition additive_plus_premium (bot_score : Q) (wash_flag_count : nat) : Q :=
  clamp (Qplus (Qplus (Qmult bot_score (50 # 1))
                      (inject_Z (Z.min (Z.of_nat wash_flag_count * 15) 50)))
               (20 # 1)).

(** [min(top_10_ratio·1.25, 100)], raised to at least 90 when Gini > 0.9. *)
Definition concentration_score (top_10_ratio gini : Q) : Q :=
  let c := Qmin (Qmult top_10_ratio (5 # 4)) (100 # 1) in
  if Frame.Qltb (9 # 10) gini then Qmax c (90 # 1) else c.

Definition bot_score_agg (bot_wallet_ratio : Q) : Q :=
  Qmin (Qmult bot_wallet_ratio (333 # 1)) (100 # 1).

Definition wash_score_agg (wash_wallet_ratio : Q) : Q :=
  Qmin (Qmult wash_wallet_ratio (500 # 1)) (100 # 1).

(** [0.40·concentration_score + 0.30·bot_score_agg + 0.30·wash_score_agg]. *)
Definition token_risk_score (concentration bot wash : Q) : Q :=
  Qplus (Qplus (Qmult (2 # 5) concentration) (Qmult (3 # 10) bot))
        (Qmult (3 # 10) wash).

(** Share of the rows of a table that satisfy a test (0 for no rows). *)
Definition wallet_ratio {A : Type} (test : A -> bool) (rows : list A) : Q :=
  match rows with
  | [] => 0%Q
  | _ => Qdiv (inject_Z (Z.of_nat (length (List.filter test rows))))
              (inject_Z (Z.of_nat (length rows)))
  end.
End RiskSpec.

(** ** Sample data *)
Module Samples.
Import DataFetcher.

Definition plain_wallet (a : string) : AddressObj :=
  {| address := Some a; arkhamEntity_type := None |}.

Definition entity (a kind : string) : AddressObj :=
  {| address := Some a; arkhamEntity_type := Some kind |}.

Definition hop (tx : string) (block idx time : Z) (src dst : AddressObj)
           (value : Q) : Transfer :=
  {| transactionHash := tx; blockNumber := block; log_index := idx;
     blockTimestamp := time; fromAddress := src; toAddress := dst;
     historicalUSD := Some value; chain := Some "solana" |}.

(** One transaction relaying tokens Alice -> Bob -> Carol inside block
    100, as a provider listing the newest movement first returns it. *)
Definition relay_newest_first : list Transfer :=
  [ hop "tx1" 100 1 5000 (plain_wallet "Bob") (plain_wallet "Carol") (7 # 1);
    hop "tx1" 100 0 5000 (plain_wallet "Alice") (plain_wallet "Bob") (7 # 1) ].

Definition relay_flows : list UserFlow :=
  Eval vm_compute in
    process_transfers_to_user_flows "TOKEN" "mint" relay_newest_first.

Definition relay_flow : UserFlow :=
  Eval vm_compute in
    match relay_flows with
    | f :: _ => f
    | [] => {| transaction_hash := ""; start_wallet := ""; end_wallet := "";
               start_entity_type := None; end_entity_type := None;
               timestamp := 0; block_number := 0; usd_value := 0;
               token_symbol := ""; token_address := ""; flow_chain := "";
               hop_count := 0; is_self_transfer := false |}
    end.
(** Holder snapshots. *)
Definition holder (a : string) (share : Q) : HolderAnalyzer.HolderEntry :=
  {| HolderAnalyzer.entry_address := Some a;
     HolderAnalyzer.arkhamEntity_name := None;
     HolderAnalyzer.arkhamLabel_name := None;
     HolderAnalyzer.balance := 1000;
     HolderAnalyzer.usd := 1000;
     HolderAnalyzer.pctOfCap := share |}.

Definition equal_holders : list HolderAnalyzer.Holder :=
  HolderAnalyzer.process_holder_data
    [holder "W1" (1 # 4); holder "W2" (1 # 4); holder "W3" (1 # 4);
     holder "W4" (1 # 4)].

Definition skewed_holders : list HolderAnalyzer.Holder :=
  HolderAnalyzer.process_holder_data
    [holder "W1" (1 # 10); holder "W2" (7 # 10); holder "W3" (2 # 10)].
(** Flow tables. *)
Definition flow (tx a b : string) (time : Z) (value : Q) : UserFlow :=
  {| transaction_hash := tx; start_wallet := a; end_wallet := b;
     start_entity_type := None; end_entity_type := None;
     timestamp := time; block_number := 1; usd_value := value;
     token_symbol := "TOKEN"; token_address := "mint"; flow_chain := "solana";
     hop_count := 1; is_self_transfer := String.eqb a b |}.

(** Alice pays Sink six times; Sink never sends. *)
Definition payments_to_sink : list UserFlow :=
  [ flow "p1" "Alice" "Sink" 10 (5 # 1); flow "p2" "Alice" "Sink" 20 (5 # 1);
    flow "p3" "Alice" "Sink" 30 (5 # 1); flow "p4" "Alice" "Sink" 40 (5 # 1);
    flow "p5" "Alice" "Sink" 50 (5 # 1); flow "p6" "Alice" "Sink" 60 (5 # 1) ].

Definition no_payloads : BotDetector.WalletData :=
  {| BotDetector.transfers := None; BotDetector.counterparties := None;
     BotDetector.intelligence := None; BotDetector.balances := None;
     BotDetector.flow := None |}.
Definition hour : Z := 3600000000000.

(** One payment and its returns, for the round-trip detector. *)
Definition one_return : list UserFlow :=
  [ flow "r1" "A" "B" 0 (9 # 1); flow "r2" "B" "A" hour (9 # 1) ].

Definition quick_returns : list UserFlow :=
  [ flow "r1" "A" "B" 0 (9 # 1); flow "r2" "B" "A" hour (9 # 1);
    flow "r3" "B" "A" (2 * hour) (9 # 1) ].

Definition slow_returns : list UserFlow :=
  [ flow "r1" "A" "B" 0 (9 # 1); flow "r2" "B" "A" (3 * hour) (9 # 1);
    flow "r3" "B" "A" (5 * hour) (9 # 1) ].

(** A graph library that finds no cycle, as on any acyclic flow graph. *)
Definition no_cycles (G : WashTradingDetector.DiGraph)
  : option (list (list string)) := Some [].

(** The pipeline on the payments to Sink. *)
Definition sink_run : WashTradingDetector.Results * WashTradingDetector.Detector :=
  WashTradingDetector.run_all_analyses no_cycles
    (WashTradingDetector.init payments_to_sink).

Definition sink_bots : list BotDetector.Classified :=
  BotDetector.classify_wallets (fun _ => None) (fun _ => 0%nat)
                               (fun _ => no_payloads) payments_to_sink 5 None.

Definition sink_risk (top_holders : list string)
  : list RiskScoreAnalyzer.RiskRow :=
  fst (RiskScoreAnalyzer.create_risk_analysis
         (fst sink_run)
         (WashTradingDetector.suspicious_wallets (snd sink_run))
         sink_bots ∅ top_holders).

(** A wallet that only moves tokens to itself and is classified BOT. *)
Definition churn : list UserFlow :=
  [ flow "c1" "Mallory" "Mallory" 10 (50 # 1) ].

Definition churn_run : WashTradingDetector.Results * WashTradingDetector.Detector :=
  WashTradingDetector.run_all_analyses no_cycles (WashTradingDetector.init churn).

Definition churn_bots : list BotDetector.Classified :=
  [ {| BotDetector.wallet := "Mallory";
       BotDetector.features := ∅;
       BotDetector.bot_score := (4 # 5)%Q;
       BotDetector.bot_confidence := "HIGH";
       BotDetector.classification := "BOT";
       BotDetector.reasoning := ["bot_tag_detected"] |} ].

Definition churn_risk : list RiskScoreAnalyzer.RiskRow :=
  fst (RiskScoreAnalyzer.create_risk_analysis
         (fst churn_run)
         (WashTradingDetector.suspicious_wallets (snd churn_run))
         churn_bots ∅ []).

(** A flow payload with three times more inflow than outflow. *)
Definition one_sided_flow : BotDetector.WalletData :=
  {| BotDetector.transfers := None; BotDetector.counterparties := None;
     BotDetector.intelligence := None; BotDetector.balances := None;
     BotDetector.flow :=
       Some [ {| BotDetector.inflowUSD := Some (3 # 1)%Q;
                 BotDetector.outflowUSD := Some (1 # 1)%Q |} ] |}.
Definition blank_row : RiskScoreAnalyzer.RiskRow :=
  {| RiskScoreAnalyzer.wallet := ""; RiskScoreAnalyzer.risk_level := "";
     RiskScoreAnalyzer.risk_score := 0; RiskScoreAnalyzer.bot_score := 0;
     RiskScoreAnalyzer.bot_classification := "";
     RiskScoreAnalyzer.bot_confidence := "";
     RiskScoreAnalyzer.is_wash_trading := false;
     RiskScoreAnalyzer.wash_trading_flags := [];
     RiskScoreAnalyzer.wash_flag_count := 0;
     RiskScoreAnalyzer.is_top_holder := false;
     RiskScoreAnalyzer.risk_threat := "" |}.

(** Alice's row of the risk table, outside and inside the whale set. *)
Definition alice_row : RiskScoreAnalyzer.RiskRow :=
  Eval vm_compute in hd blank_row (sink_risk []).

Definition alice_whale_row : RiskScoreAnalyzer.RiskRow :=
  Eval vm_compute in hd blank_row (sink_risk ["Alice"]).

Definition sample_metrics : gmap string Q :=
  <["gini_coefficient" := (19 # 20)%Q]>
    (<["whale_dominance" := (30 # 1)%Q]>
       (<["top_10_ratio" := (60 # 1)%Q]> {[ "top_3_ratio" := (45 # 1)%Q ]})).

(** Ten payments from Alice to Sink: a high-frequency pair whose
    receiver never sends. *)
Definition ten_payments : list UserFlow :=
  map (fun i => flow "t" "Alice" "Sink" (Z.of_nat i) (5 # 1)) (seq 1 10).

Definition ten_run : WashTradingDetector.Results * WashTradingDetector.Detector :=
  WashTradingDetector.run_all_analyses no_cycles
    (WashTradingDetector.init ten_payments).

Definition ten_bots : list BotDetector.Classified :=
  BotDetector.classify_wallets (fun _ => None) (fun _ => 0%nat)
                               (fun _ => no_payloads) ten_payments 5 None.

Definition ten_risk : list RiskScoreAnalyzer.RiskRow :=
  fst (RiskScoreAnalyzer.create_risk_analysis
         (fst ten_run)
         (WashTradingDetector.suspicious_wallets (snd ten_run))
         ten_bots ∅ []).

Definition sink_row : RiskScoreAnalyzer.RiskRow :=
  Eval vm_compute in
    match List.find (fun r => String.eqb (RiskScoreAnalyzer.wallet r) "Sink")
                    ten_risk with
    | Some r => r
    | None => blank_row
    end.

Definition blank_classified : BotDetector.Classified :=
  {| BotDetector.wallet := ""; BotDetector.features := ∅;
     BotDetector.bot_score := 0; BotDetector.bot_confidence := "";
     BotDetector.classification := ""; BotDetector.reasoning := [] |}.

Definition ten_alice : BotDetector.Classified :=
  Eval vm_compute in hd blank_classified ten_bots.

Definition three_entries : list HolderAnalyzer.HolderEntry :=
  [holder "W1" (1 # 10); holder "W2" (7 # 10); holder "W3" (2 # 10)].

(** The cycle enumeration on the graph of [one_return]: its one cycle. *)
Definition find_return_cycle (G : WashTradingDetector.DiGraph)
  : option (list (list string)) := Some [["A"; "B"]].
End Samples.

(** * Properties *)

(** ** Facts about the table helpers *)
Section FrameFacts.
Context {A : Type}.

Lemma insert_row_perm (leb : A -> A -> bool) (x : A) (l : list A) :
  Permutation (Frame.insert_row leb x l) (x :: l).
Proof.
  induction l as [|y l IH]; simpl.
  - reflexivity.
  - destruct (leb x y).
    + reflexivity.
    + rewrite IH. apply perm_swap.
Qed.

Lemma sort_values_perm (leb : A -> A -> bool) (l : list A) :
  Permutation (Frame.sort_values leb l) l.
Proof.
  induction l as [|x l IH]; simpl.
  - reflexivity.
  - rewrite insert_row_perm. now constructor.
Qed.

Lemma sort_values_In (leb : A -> A -> bool) (l : list A) (x : A) :
  In x (Frame.sort_values leb l) <-> In x l.
Proof.
  split; apply Permutation_in;
    [apply sort_values_perm | symmetry; apply sort_values_perm].
Qed.

Lemma sort_values_length (leb : A -> A -> bool) (l : list A) :
  length (Frame.sort_values leb l) = length l.
Proof. apply Permutation_length, sort_values_perm. Qed.

Lemma sort_values_nil_inv (leb : A -> A -> bool) (l : list A) :
  Frame.sort_values leb l = [] -> l = [].
Proof.
  intros H. pose proof (sort_values_perm leb l) as P.
  rewrite H in P. now apply Permutation_nil in P.
Qed.
End FrameFacts.

Section GroupingFacts.
Context {A K : Type} (cmp : K -> K -> comparison) (key : A -> K).
Hypothesis cmp_eq : forall a b, cmp a b = Eq <-> a = b.

Lemma insert_key_In (k k' : K) (ks : list K) :
  In k' (Frame.insert_key cmp k ks) <-> k' = k \/ In k' ks.
Proof.
  induction ks as [|k0 ks IH]; simpl.
  - intuition.
  - destruct (cmp k k0) eqn:E; simpl.
    + apply cmp_eq in E. subst k0. intuition.
    + intuition.
    + rewrite IH. intuition.
Qed.

Lemma unique_keys_In (rows : list A) (k : K) :
  In k (Frame.unique_keys cmp key rows) <-> exists r, In r rows /\ key r = k.
Proof.
  unfold Frame.unique_keys.
  induction rows as [|r rows IH]; simpl.
  - split; [tauto | intros (r & [] & _)].
  - rewrite insert_key_In, IH. split.
    + intros [-> | (r' & Hr' & <-)]; eauto.
    + intros (r' & [<- | Hr'] & <-); eauto.
Qed.

Lemma key_is_true (k : K) (r : A) :
  Frame.key_is cmp key k r = true <-> key r = k.
Proof.
  unfold Frame.key_is. destruct (cmp (key r) k) eqn:E.
  - split; [intros _; now apply cmp_eq | reflexivity].
  - split; [discriminate | intros H; apply cmp_eq in H; congruence].
  - split; [discriminate | intros H; apply cmp_eq in H; congruence].
Qed.

Lemma groupby_In (rows : list A) (k : K) (g : list A) :
  In (k, g) (Frame.groupby cmp key rows) <->
  (exists r, In r rows /\ key r = k)
  /\ g = List.filter (Frame.key_is cmp key k) rows.
Proof.
  unfold Frame.groupby. rewrite in_map_iff. split.
  - intros (k0 & E & Hk0). inversion E; subst.
    split; [now apply unique_keys_In | reflexivity].
  - intros (Hk & ->). exists k. split; [reflexivity | now apply unique_keys_In].
Qed.

Lemma groupby_member (rows : list A) (k : K) (g : list A) (r : A) :
  In (k, g) (Frame.groupby cmp key rows) ->
  (In r g <-> In r rows /\ key r = k).
Proof.
  intros H. apply groupby_In in H. destruct H as [_ ->].
  rewrite filter_In, key_is_true. reflexivity.
Qed.
End GroupingFacts.

Lemma string_compare_refl (s : string) : String.compare s s = Eq.
Proof.
pose proof (String.compare_antisym s s) as H.
destruct (String.compare s s); simpl in H; congruence.
Qed.

Lemma string_compare_eq (a b : string) : String.compare a b = Eq <-> a = b.
Proof.
split; [apply String.compare_eq_iff | intros ->; apply string_compare_refl].
Qed.

Lemma pair_compare_eq (p q : string * string) :
Frame.pair_compare p q = Eq <-> p = q.
Proof.
destruct p as [a b], q as [c d]. unfold Frame.pair_compare; simpl.
destruct (String.compare a c) eqn:E.
- apply string_compare_eq in E. subst c.
  rewrite string_compare_eq. split; congruence.
- split; [discriminate | intros H; inversion H; subst].
  rewrite string_compare_refl in E. discriminate.
- split; [discriminate | intros H; inversion H; subst].
  rewrite string_compare_refl in E. discriminate.
Qed.

Lemma omap_In {A B : Type} (f : A -> option B) (l : list A) (y : B) :
In y (omap f l) <-> exists x, In x l /\ f x = Some y.
Proof.
rewrite <- list_elem_of_In, list_elem_of_omap.
split; intros (x & H1 & H2); exists x; split; auto; now apply list_elem_of_In.
Qed.

(** ** Flow extraction ([srs/data_fetcher.py]) *)
Section FlowExtraction.
Import DataFetcher.

Lemma process_group_self_transfer display token tx_hash group f :
  process_group display token tx_hash group = Some f ->
  is_self_transfer f = String.eqb (start_wallet f) (end_wallet f).
Proof.
  unfold process_group.
  destruct (Frame.sort_values by_blockNumber group) as [|first rest]; [discriminate|].
  destruct (scan_start (first :: rest)) as [rs|]; [|discriminate].
  destruct (scan_end (first :: rest)) as [re|]; [|discriminate].
  destruct (truthy (get_address (fromAddress rs))) as [sw|]; [|discriminate].
  destruct (truthy (get_address (toAddress re))) as [ew|]; [|discriminate].
  intros H. inversion H; subst; reflexivity.
Qed.

Lemma truthy_Some (w : option string) (s : string) :
  truthy w = Some s -> w = Some s /\ s <> "".
Proof.
  destruct w as [s'|]; simpl; [|discriminate].
  destruct (String.eqb s' "") eqn:E; [discriminate |].
  intros H. inversion H; subst. split; [reflexivity | now apply String.eqb_neq].
Qed.

Lemma sum_skipna_perm (l1 l2 : list (option Q)) :
  Permutation l1 l2 -> Qeq (Frame.sum_skipna l1) (Frame.sum_skipna l2).
Proof.
  induction 1 as [|x l l' _ IH|x y l|l l' l'' _ IH1 _ IH2]; simpl.
  - reflexivity.
  - destruct x; [now rewrite IH | exact IH].
  - destruct x, y; try reflexivity. ring.
  - etransitivity; eassumption.
Qed.

(** What an emitted flow is made of: scans over the hops in
    [blockNumber] order, both endpoints found and non-empty, value
    summed over every hop of the transaction. *)
Lemma process_group_shape display token tx_hash group f :
  process_group display token tx_hash group = Some f ->
  let hops := Frame.sort_values by_blockNumber group in
  (exists rs,
      List.find (fun r => negb (from_is_intermediary r)) hops = Some rs
      /\ get_address (fromAddress rs) = Some (start_wallet f)
      /\ start_entity_type f = get_entity_type (fromAddress rs))
  /\ (exists re,
         List.find (fun r => negb (to_is_intermediary r)) (rev hops) = Some re
         /\ get_address (toAddress re) = Some (end_wallet f)
         /\ end_entity_type f = get_entity_type (toAddress re))
  /\ Qeq (usd_value f) (Frame.sum_skipna (map historicalUSD group))
  /\ hop_count f = length group.
Proof.
  unfold process_group, scan_start, scan_end. cbv zeta. intros H.
  set (hops := Frame.sort_values by_blockNumber group) in *.
  assert (Eperm : Permutation hops group) by apply sort_values_perm.
  assert (Elen : length hops = length group) by apply sort_values_length.
  clearbody hops.
  destruct hops as [|first rest] eqn:Eh; [discriminate |]. rewrite <- Eh in *.
  destruct (List.find _ hops) as [rs|] eqn:Es; [|discriminate].
  destruct (List.find _ (rev hops)) as [re|] eqn:Ee; [|discriminate].
  destruct (truthy (get_address (fromAddress rs))) as [sw|] eqn:Ts; [|discriminate].
  destruct (truthy (get_address (toAddress re))) as [ew|] eqn:Te; [|discriminate].
  apply truthy_Some in Ts. apply truthy_Some in Te.
  inversion H; subst f; cbn [start_wallet end_wallet start_entity_type
                             end_entity_type usd_value hop_count].
  split; [exists rs; tauto |]. split; [exists re; tauto |].
  split.
  - now apply sum_skipna_perm, Permutation_map.
  - exact Elen.
Qed.

(** C9.  Every user flow produced by [process_transfers_to_user_flows]
    has [is_self_transfer] set exactly when its start wallet and its end
    wallet are the same address. *)
Theorem C9_is_self_transfer_iff_same_wallet :
  forall (display token : string) (df : list Transfer) (f : UserFlow),
    In f (process_transfers_to_user_flows display token df) ->
    (is_self_transfer f = true <-> start_wallet f = end_wallet f).
Proof.
  intros display token df f Hin.
  unfold process_transfers_to_user_flows in Hin.
  apply omap_In in Hin. destruct Hin as ([tx g] & _ & Hg). simpl in Hg.
  rewrite (process_group_self_transfer _ _ _ _ _ Hg).
  apply String.eqb_eq.
Qed.
End FlowExtraction.

Section FlowExtractionSamples.
Import DataFetcher Samples.

Lemma C9_witness :
  In relay_flow (process_transfers_to_user_flows "TOKEN" "mint" relay_newest_first)
  /\ (is_self_transfer relay_flow = true
      <-> start_wallet relay_flow = end_wallet relay_flow).
Proof.
  assert (H : In relay_flow
                 (process_transfers_to_user_flows "TOKEN" "mint" relay_newest_first))
    by (vm_compute; left; reflexivity).
  split; [exact H |].
  exact (C9_is_self_transfer_iff_same_wallet "TOKEN" "mint" relay_newest_first
                                             relay_flow H).
Defined.

(** C7.  [process_transfers_to_user_flows] orders the hops of a
    transaction by [blockNumber], which all of them share, not by
    [log_index]: on the relay Alice -> Bob -> Carol listed newest hop
    first the emitted flow is the self-transfer Bob -> Bob, whereas the
    hops in [log_index] order give start wallet Alice and end wallet
    Carol. *)
Theorem C7_hops_ordered_by_block_number_not_log_index :
  map (fun f => (start_wallet f, end_wallet f, is_self_transfer f, usd_value f))
      (process_transfers_to_user_flows "TOKEN" "mint" relay_newest_first)
  = [("Bob", "Bob", true, (14 # 1)%Q)]
  /\ FlowSpec.flow_endpoints relay_newest_first = Some ("Alice", "Carol").
Proof. split; vm_compute; reflexivity. Qed.
End FlowExtractionSamples.

(** ** Holder concentration ([srs/holder_analyzer.py]) *)
Section Sortedness.
Context {A : Type} (leb : A -> A -> bool).
Hypothesis leb_total : forall a b, leb a b = true \/ leb b a = true.

Lemma insert_row_HdRel (x y : A) (l : list A) :
  leb x y = false -> HdRel (Frame.in_order leb) y l -> HdRel (Frame.in_order leb) y (Frame.insert_row leb x l).
Proof.
  intros Hxy Hl. destruct l as [|z l]; simpl.
  - constructor. destruct (leb_total x y) as [H | H]; [congruence | exact H].
  - destruct (leb x z).
    + constructor. destruct (leb_total x y) as [H | H]; [congruence | exact H].
    + constructor. now inversion Hl.
Qed.

Lemma insert_row_Sorted (x : A) (l : list A) :
  Sorted (Frame.in_order leb) l -> Sorted (Frame.in_order leb) (Frame.insert_row leb x l).
Proof.
  induction 1 as [|y l Hs IH Hhd]; simpl.
  - repeat constructor.
  - destruct (leb x y) eqn:E.
    + constructor; [now constructor | now constructor].
    + constructor; [exact IH | now apply insert_row_HdRel].
Qed.

Lemma sort_values_Sorted (l : list A) : Sorted (Frame.in_order leb) (Frame.sort_values leb l).
Proof.
  induction l as [|x l IH]; simpl; [constructor | now apply insert_row_Sorted].
Qed.
End Sortedness.

Section Gini.
Import HolderAnalyzer.
Local Open Scope Q_scope.

Lemma Qle_bool_total (a b : Q) : Qle_bool a b = true \/ Qle_bool b a = true.
Proof.
  rewrite !Qle_bool_iff. destruct (Qlt_le_dec a b) as [H | H];
    [left; now apply Qlt_le_weak | now right].
Qed.

Lemma sorted_holdings_ascending (holdings : list Q) :
  Sorted Qle (Frame.sort_values Qle_bool holdings).
Proof.
  pose proof (sort_values_Sorted Qle_bool Qle_bool_total holdings) as H.
  induction H as [|x l Hs IH Hhd]; constructor; auto.
  destruct Hhd; constructor. now apply Qle_bool_iff.
Qed.

Lemma Qsum_perm (l1 l2 : list Q) :
  Permutation l1 l2 -> Frame.Qsum l1 == Frame.Qsum l2.
Proof.
  induction 1; simpl.
  - reflexivity.
  - now rewrite IHPermutation.
  - ring.
  - etransitivity; eassumption.
Qed.

(** The running sum of the code is twice the rank-weighted sum. *)
Lemma ranked_sum_spec (i : nat) (xs : list Q) :
  ranked_sum i xs ==
  (2 # 1) * Frame.Qsum (map (fun p => inject_Z (Z.of_nat (fst p)) * snd p)
                            (combine (seq i (length xs)) xs)).
Proof.
  revert i. induction xs as [|x xs IH]; intros i; simpl.
  - ring.
  - rewrite IH. ring.
Qed.

Lemma inject_nat_S (n : nat) :
  inject_Z (Z.of_nat (S n)) == inject_Z (Z.of_nat n) + 1.
Proof. rewrite Nat2Z.inj_succ, <- Z.add_1_r, inject_Z_plus. reflexivity. Qed.

Lemma inject_nat_pos (n : nat) : (0 < n)%nat -> 0 < inject_Z (Z.of_nat n).
Proof.
  intros H. change 0 with (inject_Z 0). rewrite <- Zlt_Qlt. lia.
Qed.

Lemma Qsum_const (c : Q) (xs : list Q) :
  Forall (fun x => x == c) xs ->
  Frame.Qsum xs == inject_Z (Z.of_nat (length xs)) * c.
Proof.
  induction 1 as [|x xs Hx _ IH].
  - simpl. ring.
  - cbn [Frame.Qsum fold_right length]. fold (Frame.Qsum xs).
    rewrite inject_nat_S, IH, Hx. ring.
Qed.

Lemma ranked_sum_const (c : Q) (xs : list Q) (i : nat) :
  Forall (fun x => x == c) xs ->
  ranked_sum i xs ==
  c * inject_Z (Z.of_nat (length xs))
    * ((2 # 1) * inject_Z (Z.of_nat i) + inject_Z (Z.of_nat (length xs)) - 1).
Proof.
  intros H. revert i. induction H as [|x xs Hx _ IH]; intros i.
  - simpl. ring.
  - cbn [ranked_sum length]. rewrite IH, Hx, !inject_nat_S. ring.
Qed.
Lemma gini_unfold (holdings : list Q) :
  holdings <> [] ->
  let xs := Frame.sort_values Qle_bool holdings in
  let n := inject_Z (Z.of_nat (length xs)) in
  gini holdings =
  if Qeq_bool (n * Frame.Qsum xs) 0 then None
  else Some (ranked_sum 1 xs / (n * Frame.Qsum xs) - (n + 1) / n).
Proof.
  intros Hne xs n. unfold gini. fold xs. fold n.
  destruct xs as [|x xs'] eqn:E; [|reflexivity].
  apply sort_values_nil_inv in E. contradiction.
Qed.

(** C8 (as the code has it).  For a non-empty holder table the Gini
    coefficient returned by [calculate_concentration_metrics] is
    computed over the holding shares sorted in ascending order (a
    rearrangement of the table's shares), and, whenever [n·Σxᵢ] is not
    zero, equals [(2·Σ(i·xᵢ))/(n·Σxᵢ) − (n+1)/n] with [i] the 1-based
    rank.  When all holders have the same positive share the exact
    value of this expression is 0; the double the program returns for
    it need not be, as the section on rounding below shows. *)
Theorem C8_gini_coefficient_formula :
  forall rows : list Holder,
    (0 < length rows)%nat ->
    let shares := map Holding_pct rows in
    let xs := Frame.sort_values Qle_bool shares in
    Sorted Qle xs
    /\ Permutation xs shares
    /\ (~ inject_Z (Z.of_nat (length xs)) * Frame.Qsum xs == 0 ->
        exists g,
          gini_coefficient (calculate_concentration_metrics (Some rows)) = Some g
          /\ g == GiniSpec.formula xs)
    /\ (forall c, 0 < c -> Forall (fun x => x == c) shares ->
        GiniSpec.formula xs == 0).
Proof.
  intros rows Hlen shares xs.
  assert (Hne : shares <> []).
  { unfold shares. destruct rows; simpl in *; [lia | discriminate]. }
  assert (Hg : gini_coefficient (calculate_concentration_metrics (Some rows))
               = gini shares).
  { destruct rows; simpl in *; [lia | reflexivity]. }
  pose proof (gini_unfold shares Hne) as Hu. cbv zeta in Hu. fold xs in Hu.
  assert (F : GiniSpec.formula xs
              == ranked_sum 1 xs
                 / (inject_Z (Z.of_nat (length xs)) * Frame.Qsum xs)
                 - (inject_Z (Z.of_nat (length xs)) + 1)
                   / inject_Z (Z.of_nat (length xs))).
  { unfold GiniSpec.formula, GiniSpec.rank_weighted_sum.
    rewrite ranked_sum_spec. reflexivity. }
  split; [apply sorted_holdings_ascending |].
  split; [apply sort_values_perm |].
  split.
  - intros Hden. rewrite Hg, Hu.
    destruct (Qeq_bool _ 0) eqn:E.
    + apply Qeq_bool_iff in E. contradiction.
    + eexists. split; [reflexivity |]. now rewrite F.
  - intros c Hc Hall.
    assert (Hxs : Forall (fun x => x == c) xs).
    { eapply Permutation_Forall; [| exact Hall].
      symmetry. apply sort_values_perm. }
    assert (Hn : 0 < inject_Z (Z.of_nat (length xs))).
    { apply inject_nat_pos. unfold xs. rewrite sort_values_length.
      unfold shares. rewrite length_map. exact Hlen. }
    set (n := inject_Z (Z.of_nat (length xs))) in *.
    assert (Hsum : Frame.Qsum xs == n * c) by now apply Qsum_const.
    assert (Hrank : ranked_sum 1 xs == c * n * (n + 1)).
    { rewrite (ranked_sum_const c xs 1 Hxs). fold n.
      change (inject_Z (Z.of_nat 1)) with 1. ring. }
    assert (Hn0 : ~ n == 0) by (intros H0; rewrite H0 in Hn; discriminate).
    assert (Hc0 : ~ c == 0) by (intros H0; rewrite H0 in Hc; discriminate).
    rewrite F, Hrank, Hsum. field. tauto.
Qed.
End Gini.

Section GiniSamples.
Import HolderAnalyzer Samples.
Local Open Scope Q_scope.

Example gini_skewed :
  exists g, gini_coefficient (calculate_concentration_metrics (Some skewed_holders))
            = Some g /\ g == 2 # 5.
Proof. eexists. split; [vm_compute; reflexivity | reflexivity]. Qed.

Lemma C8_witness :
  (0 < length equal_holders)%nat
  /\ exists g,
      gini_coefficient (calculate_concentration_metrics (Some equal_holders))
      = Some g
      /\ g == GiniSpec.formula
               (Frame.sort_values Qle_bool (map Holding_pct equal_holders)).
Proof.
  assert (H : (0 < length equal_holders)%nat) by (vm_compute; lia).
  split; [exact H |].
  destruct (C8_gini_coefficient_formula equal_holders H) as (_ & _ & Hformula & _).
  apply Hformula. intros E. vm_compute in E. discriminate.
Defined.
End GiniSamples.

Section GiniRounding.
Import PrimFloat.
Local Open Scope float_scope.

(** In double precision the coefficient of equal positive shares is not
    always 0.  For two holders with [pctOfCap] 0.0005 each the holding
    percentage [0.0005 * 100] is the double 0.05; then
    [2·x + 4·x = 0.30000000000000004], [2·(x + x) = 0.2], the quotient
    is 1.5000000000000002 and the coefficient [2^-52], about 2.2e-16.
    With [pctOfCap] 0.0037 each it is [-2^-52]. *)
Lemma C8_equal_shares_round_away_from_zero :
  Binary64.gini_coeff (map Binary64.holding_pct [0.0005; 0.0005]) = 0x1p-52
  /\ Binary64.gini_coeff (map Binary64.holding_pct [0.0037; 0.0037]) = - 0x1p-52.
Proof. split; vm_compute; reflexivity. Qed.
End GiniRounding.

(** ** Bot classification ([analysis/bot_detector.py]) *)
Section Eligibility.
Import DataFetcher BotDetector.

Lemma isin_In (w : string) (l : list string) :
  Frame.isin w l = true <-> In w l.
Proof.
  unfold Frame.isin. rewrite existsb_exists. split.
  - intros (x & Hx & E). apply String.eqb_eq in E. now subst.
  - intros H. exists w. split; [exact H | apply String.eqb_refl].
Qed.

Lemma isin_false (w : string) (l : list string) :
  Frame.isin w l = false <-> ~ In w l.
Proof.
  rewrite <- isin_In. destruct (Frame.isin w l); split; congruence.
Qed.

Lemma head_In {A : Type} (n : Z) (l : list A) (x : A) :
  In x (Frame.head n l) -> In x l.
Proof.
  assert (F : forall k, In x (firstn k l) -> In x l).
  { intros k H. rewrite <- (firstn_skipn k l). apply in_or_app. now left. }
  unfold Frame.head. destruct (0 <=? n)%Z; apply F.
Qed.

Lemma unique_In (l : list string) (x : string) : In x (unique l) -> In x l.
Proof.
  induction l as [|y l IH]; simpl; [tauto |].
  intros [-> | H]; [now left |].
  apply filter_In in H. right. apply IH. tauto.
Qed.

Lemma value_counts_In (col : list string) (c : string * nat) :
  In c (value_counts col) -> In (fst c) col.
Proof.
  unfold value_counts. rewrite sort_values_In, in_map_iff.
  intros (w & <- & Hw). simpl. now apply unique_In.
Qed.

Lemma eligible_wallets_start (flows : list UserFlow) (m : Z) (s : option Z)
      (w : string) :
  In w (eligible_wallets flows m s) -> In w (map start_wallet flows).
Proof.
  unfold eligible_wallets.
  set (counts := Frame.sort_values _ _).
  assert (H : In w (map fst (List.filter
                               (fun c => (m <=? Z.of_nat (snd c))%Z) counts))
              -> In w (map start_wallet flows)).
  { rewrite in_map_iff. intros (c & <- & Hc).
    apply filter_In in Hc. destruct Hc as [Hc _].
    unfold counts in Hc. rewrite sort_values_In, in_map_iff in Hc.
    destruct Hc as (c0 & <- & Hc0). simpl.
    now apply value_counts_In in Hc0. }
  destruct s as [n|]; [destruct (n =? 0)%Z|]; auto.
  intros Hin. apply H. eapply head_In; eassumption.
Qed.

Lemma classify_one_wallet std count_decimals flows wallet_data w :
  wallet (classify_one std count_decimals flows wallet_data w) = w.
Proof.
  unfold classify_one. destruct (calculate_bot_score _). reflexivity.
Qed.

(** C10.  A wallet that never occurs in the [start_wallet] column of the
    flow table is not eligible, whatever [min_transactions] and
    [sample_size] are and however often it occurs as [end_wallet]; hence
    [classify_wallets] emits no row, and so no bot score, for it. *)
Theorem C10_only_start_wallets_are_classified :
  forall (std : list Q -> option Q) (count_decimals : Q -> nat)
         (api : string -> WalletData)
         (flows : list UserFlow) (min_transactions : Z)
         (sample_size : option Z) (w : string),
    Frame.isin w (map start_wallet flows) = false ->
    ~ In w (eligible_wallets flows min_transactions sample_size)
    /\ forall row,
        In row (classify_wallets std count_decimals api flows
                                 min_transactions sample_size) ->
        wallet row <> w.
Proof.
  intros std count_decimals api flows m s w Hw.
  apply isin_false in Hw.
  assert (He : ~ In w (eligible_wallets flows m s)).
  { intros H. apply Hw. eapply eligible_wallets_start; eassumption. }
  split; [exact He |].
  intros row Hrow Heq. apply He.
  unfold classify_wallets in Hrow.
  rewrite sort_values_In, in_map_iff in Hrow.
  destruct Hrow as (w' & <- & Hw').
  rewrite classify_one_wallet in Heq. now subst.
Qed.
End Eligibility.

Section EligibilitySamples.
Import DataFetcher BotDetector Samples.

(** Sink receives six flows, more than any threshold used here, and is
    still left out, while the sender of the same flows is classified. *)
Example sink_is_not_eligible :
  eligible_wallets payments_to_sink 5 None = ["Alice"]
  /\ eligible_wallets payments_to_sink (-3) None = ["Alice"].
Proof. split; vm_compute; reflexivity. Qed.

Lemma C10_witness :
  Frame.isin "Sink" (map start_wallet payments_to_sink) = false
  /\ (~ In "Sink" (eligible_wallets payments_to_sink 0 None)
      /\ forall row,
          In row (classify_wallets (fun _ => None) (fun _ => 0%nat)
                                   (fun _ => no_payloads)
                                   payments_to_sink 0 None) ->
          wallet row <> "Sink").
Proof.
  split; [reflexivity |].
  apply (C10_only_start_wallets_are_classified
           (fun _ => None) (fun _ => 0%nat) (fun _ => no_payloads)
           payments_to_sink 0 None "Sink").
  reflexivity.
Defined.
End EligibilitySamples.

(** ** Pattern detectors ([analysis/wash_trading_detector.py]) *)
Section SuspiciousSet.
Import DataFetcher WashTradingDetector.
Variable simple_cycles : DiGraph -> option (list (list string)).

Lemma update_suspicious (d : Detector) (ws : list string) :
  suspicious_wallets (update d ws) = suspicious_wallets d ∪ list_to_set ws.
Proof. reflexivity. Qed.

Lemma detect_self_transfers_suspicious (d : Detector) :
  suspicious_wallets (snd (detect_self_transfers d))
  = suspicious_wallets d
    ∪ list_to_set (map st_wallet (fst (detect_self_transfers d))).
Proof.
  unfold detect_self_transfers.
  destruct (List.filter is_self_transfer (user_flows d)); simpl.
  - set_solver.
  - reflexivity.
Qed.

Lemma detect_rapid_roundtrips_suspicious (h : Z) (d : Detector) :
  suspicious_wallets (snd (detect_rapid_roundtrips h d))
  = suspicious_wallets d
    ∪ list_to_set (map rt_wallet_a (fst (detect_rapid_roundtrips h d))
                   ++ map rt_wallet_b (fst (detect_rapid_roundtrips h d))).
Proof.
  unfold detect_rapid_roundtrips.
  destruct (omap _ _) as [|row rows]; simpl.
  - set_solver.
  - rewrite list_to_set_app_L. set_solver.
Qed.

Lemma detect_high_frequency_pairs_suspicious (m : Z) (d : Detector) :
  suspicious_wallets (snd (detect_high_frequency_pairs m d))
  = suspicious_wallets d
    ∪ list_to_set (map hf_wallet_a (fst (detect_high_frequency_pairs m d))
                   ++ map hf_wallet_b (fst (detect_high_frequency_pairs m d))).
Proof.
  unfold detect_high_frequency_pairs.
  destruct (List.filter _ _) as [|pc pcs]; cbn [fst snd].
  - simpl. set_solver.
  - rewrite !update_suspicious, list_to_set_app_L. set_solver.
Qed.

Lemma circular_loop (mx : Z) (cycles : list (list string))
      (acc : list CycleRow * Detector) :
  let loop :=
    fold_left
      (fun acc cycle =>
         if keep_cycle mx cycle
         then (fst acc ++ [{| cycle_length := length cycle; wallets := cycle |}],
               update (snd acc) cycle)
         else acc) cycles acc in
  let kept := List.filter (keep_cycle mx) cycles in
  fst loop
  = fst acc ++ map (fun c => {| cycle_length := length c; wallets := c |}) kept
  /\ suspicious_wallets (snd loop)
     = suspicious_wallets (snd acc) ∪ list_to_set (concat kept).
Proof.
  revert acc. induction cycles as [|c cycles IH]; intros acc; simpl.
  - rewrite app_nil_r. split; [reflexivity | set_solver].
  - destruct (keep_cycle mx c).
    + specialize (IH (fst acc ++ [{| cycle_length := length c; wallets := c |}],
                      update (snd acc) c)).
      cbv zeta in IH. cbn [fst snd] in IH.
      destruct IH as [IH1 IH2]. split.
      * rewrite IH1, <- app_assoc. reflexivity.
      * rewrite IH2, update_suspicious. simpl.
        rewrite list_to_set_app_L. set_solver.
    + apply IH.
Qed.

Lemma detect_circular_patterns_suspicious (mx : Z) (d : Detector) :
  suspicious_wallets (snd (detect_circular_patterns simple_cycles mx d))
  = suspicious_wallets d
    ∪ list_to_set
        (concat (map wallets (fst (detect_circular_patterns simple_cycles mx d)))).
Proof.
  unfold detect_circular_patterns.
  destruct (simple_cycles _) as [cycles|]; simpl.
  - destruct (circular_loop mx (firstn 1000 cycles) ([], d)) as [H1 H2].
    cbv zeta in H1, H2. cbn [fst snd] in H1, H2.
    rewrite H2, H1. simpl. rewrite map_map. simpl. rewrite map_id. reflexivity.
  - set_solver.
Qed.

(** C5.  After [run_all_analyses] on a fresh detector the
    suspicious-wallet set is exactly the union of the wallets of the
    self-transfer, round-trip, high-frequency-pair and circular-pattern
    findings; in particular a wallet named by none of these four tables
    (whatever the volume-concentration and temporal-clustering tables
    hold) is not in the set. *)
Theorem C5_suspicious_wallets_are_the_four_findings :
  forall flows : list UserFlow,
    let run := run_all_analyses simple_cycles (init flows) in
    suspicious_wallets (snd run) = SuspicionSpec.finding_wallets (fst run)
    /\ forall w,
        ~ In w (map st_wallet (self_transfers (fst run))) ->
        ~ In w (map rt_wallet_a (rapid_roundtrips (fst run))
                ++ map rt_wallet_b (rapid_roundtrips (fst run))) ->
        ~ In w (map hf_wallet_a (high_frequency_pairs (fst run))
                ++ map hf_wallet_b (high_frequency_pairs (fst run))) ->
        ~ In w (concat (map wallets (circular_patterns (fst run)))) ->
        w ∉ suspicious_wallets (snd run).
Proof.
  intros flows run.
  assert (E : suspicious_wallets (snd run) = SuspicionSpec.finding_wallets (fst run)).
  { unfold run, run_all_analyses, SuspicionSpec.finding_wallets.
    pose proof (detect_self_transfers_suspicious (init flows)) as H1.
    destruct (detect_self_transfers (init flows)) as [r1 d1].
    pose proof (detect_rapid_roundtrips_suspicious 24 d1) as H2.
    destruct (detect_rapid_roundtrips 24 d1) as [r2 d2].
    pose proof (detect_high_frequency_pairs_suspicious 10 d2) as H3.
    destruct (detect_high_frequency_pairs 10 d2) as [r3 d3].
    pose proof (detect_circular_patterns_suspicious 4 d3) as H4.
    destruct (detect_circular_patterns simple_cycles 4 d3) as [r4 d4].
    destruct (analyze_volume_concentration 20 d4) as [r5 d5] eqn:E5.
    destruct (detect_temporal_clustering 5 d5) as [r6 d6] eqn:E6.
    unfold analyze_volume_concentration in E5. inversion E5; subst d5.
    unfold detect_temporal_clustering in E6. inversion E6; subst d6.
    cbn [fst snd self_transfers rapid_roundtrips high_frequency_pairs
         circular_patterns] in *.
    rewrite H4, H3, H2, H1. clear. cbn [init suspicious_wallets]. set_solver. }
  split; [exact E |].
  intros w N1 N2 N3 N4. rewrite E. unfold SuspicionSpec.finding_wallets.
  rewrite !elem_of_union, !elem_of_list_to_set, !list_elem_of_In. tauto.
Qed.
End SuspiciousSet.

Section RoundTrips.
Import DataFetcher WashTradingDetector RoundTripSpec.

Lemma wallet_pair_iff (a b : string) (r : UserFlow) :
  String.leb a b = true ->
  (wallet_pair r = (a, b) <->
   (start_wallet r = a /\ end_wallet r = b)
   \/ (start_wallet r = b /\ end_wallet r = a)).
Proof.
  intros Hab. unfold wallet_pair. split.
  - destruct (String.leb (start_wallet r) (end_wallet r));
      intros H; inversion H; auto.
  - intros [[-> ->] | [-> ->]].
    + now rewrite Hab.
    + destruct (String.leb b a) eqn:Hba; [|reflexivity].
      now rewrite (String.leb_antisym a b Hab Hba).
Qed.

Lemma wallet_pair_canonical (r : UserFlow) :
  String.leb (fst (wallet_pair r)) (snd (wallet_pair r)) = true.
Proof.
  unfold wallet_pair.
  destruct (String.leb (start_wallet r) (end_wallet r)) eqn:E; simpl.
  - exact E.
  - destruct (String.leb_total (start_wallet r) (end_wallet r)); congruence.
Qed.

Lemma is_flow_true (a b : string) (r : UserFlow) :
  is_flow a b r = true <-> start_wallet r = a /\ end_wallet r = b.
Proof.
  unfold is_flow. now rewrite andb_true_iff, !String.eqb_eq.
Qed.

Lemma in_pair_true (p : string * string) (r : UserFlow) :
  in_pair p r = true <-> wallet_pair r = p.
Proof. apply key_is_true, pair_compare_eq. Qed.

Lemma group_is_flows_between (a b : string) (r : UserFlow) :
  String.leb a b = true ->
  in_pair (a, b) r = is_flow a b r || is_flow b a r.
Proof.
  intros Hab. apply Bool.eq_iff_eq_true.
  rewrite in_pair_true, orb_true_iff, !is_flow_true.
  now apply wallet_pair_iff.
Qed.

Lemma group_a_to_b (a b : string) (r : UserFlow) :
  String.leb a b = true ->
  in_pair (a, b) r && String.eqb (start_wallet r) a = is_flow a b r.
Proof.
  intros Hab. apply Bool.eq_iff_eq_true.
  rewrite andb_true_iff, in_pair_true, String.eqb_eq, is_flow_true.
  rewrite (wallet_pair_iff a b r Hab). split.
  - intros [[[H1 H2] | [H1 H2]] H3]; split; congruence.
  - intros [H1 H2]. auto.
Qed.

Lemma group_b_to_a (a b : string) (r : UserFlow) :
  String.leb a b = true ->
  in_pair (a, b) r && String.eqb (start_wallet r) b = is_flow b a r.
Proof.
  intros Hab. apply Bool.eq_iff_eq_true.
  rewrite andb_true_iff, in_pair_true, String.eqb_eq, is_flow_true.
  rewrite (wallet_pair_iff a b r Hab). split.
  - intros [[[H1 H2] | [H1 H2]] H3]; split; congruence.
  - intros [H1 H2]. auto.
Qed.

Lemma filter_filter {A : Type} (p q : A -> bool) (l : list A) :
  List.filter q (List.filter p l) = List.filter (fun x => p x && q x) l.
Proof.
  induction l as [|x l IH]; simpl; [reflexivity |].
  destruct (p x); simpl; [destruct (q x)|]; now rewrite IH.
Qed.

Lemma filter_length_perm {A : Type} (p : A -> bool) (l1 l2 : list A) :
  Permutation l1 l2 -> length (List.filter p l1) = length (List.filter p l2).
Proof.
  induction 1; simpl; try congruence.
  - destruct (p x); simpl; congruence.
  - destruct (p x), (p y); reflexivity.
Qed.

Lemma list_sum_map_perm {A : Type} (f : A -> nat) (l1 l2 : list A) :
  Permutation l1 l2 -> list_sum (map f l1) = list_sum (map f l2).
Proof. induction 1; simpl; lia. Qed.

Lemma count_roundtrips_sum (h : Z) (a_to_b b_to_a : list UserFlow) :
  count_roundtrips h a_to_b b_to_a
  = list_sum (map (fun out => length (matching_returns (timedelta_hours h)
                                                       b_to_a out)) a_to_b).
Proof.
  unfold count_roundtrips.
  assert (G : forall l acc,
             fold_left (fun acc out =>
                          (acc + length (matching_returns (timedelta_hours h)
                                                          b_to_a out))%nat) l acc
             = (acc + list_sum (map (fun out =>
                                       length (matching_returns (timedelta_hours h)
                                                                b_to_a out)) l))%nat).
  { induction l as [|x l IH]; intros acc; simpl; [lia | rewrite IH; lia]. }
  now rewrite G.
Qed.
Lemma count_roundtrips_no_returns (h : Z) (a_to_b : list UserFlow) :
  count_roundtrips h a_to_b [] = 0%nat.
Proof.
  rewrite count_roundtrips_sum. induction a_to_b; simpl; auto.
Qed.

Lemma count_roundtrips_small_group (h : Z) (pa pb : UserFlow -> bool)
      (group : list UserFlow) :
  (length group < 2)%nat ->
  count_roundtrips h (Frame.sort_values by_timestamp (List.filter pa group))
                   (Frame.sort_values by_timestamp (List.filter pb group))
  = 0%nat.
Proof.
  destruct group as [|x [|y l]]; simpl; intros Hlen; try lia.
  - reflexivity.
  - destruct (pa x), (pb x); simpl; try reflexivity.
    unfold count_roundtrips, matching_returns. simpl.
    now rewrite Z.ltb_irrefl.
Qed.

(** The two early [continue]s of the loop never change its outcome. *)
Lemma roundtrip_of_group_count (h : Z) (p : string * string)
      (group : list UserFlow) :
  roundtrip_of_group h (p, group)
  = let n :=
      count_roundtrips h
        (Frame.sort_values by_timestamp
           (List.filter (fun r => String.eqb (start_wallet r) (fst p)) group))
        (Frame.sort_values by_timestamp
           (List.filter (fun r => String.eqb (start_wallet r) (snd p)) group)) in
    if (2 <=? n)%nat
    then Some {| rt_wallet_a := fst p; rt_wallet_b := snd p;
                 roundtrip_count := n; total_transactions := length group |}
    else None.
Proof.
  unfold roundtrip_of_group. cbn [fst snd]. cbv zeta.
  destruct (length group <? 2)%nat eqn:E.
  - apply Nat.ltb_lt in E.
    now rewrite (count_roundtrips_small_group h _ _ group E).
  - destruct (Frame.sort_values by_timestamp
                (List.filter (fun r => String.eqb (start_wallet r) (fst p)) group))
      as [|o os] eqn:EA.
    + reflexivity.
    + destruct (Frame.sort_values by_timestamp
                  (List.filter (fun r => String.eqb (start_wallet r) (snd p)) group))
        as [|o' os'] eqn:EB.
      * now rewrite count_roundtrips_no_returns.
      * reflexivity.
Qed.

Lemma group_count_is_matched_returns (h : Z) (flows : list UserFlow)
      (a b : string) :
  String.leb a b = true ->
  let group := List.filter (in_pair (a, b)) flows in
  count_roundtrips h
    (Frame.sort_values by_timestamp
       (List.filter (fun r => String.eqb (start_wallet r) a) group))
    (Frame.sort_values by_timestamp
       (List.filter (fun r => String.eqb (start_wallet r) b) group))
  = matched_returns h flows a b.
Proof.
  intros Hab group. unfold group, matched_returns.
  rewrite count_roundtrips_sum, !filter_filter.
  rewrite (filter_ext _ _ (fun r => group_a_to_b a b r Hab)).
  rewrite (filter_ext _ _ (fun r => group_b_to_a a b r Hab)).
  rewrite (list_sum_map_perm _ _ _ (sort_values_perm by_timestamp _)).
  f_equal. apply map_ext. intros out.
  unfold matching_returns, returns_in_window, timedelta_hours.
  rewrite (filter_length_perm _ _ _ (sort_values_perm by_timestamp _)).
  rewrite filter_filter. f_equal. apply filter_ext. intros r.
  now rewrite andb_assoc.
Qed.

Lemma group_length_is_flows_between (flows : list UserFlow) (a b : string) :
  String.leb a b = true ->
  length (List.filter (in_pair (a, b)) flows) = flows_between flows a b.
Proof.
  intros Hab. unfold flows_between. f_equal. apply filter_ext.
  intros r. now apply group_is_flows_between.
Qed.

Lemma detect_rapid_roundtrips_rows (h : Z) (d : Detector) :
  fst (detect_rapid_roundtrips h d)
  = omap (roundtrip_of_group h)
         (Frame.groupby Frame.pair_compare wallet_pair (user_flows d)).
Proof.
  unfold detect_rapid_roundtrips. now destruct (omap _ _).
Qed.

(** C4 (as the code has it).  The rows of the round-trip table are
    exactly the canonically ordered wallet pairs whose matched-return
    total is at least 2.  The total counts, for every [a -> b] flow at
    time [t], the [b -> a] flows with time in [(t, t + window]] and adds
    these counts up, so one return can be counted for several outgoing
    flows.  A row records the two wallets, the total, and the number of
    flows between the two wallets. *)
Theorem C4_roundtrip_rows :
  forall (h : Z) (d : Detector),
    (forall row,
        In row (fst (detect_rapid_roundtrips h d)) ->
        String.leb (rt_wallet_a row) (rt_wallet_b row) = true
        /\ roundtrip_count row
           = matched_returns h (user_flows d) (rt_wallet_a row) (rt_wallet_b row)
        /\ (2 <= roundtrip_count row)%nat
        /\ total_transactions row
           = flows_between (user_flows d) (rt_wallet_a row) (rt_wallet_b row))
    /\ (forall a b,
           String.leb a b = true ->
           (2 <= matched_returns h (user_flows d) a b)%nat ->
           exists row,
             In row (fst (detect_rapid_roundtrips h d))
             /\ rt_wallet_a row = a /\ rt_wallet_b row = b).
Proof.
  intros h d. rewrite detect_rapid_roundtrips_rows. split.
  - intros row Hrow. apply omap_In in Hrow.
    destruct Hrow as ([[a b] group] & Hg & Hrt).
    apply (groupby_In _ _ pair_compare_eq) in Hg.
    destruct Hg as [(r & _ & Hr) ->].
    assert (Hab : String.leb a b = true).
    { pose proof (wallet_pair_canonical r) as C. now rewrite Hr in C. }
    rewrite roundtrip_of_group_count in Hrt. cbn [fst snd] in Hrt.
    cbv zeta in Hrt.
    rewrite (group_count_is_matched_returns h (user_flows d) a b Hab) in Hrt.
    rewrite (group_length_is_flows_between (user_flows d) a b Hab) in Hrt.
    destruct (2 <=? matched_returns h (user_flows d) a b)%nat eqn:E;
      [|discriminate].
    inversion Hrt; subst; simpl. apply Nat.leb_le in E. auto.
  - intros a b Hab Hn.
    assert (Hex : exists r, In r (user_flows d) /\ wallet_pair r = (a, b)).
    { unfold matched_returns in Hn.
      destruct (List.filter (is_flow a b) (user_flows d)) as [|r l] eqn:E;
        [simpl in Hn; lia |].
      assert (Hr : In r (List.filter (is_flow a b) (user_flows d)))
        by (rewrite E; now left).
      apply filter_In in Hr. destruct Hr as [Hr1 Hr2].
      exists r. split; [exact Hr1 |].
      apply (wallet_pair_iff a b r Hab). left. now apply is_flow_true. }
    eexists. split.
    + apply omap_In.
      exists ((a, b), List.filter (in_pair (a, b)) (user_flows d)). split.
      * apply (groupby_In _ _ pair_compare_eq). split; [exact Hex | reflexivity].
      * rewrite roundtrip_of_group_count. cbn [fst snd]. cbv zeta.
        rewrite (group_count_is_matched_returns h (user_flows d) a b Hab).
        apply Nat.leb_le in Hn. rewrite Hn. reflexivity.
    + split; reflexivity.
Qed.
End RoundTrips.

Section RoundTripSamples.
Import DataFetcher WashTradingDetector RoundTripSpec Samples.

(** One payment with a single return inside the window is not flagged;
    with two returns it is. *)
Example single_return_not_flagged :
  matched_returns 24 one_return "A" "B" = 1%nat
  /\ fst (detect_rapid_roundtrips 24 (init one_return)) = [].
Proof. split; vm_compute; reflexivity. Qed.

Example two_returns_flagged :
  fst (detect_rapid_roundtrips 24 (init quick_returns))
  = [ {| rt_wallet_a := "A"; rt_wallet_b := "B";
         roundtrip_count := 2; total_transactions := 3 |} ].
Proof. vm_compute; reflexivity. Qed.

(** The round-trip table does not determine the smallest return
    latency: two flow tables with latencies of one and of three hours
    produce the same row, so no reading of a row gives the latency. *)
Lemma C4_no_latency_in_finding :
  ~ exists recorded : RoundtripRow -> Z,
      forall flows, In flows [quick_returns; slow_returns] ->
      forall row, In row (fst (detect_rapid_roundtrips 24 (init flows))) ->
        min_return_latency 24 flows (rt_wallet_a row) (rt_wallet_b row)
        = Some (recorded row).
Proof.
  intros (recorded & H).
  pose proof (H quick_returns (or_introl eq_refl)
                {| rt_wallet_a := "A"; rt_wallet_b := "B";
                   roundtrip_count := 2; total_transactions := 3 |}) as H1.
  pose proof (H slow_returns (or_intror (or_introl eq_refl))
                {| rt_wallet_a := "A"; rt_wallet_b := "B";
                   roundtrip_count := 2; total_transactions := 3 |}) as H2.
  assert (E1 : Some (recorded {| rt_wallet_a := "A"; rt_wallet_b := "B";
                                 roundtrip_count := 2; total_transactions := 3 |})
               = Some hour).
  { rewrite <- H1; [vm_compute; reflexivity | vm_compute; left; reflexivity]. }
  assert (E2 : Some (recorded {| rt_wallet_a := "A"; rt_wallet_b := "B";
                                 roundtrip_count := 2; total_transactions := 3 |})
               = Some (3 * hour)%Z).
  { rewrite <- H2; [vm_compute; reflexivity | vm_compute; left; reflexivity]. }
  rewrite E1 in E2. discriminate E2.
Qed.
End RoundTripSamples.

(** ** Risk fusion ([srs/full_risk_score_analysis.py]) *)
Section RiskFusion.
Import WashTradingDetector RiskScoreAnalyzer.
Local Open Scope Q_scope.

Lemma Qle_bool_false (x y : Q) : Qle_bool x y = false <-> y < x.
Proof.
  split.
  - intros E. apply Qnot_le_lt. intros H.
    apply Qle_bool_iff in H. congruence.
  - intros H. destruct (Qle_bool x y) eqn:E; [|reflexivity].
    apply Qle_bool_iff in E. exfalso. now apply (Qlt_not_le y x).
Qed.

Lemma calculate_risk_level_score bs bc wash n whale :
  snd (_calculate_risk_level bs bc wash n whale)
  = Qmin (if whale
          then if wash || String.eqb bc "BOT" then 100 # 1
               else (if wash
                     then 0 + bs * (50 # 1)
                          + inject_Z (Z.min (Z.of_nat n * 15) 50)
                     else 0 + bs * (50 # 1)) + (20 # 1)
          else if wash
               then 0 + bs * (50 # 1) + inject_Z (Z.min (Z.of_nat n * 15) 50)
               else 0 + bs * (50 # 1))
         (100 # 1).
Proof. reflexivity. Qed.

Lemma calculate_risk_level_thresholds bs bc wash n whale :
  let level := fst (_calculate_risk_level bs bc wash n whale) in
  let score := snd (_calculate_risk_level bs bc wash n whale) in
  (75 # 1 <= score -> level = "CRITICAL")
  /\ (50 # 1 <= score -> score < 75 # 1 -> level = "HIGH")
  /\ (25 # 1 <= score -> score < 50 # 1 -> level = "MEDIUM")
  /\ (score < 25 # 1 -> level = "LOW").
Proof.
  unfold _calculate_risk_level. cbn [fst snd].
  set (s := Qmin _ (100 # 1)).
  destruct (Qle_bool (75 # 1) s) eqn:E75;
    [apply Qle_bool_iff in E75 | apply Qle_bool_false in E75];
    (destruct (Qle_bool (50 # 1) s) eqn:E50;
     [apply Qle_bool_iff in E50 | apply Qle_bool_false in E50]);
    (destruct (Qle_bool (25 # 1) s) eqn:E25;
     [apply Qle_bool_iff in E25 | apply Qle_bool_false in E25]);
    repeat split; intros; try reflexivity; exfalso; lra.
Qed.

(** The fields of a row of the risk table. *)
Lemma risk_row_fields results wash_wallets bot_results top_holders w :
  let row := risk_row results wash_wallets bot_results top_holders w in
  wallet row = w
  /\ is_wash_trading row = bool_decide (w ∈ wash_wallets)
  /\ wash_flag_count row = length (wash_flags results w)
  /\ is_top_holder row = Frame.isin w top_holders
  /\ (risk_level row, risk_score row)
     = _calculate_risk_level (bot_score row) (bot_classification row)
                             (is_wash_trading row) (wash_flag_count row)
                             (is_top_holder row).
Proof.
  unfold risk_row.
  destruct (_calculate_risk_level _ _ _ _ _) as [level score] eqn:E.
  cbn [wallet is_wash_trading wash_flag_count is_top_holder risk_level
       risk_score bot_score bot_classification].
  repeat split; reflexivity.
Qed.

Lemma create_risk_analysis_rows results wash_wallets bot_results
      holder_metrics top_holders row :
  In row (fst (create_risk_analysis results wash_wallets bot_results
                                    holder_metrics top_holders)) ->
  exists w, row = risk_row results wash_wallets bot_results top_holders w.
Proof.
  unfold create_risk_analysis. cbn [fst].
  rewrite sort_values_In, in_map_iff. intros (w & <- & _). eauto.
Qed.

Lemma wash_flags_count (results : Results) (w : string) :
  length (wash_flags results w)
  = (Nat.b2n (Frame.isin w (map st_wallet (self_transfers results)))
     + Nat.b2n (Frame.isin w (map rt_wallet_a (rapid_roundtrips results))
                || Frame.isin w (map rt_wallet_b (rapid_roundtrips results)))
     + Nat.b2n (Frame.isin w (map hf_wallet_a (high_frequency_pairs results))
                || Frame.isin w (map hf_wallet_b (high_frequency_pairs results)))
     + Nat.b2n (existsb (fun row => Frame.isin w (wallets row))
                        (circular_patterns results))
     + Nat.b2n (Frame.isin w (map vc_wallet (volume_concentration results))))%nat.
Proof.
  unfold wash_flags. rewrite !length_app.
  repeat match goal with |- context [if ?b then _ else _] => destruct b end;
    reflexivity.
Qed.
Lemma Qmin_cases (a b : Q) :
  (a <= b /\ Qmin a b == a) \/ (b <= a /\ Qmin a b == b).
Proof.
  destruct (Q.min_spec a b) as [[H E] | [H E]]; [left | right]; split;
    auto using Qlt_le_weak.
Qed.

Lemma flag_points_range (n : nat) :
  0 <= inject_Z (Z.min (Z.of_nat n * 15) 50)
  /\ inject_Z (Z.min (Z.of_nat n * 15) 50) <= 50 # 1.
Proof.
  split.
  - change 0 with (inject_Z 0). rewrite <- Zle_Qle. lia.
  - change (50 # 1) with (inject_Z 50). rewrite <- Zle_Qle. lia.
Qed.

(** C1 (as the code has it).  For a wallet of the risk table that is not
    a top holder, the risk score is [bot_score·50], plus
    [min(wash_flag_count·15, 50)] only when the wallet is in the
    suspicious-wallet set, capped at 100 (and not below 0 when the bot
    score is not negative).  [wash_flag_count] counts the result tables
    among self-transfers, round-trips, high-frequency pairs, circular
    patterns and volume concentration that name the wallet.  The level
    is CRITICAL from 75, HIGH from 50, MEDIUM from 25 and LOW below. *)
Theorem C1_risk_score_of_non_whale_wallet :
  forall (results : Results) (wash_wallets : gset string)
         (bot_results : list BotDetector.Classified)
         (holder_metrics : gmap string Q) (top_holders : list string)
         (row : RiskRow),
    In row (fst (create_risk_analysis results wash_wallets bot_results
                                      holder_metrics top_holders)) ->
    Frame.isin (wallet row) top_holders = false ->
    (is_wash_trading row = true <-> wallet row ∈ wash_wallets)
    /\ wash_flag_count row
       = (Nat.b2n (Frame.isin (wallet row) (map st_wallet (self_transfers results)))
          + Nat.b2n (Frame.isin (wallet row)
                                (map rt_wallet_a (rapid_roundtrips results))
                     || Frame.isin (wallet row)
                                   (map rt_wallet_b (rapid_roundtrips results)))
          + Nat.b2n (Frame.isin (wallet row)
                                (map hf_wallet_a (high_frequency_pairs results))
                     || Frame.isin (wallet row)
                                   (map hf_wallet_b (high_frequency_pairs results)))
          + Nat.b2n (existsb (fun c => Frame.isin (wallet row) (wallets c))
                             (circular_patterns results))
          + Nat.b2n (Frame.isin (wallet row)
                                (map vc_wallet (volume_concentration results))))%nat
    /\ risk_score row
       == Qmin (bot_score row * (50 # 1)
                + (if is_wash_trading row
                   then inject_Z (Z.min (Z.of_nat (wash_flag_count row) * 15) 50)
                   else 0))
               (100 # 1)
    /\ (0 <= bot_score row -> 0 <= risk_score row /\ risk_score row <= 100 # 1)
    /\ (75 # 1 <= risk_score row -> risk_level row = "CRITICAL")
    /\ (50 # 1 <= risk_score row -> risk_score row < 75 # 1 ->
        risk_level row = "HIGH")
    /\ (25 # 1 <= risk_score row -> risk_score row < 50 # 1 ->
        risk_level row = "MEDIUM")
    /\ (risk_score row < 25 # 1 -> risk_level row = "LOW").
Proof.
  intros results wash_wallets bot_results holder_metrics top_holders row Hin Hw.
  destruct (create_risk_analysis_rows _ _ _ _ _ _ Hin) as (w & ->).
  destruct (risk_row_fields results wash_wallets bot_results top_holders w)
    as (Ew & Ewash & Ecount & Etop & Ecalc).
  cbv zeta in *.
  set (row := risk_row results wash_wallets bot_results top_holders w) in *.
  rewrite Ew in Hw. rewrite Hw in Etop.
  assert (Escore : risk_score row
                   = snd (_calculate_risk_level (bot_score row)
                            (bot_classification row) (is_wash_trading row)
                            (wash_flag_count row) (is_top_holder row)))
    by now rewrite <- Ecalc.
  assert (Elevel : risk_level row
                   = fst (_calculate_risk_level (bot_score row)
                            (bot_classification row) (is_wash_trading row)
                            (wash_flag_count row) (is_top_holder row)))
    by now rewrite <- Ecalc.
  pose proof (calculate_risk_level_thresholds (bot_score row)
                (bot_classification row) (is_wash_trading row)
                (wash_flag_count row) (is_top_holder row)) as T.
  cbv zeta in T. rewrite <- Escore, <- Elevel in T.
  rewrite calculate_risk_level_score, Etop in Escore.
  pose proof (flag_points_range (wash_flag_count row)) as [P0 P50].
  split; [rewrite Ew, Ewash; apply bool_decide_eq_true |].
  split; [rewrite Ew, Ecount; apply wash_flags_count |].
  split; [|split; [|exact T]].
  - rewrite Escore. destruct (is_wash_trading row).
    + destruct (Qmin_cases (0 + bot_score row * (50 # 1)
                            + inject_Z (Z.min (Z.of_nat (wash_flag_count row) * 15) 50))
                           (100 # 1)) as [[H1 E1] | [H1 E1]];
        destruct (Qmin_cases (bot_score row * (50 # 1)
                              + inject_Z (Z.min (Z.of_nat (wash_flag_count row) * 15) 50))
                             (100 # 1)) as [[H2 E2] | [H2 E2]];
        rewrite E1, E2; lra.
    + destruct (Qmin_cases (0 + bot_score row * (50 # 1)) (100 # 1))
        as [[H1 E1] | [H1 E1]];
        destruct (Qmin_cases (bot_score row * (50 # 1) + 0) (100 # 1))
          as [[H2 E2] | [H2 E2]];
        rewrite E1, E2; lra.
  - intros Hb. rewrite Escore. destruct (is_wash_trading row).
    + destruct (Qmin_cases (0 + bot_score row * (50 # 1)
                            + inject_Z (Z.min (Z.of_nat (wash_flag_count row) * 15) 50))
                           (100 # 1)) as [[H1 E1] | [H1 E1]];
        rewrite E1; split; lra.
    + destruct (Qmin_cases (0 + bot_score row * (50 # 1)) (100 # 1))
        as [[H1 E1] | [H1 E1]];
        rewrite E1; split; lra.
Qed.

(** C2 (as the code has it).  For a wallet of the risk table that is a
    top holder: when it is in the suspicious-wallet set or classified
    BOT its risk score is exactly 100 (level CRITICAL); otherwise its
    risk score is [bot_score·50 + 20], capped at 100 -- detector flags
    of a wallet outside the suspicious-wallet set add nothing. *)
Theorem C2_risk_score_of_whale_wallet :
  forall (results : Results) (wash_wallets : gset string)
         (bot_results : list BotDetector.Classified)
         (holder_metrics : gmap string Q) (top_holders : list string)
         (row : RiskRow),
    In row (fst (create_risk_analysis results wash_wallets bot_results
                                      holder_metrics top_holders)) ->
    Frame.isin (wallet row) top_holders = true ->
    is_top_holder row = true
    /\ (is_wash_trading row = true <-> wallet row ∈ wash_wallets)
    /\ (is_wash_trading row = true \/ bot_classification row = "BOT" ->
        risk_score row == 100 # 1 /\ risk_level row = "CRITICAL")
    /\ (is_wash_trading row = false -> bot_classification row <> "BOT" ->
        risk_score row == Qmin (bot_score row * (50 # 1) + (20 # 1)) (100 # 1)).
Proof.
  intros results wash_wallets bot_results holder_metrics top_holders row Hin Hw.
  destruct (create_risk_analysis_rows _ _ _ _ _ _ Hin) as (w & ->).
  destruct (risk_row_fields results wash_wallets bot_results top_holders w)
    as (Ew & Ewash & Ecount & Etop & Ecalc).
  cbv zeta in *.
  set (row := risk_row results wash_wallets bot_results top_holders w) in *.
  rewrite Ew in Hw. rewrite Hw in Etop.
  assert (Escore : risk_score row
                   = snd (_calculate_risk_level (bot_score row)
                            (bot_classification row) (is_wash_trading row)
                            (wash_flag_count row) (is_top_holder row)))
    by now rewrite <- Ecalc.
  assert (Elevel : risk_level row
                   = fst (_calculate_risk_level (bot_score row)
                            (bot_classification row) (is_wash_trading row)
                            (wash_flag_count row) (is_top_holder row)))
    by now rewrite <- Ecalc.
  pose proof (calculate_risk_level_thresholds (bot_score row)
                (bot_classification row) (is_wash_trading row)
                (wash_flag_count row) (is_top_holder row)) as T.
  cbv zeta in T. rewrite <- Escore, <- Elevel in T.
  rewrite calculate_risk_level_score, Etop in Escore.
  split; [exact Etop |].
  split; [rewrite Ew, Ewash; apply bool_decide_eq_true |].
  split.
  - intros Hor.
    assert (Eb : is_wash_trading row || String.eqb (bot_classification row) "BOT"
                 = true).
    { apply orb_true_iff. destruct Hor as [H | H]; [now left | right].
      now apply String.eqb_eq. }
    rewrite Eb in Escore.
    assert (E100 : risk_score row == 100 # 1) by (rewrite Escore; reflexivity).
    split; [exact E100 |]. apply T. rewrite E100. discriminate.
  - intros Hwash Hbot. rewrite Hwash in Escore.
    assert (Eb : String.eqb (bot_classification row) "BOT" = false)
      by now apply String.eqb_neq.
    rewrite Eb in Escore. cbn [orb] in Escore. rewrite Escore.
    destruct (Qmin_cases (0 + bot_score row * (50 # 1) + (20 # 1)) (100 # 1))
      as [[H1 E1] | [H1 E1]];
      destruct (Qmin_cases (bot_score row * (50 # 1) + (20 # 1)) (100 # 1))
        as [[H2 E2] | [H2 E2]];
      rewrite E1, E2; lra.
Qed.
End RiskFusion.

Section RiskFusionSamples.
Import WashTradingDetector RiskScoreAnalyzer Samples.
Local Open Scope Q_scope.

(** On the payments to Sink no detector of the suspicious set fires,
    while the volume table names both wallets. *)
Example volume_table_is_not_suspicion :
  map vc_wallet (volume_concentration (fst sink_run)) = ["Alice"; "Sink"]
  /\ suspicious_wallets (snd sink_run) = ∅.
Proof. split; vm_compute; reflexivity. Qed.

Lemma C1_witness :
  In alice_row
     (fst (create_risk_analysis (fst sink_run) (suspicious_wallets (snd sink_run))
                                sink_bots ∅ []))
  /\ Frame.isin (wallet alice_row) [] = false
  /\ risk_score alice_row
     == Qmin (bot_score alice_row * (50 # 1)
              + (if is_wash_trading alice_row
                 then inject_Z (Z.min (Z.of_nat (wash_flag_count alice_row) * 15) 50)
                 else 0))
             (100 # 1).
Proof.
  assert (H : In alice_row
                 (fst (create_risk_analysis (fst sink_run)
                         (suspicious_wallets (snd sink_run)) sink_bots ∅ [])))
    by (vm_compute; left; reflexivity).
  assert (W : Frame.isin (wallet alice_row) [] = false) by reflexivity.
  split; [exact H |]. split; [exact W |].
  exact (proj1 (proj2 (proj2
           (C1_risk_score_of_non_whale_wallet _ _ _ _ _ _ H W)))).
Defined.

(** Alice is named by the volume-concentration table only, so her flag
    count is 1 while she is outside the suspicious set: the table gives
    her the score 2.5, the additive formula 17.5. *)
Lemma C1_flag_without_suspicion_adds_nothing :
  In alice_row (sink_risk [])
  /\ is_top_holder alice_row = false
  /\ is_wash_trading alice_row = false
  /\ wash_flag_count alice_row = 1%nat
  /\ risk_score alice_row == 5 # 2
  /\ RiskSpec.additive (bot_score alice_row) (wash_flag_count alice_row) == 35 # 2
  /\ ~ risk_score alice_row
       == RiskSpec.additive (bot_score alice_row) (wash_flag_count alice_row).
Proof.
  split; [vm_compute; left; reflexivity |].
  split; [reflexivity |]. split; [reflexivity |]. split; [reflexivity |].
  split; [vm_compute; reflexivity |]. split; [vm_compute; reflexivity |].
  vm_compute. discriminate.
Qed.

Lemma C2_witness :
  In alice_whale_row
     (fst (create_risk_analysis (fst sink_run) (suspicious_wallets (snd sink_run))
                                sink_bots ∅ ["Alice"]))
  /\ Frame.isin (wallet alice_whale_row) ["Alice"] = true
  /\ is_top_holder alice_whale_row = true.
Proof.
  assert (H : In alice_whale_row
                 (fst (create_risk_analysis (fst sink_run)
                         (suspicious_wallets (snd sink_run)) sink_bots ∅ ["Alice"])))
    by (vm_compute; left; reflexivity).
  assert (W : Frame.isin (wallet alice_whale_row) ["Alice"] = true) by reflexivity.
  split; [exact H |]. split; [exact W |].
  exact (proj1 (C2_risk_score_of_whale_wallet _ _ _ _ _ _ H W)).
Defined.

(** The same wallet as a top holder: one detector flag, not in the
    suspicious set, not a BOT.  The table gives 22.5; forcing gives 100
    and the additive formula plus the premium gives 37.5. *)
Lemma C2_whale_flag_without_suspicion :
  In alice_whale_row (sink_risk ["Alice"])
  /\ is_top_holder alice_whale_row = true
  /\ wash_flag_count alice_whale_row = 1%nat
  /\ is_wash_trading alice_whale_row = false
  /\ bot_classification alice_whale_row = "HUMAN"
  /\ risk_score alice_whale_row == 45 # 2
  /\ ~ risk_score alice_whale_row == 100 # 1
  /\ ~ risk_score alice_whale_row
       == RiskSpec.additive_plus_premium (bot_score alice_whale_row)
                                         (wash_flag_count alice_whale_row).
Proof.
  split; [vm_compute; left; reflexivity |].
  split; [reflexivity |]. split; [reflexivity |]. split; [reflexivity |].
  split; [reflexivity |]. split; [vm_compute; reflexivity |].
  split; vm_compute; discriminate.
Qed.
End RiskFusionSamples.

Section TokenRisk.
Import RiskScoreAnalyzer.
Local Open Scope Q_scope.

Lemma Qltb_true (x y : Q) : Frame.Qltb x y = true <-> x < y.
Proof.
  unfold Frame.Qltb. rewrite negb_true_iff. apply Qle_bool_false.
Qed.

Lemma ratio_is_wallet_ratio (test : RiskRow -> bool) (rows : list RiskRow) :
  ratio (length (List.filter test rows)) (length rows)
  = RiskSpec.wallet_ratio test rows.
Proof. destruct rows; reflexivity. Qed.

(** C3 (as the code has it).  For a non-empty holder-metrics mapping,
    missing keys read as 0, the token score is
    [0.40·concentration + 0.30·bot + 0.30·wash] with
    [concentration = min(top_10_ratio·1.25, 100)], raised to at least 90
    when the Gini coefficient exceeds 0.9, [bot = min(ratio of BOT rows·333, 100)]
    and [wash = min(ratio of wash-trading rows·500, 100)], the ratios
    being 0 for an empty or missing risk table; the three components
    are reported as computed.  For the empty mapping, whatever the risk
    table holds, the score is 0 and no component is reported, and
    [create_risk_analysis] does not compute token data at all. *)
Theorem C3_token_risk_score_by_holder_metrics :
  forall (risk_results : option (list RiskRow)) (holder_metrics : gmap string Q),
    let rows := match risk_results with Some r => r | None => [] end in
    let token := calculate_token_risk_score risk_results holder_metrics in
    let concentration :=
      RiskSpec.concentration_score (metric holder_metrics "top_10_ratio")
                                   (metric holder_metrics "gini_coefficient") in
    let bot :=
      RiskSpec.bot_score_agg
        (RiskSpec.wallet_ratio (fun r => String.eqb (bot_classification r) "BOT")
                               rows) in
    let wash :=
      RiskSpec.wash_score_agg (RiskSpec.wallet_ratio is_wash_trading rows) in
    (holder_metrics <> ∅ ->
     token_risk_score token == RiskSpec.token_risk_score concentration bot wash
     /\ risk_components token !! "concentration_risk" = Some concentration
     /\ risk_components token !! "bot_activity_risk" = Some bot
     /\ risk_components token !! "wash_trading_risk" = Some wash
     /\ (9 # 10 < metric holder_metrics "gini_coefficient" ->
         90 # 1 <= concentration))
    /\ (holder_metrics = ∅ ->
        token_risk_score token = 0
        /\ risk_components token = ∅
        /\ forall results wash_wallets bot_results top_holders,
            snd (create_risk_analysis results wash_wallets bot_results
                                      holder_metrics top_holders) = None).
Proof.
  intros risk_results holder_metrics rows token concentration bot wash.
  split.
  - intros Hne.
    unfold token, calculate_token_risk_score.
    rewrite (bool_decide_eq_false_2 _ Hne).
    fold rows. rewrite !ratio_is_wallet_ratio.
    cbn [token_risk_score risk_components].
    fold (RiskSpec.concentration_score (metric holder_metrics "top_10_ratio")
                                       (metric holder_metrics "gini_coefficient")).
    fold concentration.
    fold (RiskSpec.bot_score_agg
            (RiskSpec.wallet_ratio (fun r => String.eqb (bot_classification r) "BOT")
                                   rows)).
    fold bot.
    fold (RiskSpec.wash_score_agg (RiskSpec.wallet_ratio is_wash_trading rows)).
    fold wash.
    split; [unfold RiskSpec.token_risk_score; ring |].
    split; [reflexivity |]. split; [reflexivity |]. split; [reflexivity |].
    intros Hg. unfold concentration, RiskSpec.concentration_score.
    apply Qltb_true in Hg. rewrite Hg. apply Q.le_max_r.
  - intros He.
    unfold token, calculate_token_risk_score, create_risk_analysis.
    rewrite (bool_decide_eq_true_2 _ He).
    cbn [snd token_risk_score risk_components]. auto.
Qed.
End TokenRisk.

Section TokenRiskSamples.
Import RiskScoreAnalyzer Samples.
Local Open Scope Q_scope.

Lemma C3_witness :
  sample_metrics <> ∅
  /\ token_risk_score (calculate_token_risk_score (Some churn_risk) sample_metrics)
     == RiskSpec.token_risk_score
          (RiskSpec.concentration_score (metric sample_metrics "top_10_ratio")
                                        (metric sample_metrics "gini_coefficient"))
          (RiskSpec.bot_score_agg
             (RiskSpec.wallet_ratio
                (fun r => String.eqb (bot_classification r) "BOT") churn_risk))
          (RiskSpec.wash_score_agg
             (RiskSpec.wallet_ratio is_wash_trading churn_risk)).
Proof.
  assert (H : sample_metrics <> ∅)
    by (apply (bool_decide_eq_false_1 (sample_metrics = ∅));
        vm_compute; reflexivity).
  split; [exact H |].
  exact (proj1 (proj1 (C3_token_risk_score_by_holder_metrics
                         (Some churn_risk) sample_metrics) H)).
Defined.

Example token_score_sample :
  token_risk_score (calculate_token_risk_score (Some churn_risk) sample_metrics)
  == 96 # 1.
Proof. vm_compute. reflexivity. Qed.

(** With an empty holder-metrics mapping the function returns the score
    0 and no component, although every wallet of the risk table is a
    BOT and a wash trader: no non-negative concentration score makes
    the weighted sum equal to the returned score. *)
Lemma C3_empty_metrics_score_zero :
  token_risk_score (calculate_token_risk_score (Some churn_risk) ∅) == 0
  /\ risk_components (calculate_token_risk_score (Some churn_risk) ∅) = ∅
  /\ ~ exists concentration,
        0 <= concentration
        /\ token_risk_score (calculate_token_risk_score (Some churn_risk) ∅)
           == RiskSpec.token_risk_score concentration
                (RiskSpec.bot_score_agg
                   (RiskSpec.wallet_ratio
                      (fun r => String.eqb (bot_classification r) "BOT") churn_risk))
                (RiskSpec.wash_score_agg
                   (RiskSpec.wallet_ratio is_wash_trading churn_risk)).
Proof.
  split; [vm_compute; reflexivity |]. split; [vm_compute; reflexivity |].
  intros (c & Hc & E).
  assert (E0 : token_risk_score (calculate_token_risk_score (Some churn_risk) ∅) == 0)
    by (vm_compute; reflexivity).
  assert (Eb : RiskSpec.bot_score_agg
                 (RiskSpec.wallet_ratio
                    (fun r => String.eqb (bot_classification r) "BOT") churn_risk)
               == 100 # 1) by (vm_compute; reflexivity).
  assert (Ew : RiskSpec.wash_score_agg
                 (RiskSpec.wallet_ratio is_wash_trading churn_risk)
               == 100 # 1) by (vm_compute; reflexivity).
  unfold RiskSpec.token_risk_score in E. rewrite E0, Eb, Ew in E. lra.
Qed.
End TokenRiskSamples.

(** ** Bot score and missing payloads ([analysis/bot_detector.py]) *)
Section MissingPayloads.
Import BotDetector Samples.
Local Open Scope Q_scope.

(** Without the key [flow_balance_ratio] the flow rule fires. *)
Lemma flow_score_without_ratio (f : gmap string Value) (why : list string) :
  f !! "flow_balance_ratio" = None ->
  flow_score f why = (0 + 1, (why ++ ["balanced_flow"])%list).
Proof.
  intros H. unfold flow_score, get_num. rewrite H. reflexivity.
Qed.

(** C6.  A wallet whose payloads are all absent has no feature besides
    its name, yet [calculate_bot_score] gives it the full flow
    sub-score: score 0.05 with reason [balanced_flow].  The same wallet
    with a flow payload that is present and one-sided scores 0. *)
Theorem C6_absent_flow_payload_scores_as_balanced :
  forall (std : list Q -> option Q) (count_decimals : Q -> nat),
    let absent := extract_features std count_decimals {[ "W" := no_payloads ]} "W" in
    let present :=
      extract_features std count_decimals {[ "W" := one_sided_flow ]} "W" in
    absent = {[ "wallet" := Text "W" ]}
    /\ fst (calculate_bot_score absent) == 1 # 20
    /\ snd (calculate_bot_score absent) = ["balanced_flow"]
    /\ get_num present "flow_balance_ratio" 0 == 1 # 2
    /\ fst (calculate_bot_score present) == 0
    /\ snd (calculate_bot_score present) = [].
Proof.
  intros std count_decimals. repeat split; vm_compute; reflexivity.
Qed.
End MissingPayloads.

(** * Further properties of the pipeline *)

(** ** Risk fusion *)
Section RiskFusionBounds.
Import WashTradingDetector RiskScoreAnalyzer.
Local Open Scope Q_scope.

Lemma Qmin_le_r (a b : Q) : Qmin a b <= b.
Proof. apply Q.le_min_r. Qed.

(** X1.  [_calculate_risk_level] never returns a score above 100, and
    for the same bot score, classification, suspicion and flag count the
    score of a top holder is never below the score of a wallet that is
    not a top holder. *)
Theorem risk_score_capped_and_raised_by_top_holder :
  forall (bs : Q) (bc : string) (wash : bool) (n : nat),
    snd (_calculate_risk_level bs bc wash n false) <= 100 # 1
    /\ snd (_calculate_risk_level bs bc wash n true) <= 100 # 1
    /\ snd (_calculate_risk_level bs bc wash n false)
       <= snd (_calculate_risk_level bs bc wash n true).
Proof.
  intros bs bc wash n. rewrite !calculate_risk_level_score.
  split; [apply Q.le_min_r |]. split; [apply Q.le_min_r |].
  destruct wash; cbn [orb].
  - apply Q.min_glb; apply Q.le_min_r.
  - destruct (String.eqb bc "BOT").
    + apply Q.min_glb; apply Q.le_min_r.
    + destruct (Qmin_cases (0 + bs * (50 # 1)) (100 # 1)) as [[H1 E1] | [H1 E1]];
        destruct (Qmin_cases (0 + bs * (50 # 1) + (20 # 1)) (100 # 1))
          as [[H2 E2] | [H2 E2]];
        rewrite E1, E2; lra.
Qed.

(** X2.  For a bot score that is not negative the risk score lies in
    [0, 100] whatever the other arguments are. *)
Theorem risk_score_range :
  forall (bs : Q) (bc : string) (wash : bool) (n : nat) (whale : bool),
    0 <= bs ->
    0 <= snd (_calculate_risk_level bs bc wash n whale)
    /\ snd (_calculate_risk_level bs bc wash n whale) <= 100 # 1.
Proof.
  intros bs bc wash n whale Hbs. rewrite calculate_risk_level_score.
  split; [| apply Q.le_min_r].
  pose proof (flag_points_range n) as [P0 _].
  apply Q.min_glb; [| discriminate].
  destruct whale, wash; cbn [orb]; try destruct (String.eqb bc "BOT");
    try discriminate; lra.
Qed.

Lemma risk_score_range_witness :
  0 <= 1 # 2
  /\ 0 <= snd (_calculate_risk_level (1 # 2) "HUMAN" true 2 false)
  /\ snd (_calculate_risk_level (1 # 2) "HUMAN" true 2 false) <= 100 # 1.
Proof.
  assert (H : 0 <= 1 # 2) by discriminate.
  split; [exact H |].
  exact (risk_score_range (1 # 2) "HUMAN" true 2 false H).
Defined.
End RiskFusionBounds.

Section RiskTable.
Import WashTradingDetector RiskScoreAnalyzer.
Local Open Scope Q_scope.

Lemma risk_table_wallets results wash_wallets bot_results holder_metrics
      top_holders :
  Permutation
    (map wallet (fst (create_risk_analysis results wash_wallets bot_results
                                           holder_metrics top_holders)))
    (elements (list_to_set (map BotDetector.wallet bot_results) ∪ wash_wallets
               : gset string)).
Proof.
  unfold create_risk_analysis. cbn [fst].
  rewrite (Permutation_map wallet (sort_values_perm _ _)).
  rewrite map_map.
  rewrite (map_ext _ (fun w => w)); [now rewrite map_id |].
  intros w.
  now destruct (risk_row_fields results wash_wallets bot_results top_holders w)
    as (E & _).
Qed.

(** X3.  When the classifier produced at least one row, the risk table
    has exactly one row for every wallet that is classified or in the
    suspicious-wallet set, no row for any other wallet, and its rows are
    in order of decreasing risk score. *)
Theorem risk_table_rows :
  forall (results : Results) (wash_wallets : gset string)
         (bot_results : list BotDetector.Classified)
         (holder_metrics : gmap string Q) (top_holders : list string),
    bot_results <> [] ->
    let rows := fst (create_risk_analysis results wash_wallets bot_results
                                          holder_metrics top_holders) in
    (forall w, In w (map wallet rows)
               <-> In w (map BotDetector.wallet bot_results) \/ w ∈ wash_wallets)
    /\ List.NoDup (map wallet rows)
    /\ Sorted (fun a b => risk_score b <= risk_score a) rows.
Proof.
  intros results wash_wallets bot_results holder_metrics top_holders _ rows.
  pose proof (risk_table_wallets results wash_wallets bot_results holder_metrics
                                 top_holders) as P.
  fold rows in P. split; [|split].
  - intros w. rewrite <- list_elem_of_In, P, elem_of_elements, elem_of_union,
      elem_of_list_to_set, list_elem_of_In. reflexivity.
  - apply (proj1 (NoDup_ListNoDup _)). rewrite P. apply NoDup_elements.
  - unfold rows, create_risk_analysis. cbn [fst].
    pose proof (sort_values_Sorted
                  (fun a b : RiskRow => Qle_bool (risk_score b) (risk_score a))
                  (fun a b => Qle_bool_total (risk_score b) (risk_score a))
                  (map (risk_row results wash_wallets bot_results top_holders)
                       (elements (list_to_set (map BotDetector.wallet bot_results)
                                  ∪ wash_wallets)))) as S.
    induction S as [|x l Hs IH Hhd]; constructor; auto.
    destruct Hhd; constructor. now apply Qle_bool_iff.
Qed.
End RiskTable.

Section RiskTableSamples.
Import WashTradingDetector RiskScoreAnalyzer Samples.

Lemma risk_table_rows_witness :
  churn_bots <> []
  /\ List.NoDup
       (map wallet
            (fst (create_risk_analysis (fst churn_run)
                    (suspicious_wallets (snd churn_run)) churn_bots ∅ []))).
Proof.
  assert (H : churn_bots <> []) by discriminate.
  split; [exact H |].
  exact (proj1 (proj2 (risk_table_rows (fst churn_run)
                         (suspicious_wallets (snd churn_run)) churn_bots ∅ [] H))).
Defined.
End RiskTableSamples.

Section TokenRiskBounds.
Import RiskScoreAnalyzer.
Local Open Scope Q_scope.

Lemma ratio_range (count total : nat) : 0 <= ratio count total.
Proof.
  unfold ratio. destruct (0 <? total)%nat eqn:E; [|discriminate].
  apply Nat.ltb_lt in E.
  apply Qle_shift_div_l.
  - change 0 with (inject_Z 0). rewrite <- Zlt_Qlt. lia.
  - rewrite Qmult_0_l. change 0 with (inject_Z 0). rewrite <- Zle_Qle. lia.
Qed.

(** X4.  The token risk score never exceeds 100, whatever the holder
    metrics and the risk table are, and it is not negative when the
    [top_10_ratio] metric is not negative (or absent). *)
Theorem token_risk_score_range :
  forall (risk_results : option (list RiskRow)) (holder_metrics : gmap string Q),
    token_risk_score (calculate_token_risk_score risk_results holder_metrics)
    <= 100 # 1
    /\ (0 <= metric holder_metrics "top_10_ratio" ->
        0 <= token_risk_score
               (calculate_token_risk_score risk_results holder_metrics)).
Proof.
  intros risk_results holder_metrics. unfold calculate_token_risk_score.
  destruct (bool_decide (holder_metrics = ∅)); cbn [token_risk_score];
    [split; [discriminate | intros _; discriminate] |].
  set (rows := match risk_results with Some r => r | None => [] end).
  set (top := metric holder_metrics "top_10_ratio").
  set (br := ratio (length (List.filter
                              (fun r => String.eqb (bot_classification r) "BOT")
                              rows)) (length rows)).
  set (wr := ratio (length (List.filter is_wash_trading rows)) (length rows)).
  assert (Hbr : 0 <= br) by apply ratio_range.
  assert (Hwr : 0 <= wr) by apply ratio_range.
  set (c0 := Qmin (top * (5 # 4)) (100 # 1)).
  set (conc := if Frame.Qltb (9 # 10) (metric holder_metrics "gini_coefficient")
               then Qmax c0 (90 # 1) else c0).
  assert (Hc0 : c0 <= 100 # 1) by apply Q.le_min_r.
  assert (Hconc : conc <= 100 # 1).
  { unfold conc. destruct (Frame.Qltb _ _); [|exact Hc0].
    apply Q.max_lub; [exact Hc0 | discriminate]. }
  assert (Hconc0 : 0 <= top -> 0 <= conc).
  { intros Ht. assert (0 <= c0) by (apply Q.min_glb; [lra | discriminate]).
    unfold conc. destruct (Frame.Qltb _ _); [|assumption].
    eapply Qle_trans; [eassumption | apply Q.le_max_l]. }
  pose proof (Q.le_min_r (br * (333 # 1)) (100 # 1)) as Hb.
  pose proof (Q.le_min_r (wr * (500 # 1)) (100 # 1)) as Hw.
  assert (Hb0 : 0 <= Qmin (br * (333 # 1)) (100 # 1))
    by (apply Q.min_glb; [lra | discriminate]).
  assert (Hw0 : 0 <= Qmin (wr * (500 # 1)) (100 # 1))
    by (apply Q.min_glb; [lra | discriminate]).
  split; [lra | intros Ht; specialize (Hconc0 Ht); lra].
Qed.
End TokenRiskBounds.

Section UnclassifiedWallets.
Import DataFetcher WashTradingDetector RiskScoreAnalyzer.
Local Open Scope Q_scope.

Lemma find_None_iff {A : Type} (f : A -> bool) (l : list A) :
  List.find f l = None <-> forall x, In x l -> f x = false.
Proof.
  split; [apply find_none |].
  intros H. destruct (List.find f l) as [x|] eqn:E; [|reflexivity].
  apply find_some in E. destruct E as [E1 E2].
  rewrite (H x E1) in E2. discriminate.
Qed.

Lemma risk_row_unclassified results wash_wallets bot_results top_holders w :
  ~ In w (map BotDetector.wallet bot_results) ->
  let row := risk_row results wash_wallets bot_results top_holders w in
  bot_classification row = "UNKNOWN" /\ bot_score row = 0
  /\ bot_confidence row = "N/A".
Proof.
  intros Hw. unfold risk_row.
  assert (E : List.find (fun r => String.eqb (BotDetector.wallet r) w) bot_results
              = None).
  { apply find_None_iff. intros x Hx. apply String.eqb_neq. intros Heq.
    apply Hw. rewrite <- Heq. now apply in_map. }
  rewrite E. destruct (_calculate_risk_level _ _ _ _ _). auto.
Qed.

(** X5.  When the classifier returned rows, a wallet of the risk table
    that never occurs as [start_wallet] of a flow has no classification:
    its row carries bot score 0, classification UNKNOWN and confidence
    N/A, and it is in the table only because it is in the
    suspicious-wallet set. *)
Theorem receiver_only_wallet_is_unknown :
  forall (std : list Q -> option Q) (count_decimals : Q -> nat)
         (api : string -> BotDetector.WalletData)
         (flows : list UserFlow) (min_transactions : Z) (sample_size : option Z)
         (results : Results) (wash_wallets : gset string)
         (holder_metrics : gmap string Q) (top_holders : list string)
         (row : RiskRow),
    BotDetector.classify_wallets std count_decimals api flows
                                 min_transactions sample_size <> [] ->
    In row (fst (create_risk_analysis results wash_wallets
                   (BotDetector.classify_wallets std count_decimals api flows
                                                 min_transactions sample_size)
                   holder_metrics top_holders)) ->
    Frame.isin (wallet row) (map start_wallet flows) = false ->
    bot_classification row = "UNKNOWN" /\ bot_score row = 0
    /\ bot_confidence row = "N/A" /\ is_wash_trading row = true.
Proof.
  intros std cd api flows m s results wash hm top row Hne Hin Hw.
  set (bots := BotDetector.classify_wallets std cd api flows m s) in *.
  assert (Hnot : ~ In (wallet row) (map BotDetector.wallet bots)).
  { intros H. apply isin_false in Hw. apply Hw.
    apply (eligible_wallets_start flows m s).
    unfold bots, BotDetector.classify_wallets in H.
    rewrite in_map_iff in H. destruct H as (c & Ec & Hc).
    rewrite sort_values_In, in_map_iff in Hc. destruct Hc as (w' & <- & Hw').
    rewrite classify_one_wallet in Ec. now subst. }
  assert (Hmem : In (wallet row) (map BotDetector.wallet bots)
                 \/ wallet row ∈ wash).
  { pose proof (risk_table_wallets results wash bots hm top) as P.
    apply (in_map wallet) in Hin. rewrite <- list_elem_of_In in Hin.
    rewrite P, elem_of_elements, elem_of_union, elem_of_list_to_set,
      list_elem_of_In in Hin. exact Hin. }
  destruct (create_risk_analysis_rows _ _ _ _ _ _ Hin) as (w & ->).
  destruct (risk_row_fields results wash bots top w) as (Ew & Ewash & _).
  cbv zeta in *. rewrite Ew in Hnot, Hmem.
  destruct (risk_row_unclassified results wash bots top w Hnot) as (E1 & E2 & E3).
  repeat split; try assumption.
  rewrite Ewash. apply bool_decide_eq_true. tauto.
Qed.
End UnclassifiedWallets.

Section UnclassifiedWalletsSamples.
Import DataFetcher WashTradingDetector RiskScoreAnalyzer Samples.

Lemma receiver_only_wallet_is_unknown_witness :
  ten_bots <> []
  /\ In sink_row ten_risk
  /\ Frame.isin (wallet sink_row) (map start_wallet ten_payments) = false
  /\ bot_classification sink_row = "UNKNOWN".
Proof.
  assert (H1 : BotDetector.classify_wallets (fun _ => None) (fun _ => 0%nat)
                 (fun _ => no_payloads) ten_payments 5 None <> [])
    by (vm_compute; discriminate).
  assert (H2 : In sink_row
                  (fst (create_risk_analysis (fst ten_run)
                          (suspicious_wallets (snd ten_run))
                          (BotDetector.classify_wallets
                             (fun _ => None) (fun _ => 0%nat)
                             (fun _ => no_payloads) ten_payments 5 None)
                          ∅ [])))
    by (vm_compute; right; left; reflexivity).
  assert (H3 : Frame.isin (wallet sink_row) (map start_wallet ten_payments)
               = false) by (vm_compute; reflexivity).
  split; [exact H1 |]. split; [exact H2 |]. split; [exact H3 |].
  exact (proj1 (receiver_only_wallet_is_unknown _ _ _ _ _ _ _ _ _ _ _ H1 H2 H3)).
Defined.
End UnclassifiedWalletsSamples.

(** ** Bot score *)
Section BotScoreRange.
Import BotDetector.
Local Open Scope Q_scope.

Lemma timing_range (f : gmap string Value) (why : list string) :
  0 <= fst (timing f why) /\ fst (timing f why) <= 5 # 1.
Proof.
  unfold timing, rule.
  repeat match goal with |- context [if ?b then _ else _] => destruct b end;
    cbn [fst snd]; split; lra.
Qed.

Lemma patterns_range (f : gmap string Value) (why : list string) :
  0 <= fst (patterns f why) /\ fst (patterns f why) <= 3 # 1.
Proof.
  unfold patterns, rule.
  repeat match goal with |- context [if ?b then _ else _] => destruct b end;
    cbn [fst snd]; split; lra.
Qed.

Lemma counterparty_range (f : gmap string Value) (why : list string) :
  0 <= fst (counterparty f why) /\ fst (counterparty f why) <= 4 # 1.
Proof.
  unfold counterparty, rule.
  repeat match goal with |- context [if ?b then _ else _] => destruct b end;
    cbn [fst snd]; split; lra.
Qed.

Lemma intelligence_range (f : gmap string Value) (why : list string) :
  0 <= fst (intelligence_score f why)
  /\ fst (intelligence_score f why) <= 3 # 1.
Proof.
  unfold intelligence_score.
  repeat match goal with |- context [if ?b then _ else _] => destruct b end;
    cbn [fst snd]; split; lra.
Qed.

Lemma portfolio_range (f : gmap string Value) (why : list string) :
  0 <= fst (portfolio f why) /\ fst (portfolio f why) <= 2 # 1.
Proof.
  unfold portfolio, rule.
  repeat match goal with |- context [if ?b then _ else _] => destruct b end;
    cbn [fst snd]; split; lra.
Qed.

Lemma flow_score_range (f : gmap string Value) (why : list string) :
  0 <= fst (flow_score f why) /\ fst (flow_score f why) <= 1 # 1.
Proof.
  unfold flow_score, rule.
  repeat match goal with |- context [if ?b then _ else _] => destruct b end;
    cbn [fst snd]; split; lra.
Qed.

(** X6.  For every feature dictionary the bot score lies in [0, 1]. *)
Theorem bot_score_range :
  forall f : gmap string Value,
    0 <= fst (calculate_bot_score f) /\ fst (calculate_bot_score f) <= 1.
Proof.
  intros f. unfold calculate_bot_score.
  pose proof (timing_range f []) as T.
  destruct (timing f []) as [t r1]. cbn [fst] in T.
  pose proof (patterns_range f r1) as P.
  destruct (patterns f r1) as [p r2]. cbn [fst] in P.
  pose proof (counterparty_range f r2) as C.
  destruct (counterparty f r2) as [c r3]. cbn [fst] in C.
  pose proof (intelligence_range f r3) as I.
  destruct (intelligence_score f r3) as [i r4]. cbn [fst] in I.
  pose proof (portfolio_range f r4) as O.
  destruct (portfolio f r4) as [o r5]. cbn [fst] in O.
  pose proof (flow_score_range f r5) as F.
  destruct (flow_score f r5) as [fl r6]. cbn [fst] in F.
  cbn [fst].
  replace (Qgtb (w_timing + w_patterns + w_counterparty + w_intelligence
                 + w_portfolio + w_flow) 0) with true by reflexivity.
  assert (E : w_timing + w_patterns + w_counterparty + w_intelligence
              + w_portfolio + w_flow == 1) by reflexivity.
  rewrite E. unfold w_timing, w_patterns, w_counterparty, w_intelligence,
                    w_portfolio, w_flow.
  unfold Qdiv. rewrite Qmult_1_r.
  change (/ (5 # 1)) with (1 # 5). change (/ (3 # 1)) with (1 # 3).
  change (/ (4 # 1)) with (1 # 4). change (/ (2 # 1)) with (1 # 2).
  change (/ (1 # 1)) with (1 # 1). change (/ 1) with 1.
  split; lra.
Qed.
End BotScoreRange.

Section Classification.
Import DataFetcher BotDetector.
Local Open Scope Q_scope.

Lemma Qgtb_true (x y : Q) : Qgtb x y = true <-> y < x.
Proof. unfold Qgtb. apply Qltb_true. Qed.

Lemma Qgtb_false (x y : Q) : Qgtb x y = false <-> x <= y.
Proof.
  unfold Qgtb, Frame.Qltb. rewrite negb_false_iff. apply Qle_bool_iff.
Qed.

Lemma classify_one_fields std count_decimals flows wallet_data w :
  let row := classify_one std count_decimals flows wallet_data w in
  bot_score row = fst (calculate_bot_score (features row))
  /\ bot_confidence row
     = (if Qgtb (bot_score row) (7 # 10) then "HIGH"
        else if Qgtb (bot_score row) (2 # 5) then "MEDIUM" else "LOW")
  /\ classification row
     = (if Qgtb (bot_score row) (3 # 5) then "BOT"
        else if Qgtb (bot_score row) (2 # 5) then "UNCERTAIN" else "HUMAN").
Proof.
  unfold classify_one.
  destruct (calculate_bot_score _) as [score why] eqn:E.
  cbn [bot_score bot_confidence classification features]. rewrite E. auto.
Qed.

(** X7.  The bot score of every row of the classification table is the
    score [calculate_bot_score] gives to the row's features; the row is
    labelled BOT exactly above 0.6, UNCERTAIN exactly in (0.4, 0.6] and
    HUMAN exactly up to 0.4; its confidence is LOW exactly when it is
    labelled HUMAN, and HIGH only when it is labelled BOT. *)
Theorem classification_follows_score :
  forall (std : list Q -> option Q) (count_decimals : Q -> nat)
         (api : string -> WalletData)
         (flows : list UserFlow) (min_transactions : Z)
         (sample_size : option Z) (row : Classified),
    In row (classify_wallets std count_decimals api flows
                             min_transactions sample_size) ->
    bot_score row = fst (calculate_bot_score (features row))
    /\ (classification row = "BOT" <-> 3 # 5 < bot_score row)
    /\ (classification row = "UNCERTAIN"
        <-> 2 # 5 < bot_score row /\ bot_score row <= 3 # 5)
    /\ (classification row = "HUMAN" <-> bot_score row <= 2 # 5)
    /\ (bot_confidence row = "LOW" <-> classification row = "HUMAN")
    /\ (bot_confidence row = "HIGH" -> classification row = "BOT").
Proof.
  intros std cd api flows m s row Hin.
  unfold classify_wallets in Hin.
  rewrite sort_values_In, in_map_iff in Hin. destruct Hin as (w & <- & _).
  destruct (classify_one_fields std cd flows
              (batch_fetch_wallet_data api (eligible_wallets flows m s)) w)
    as (Es & Ec & El).
  cbv zeta in *.
  set (row := classify_one std cd flows _ w) in *.
  split; [exact Es |].
  rewrite Ec, El.
  destruct (Qgtb (bot_score row) (7 # 10)) eqn:E7;
    [apply Qgtb_true in E7 | apply Qgtb_false in E7];
    (destruct (Qgtb (bot_score row) (3 # 5)) eqn:E6;
     [apply Qgtb_true in E6 | apply Qgtb_false in E6]);
    (destruct (Qgtb (bot_score row) (2 # 5)) eqn:E4;
     [apply Qgtb_true in E4 | apply Qgtb_false in E4]);
    repeat split; intros; try reflexivity; try discriminate; try lra;
    try (exfalso; lra).
Qed.
End Classification.

Section ClassificationSamples.
Import DataFetcher BotDetector Samples.
Local Open Scope Q_scope.

Lemma classification_follows_score_witness :
  In ten_alice (classify_wallets (fun _ => None) (fun _ => 0%nat)
                                 (fun _ => no_payloads) ten_payments 5 None)
  /\ (bot_confidence ten_alice = "LOW" <-> classification ten_alice = "HUMAN").
Proof.
  assert (H : In ten_alice
                 (classify_wallets (fun _ => None) (fun _ => 0%nat)
                                   (fun _ => no_payloads) ten_payments 5 None))
    by (vm_compute; left; reflexivity).
  split; [exact H |].
  exact (proj1 (proj2 (proj2 (proj2 (proj2
           (classification_follows_score (fun _ => None) (fun _ => 0%nat)
              (fun _ => no_payloads) ten_payments 5 None ten_alice H)))))).
Defined.
End ClassificationSamples.

Section EligibilityCount.
Import DataFetcher BotDetector.

Lemma unique_In_iff (l : list string) (x : string) : In x (unique l) <-> In x l.
Proof.
  split; [apply unique_In |].
  induction l as [|y l IH]; simpl; [tauto |].
  intros [-> | H]; [now left |].
  destruct (String.eqb x y) eqn:E.
  - apply String.eqb_eq in E. now left.
  - right. apply filter_In. split; [now apply IH | now rewrite E].
Qed.

Lemma occurrences_absent (w : string) (col : list string) :
  ~ In w col -> occurrences w col = 0%nat.
Proof.
  intros H. unfold occurrences.
  destruct (List.filter (String.eqb w) col) as [|x l] eqn:E; [reflexivity |].
  exfalso. apply H.
  assert (Hx : In x (List.filter (String.eqb w) col)) by (rewrite E; now left).
  apply filter_In in Hx. destruct Hx as [Hx E']. apply String.eqb_eq in E'.
  now subst.
Qed.

Lemma value_counts_entry (col : list string) (c : string * nat) :
  In c (value_counts col)
  <-> In (fst c) col /\ snd c = occurrences (fst c) col.
Proof.
  unfold value_counts. rewrite sort_values_In, in_map_iff. split.
  - intros (w & <- & Hw). simpl. split; [now apply unique_In | reflexivity].
  - intros [H1 H2]. exists (fst c). split; [| now apply unique_In_iff].
    destruct c; simpl in *; congruence.
Qed.

Lemma count_of_value_counts (w : string) (col : list string) :
  count_of w (value_counts col) = occurrences w col.
Proof.
  unfold count_of.
  destruct (List.find _ (value_counts col)) as [c|] eqn:E.
  - apply find_some in E. destruct E as [Hc Ew].
    apply String.eqb_eq in Ew. apply value_counts_entry in Hc.
    destruct Hc as [_ Hc]. now rewrite Hc, Ew.
  - symmetry. apply occurrences_absent. intros Hw.
    pose proof (find_none _ _ E (w, occurrences w col)) as N.
    cbn [fst] in N. rewrite String.eqb_refl in N.
    assert (In (w, occurrences w col) (value_counts col))
      by (apply value_counts_entry; auto).
    specialize (N H). discriminate.
Qed.

Lemma eligible_all_iff (flows : list UserFlow) (m : Z) (w : string) :
  In w (eligible_wallets flows m None)
  <-> In w (map start_wallet flows)
      /\ (m <= Z.of_nat (occurrences w (map start_wallet flows)
                         + occurrences w (map end_wallet flows)))%Z.
Proof.
  unfold eligible_wallets. rewrite in_map_iff. split.
  - intros (c & <- & Hc). apply filter_In in Hc. destruct Hc as [Hc Hm].
    rewrite sort_values_In, in_map_iff in Hc. destruct Hc as (c0 & <- & Hc0).
    cbn [fst snd] in *. apply Z.leb_le in Hm.
    apply value_counts_entry in Hc0. destruct Hc0 as [H1 H2].
    rewrite count_of_value_counts, H2 in Hm. auto.
  - intros [Hw Hm].
    exists (w, (occurrences w (map start_wallet flows)
                + occurrences w (map end_wallet flows))%nat).
    split; [reflexivity |]. apply filter_In. split.
    + rewrite sort_values_In, in_map_iff.
      exists (w, occurrences w (map start_wallet flows)). split.
      * cbn [fst snd]. now rewrite count_of_value_counts.
      * apply value_counts_entry. auto.
    + cbn [snd]. now apply Z.leb_le.
Qed.

(** X8.  A wallet is eligible for classification only if it occurs as
    [start_wallet] and the number of flows it starts plus the number of
    flows it ends (a self-transfer counting twice) reaches
    [min_transactions]; without a sample size every such wallet is
    eligible. *)
Theorem eligibility_counts_both_ends :
  forall (flows : list UserFlow) (min_transactions : Z) (w : string),
    let enough :=
      In w (map start_wallet flows)
      /\ (min_transactions
          <= Z.of_nat (occurrences w (map start_wallet flows)
                       + occurrences w (map end_wallet flows)))%Z in
    (In w (eligible_wallets flows min_transactions None) <-> enough)
    /\ (forall sample_size,
           In w (eligible_wallets flows min_transactions sample_size) -> enough).
Proof.
  intros flows m w enough. split; [apply eligible_all_iff |].
  intros s Hin. apply eligible_all_iff.
  unfold eligible_wallets in *.
  destruct s as [n|]; [|exact Hin].
  destruct (n =? 0)%Z; [exact Hin |]. eapply head_In; eassumption.
Qed.
End EligibilityCount.

(** ** Holder concentration *)
Section SumBounds.
Local Open Scope Q_scope.

Lemma Qsum_lower (x : Q) (l : list Q) :
  Forall (Qle x) l -> inject_Z (Z.of_nat (length l)) * x <= Frame.Qsum l.
Proof.
  induction 1 as [|y l Hy _ IH].
  - simpl. rewrite Qmult_0_l. apply Qle_refl.
  - cbn [length Frame.Qsum fold_right]. fold (Frame.Qsum l).
    rewrite inject_nat_S. lra.
Qed.

Lemma Qsum_nonneg (l : list Q) : Forall (Qle 0) l -> 0 <= Frame.Qsum l.
Proof.
  intros H. pose proof (Qsum_lower 0 l H). lra.
Qed.
End SumBounds.

Section HolderTable.
Import HolderAnalyzer.
Local Open Scope Q_scope.

Lemma assign_rank_length (i : nat) (l : list Holder) :
  length (assign_rank i l) = length l.
Proof. revert i. induction l; intros i; simpl; auto. Qed.

Lemma assign_rank_ranks (i : nat) (l : list Holder) :
  map Rank (assign_rank i l) = seq (S i) (length l).
Proof. revert i. induction l; intros i; simpl; [|rewrite IHl]; auto. Qed.

Lemma assign_rank_holdings (i : nat) (l : list Holder) :
  map (fun h => (Address h, Holding_pct h)) (assign_rank i l)
  = map (fun h => (Address h, Holding_pct h)) l.
Proof. revert i. induction l; intros i; simpl; [|rewrite IHl]; auto. Qed.

Lemma Sorted_holdings (l : list Holder) :
  Sorted (Frame.in_order by_holding_desc) l ->
  Sorted (fun a b => snd b <= snd a)
         (map (fun h => (Address h, Holding_pct h)) l).
Proof.
  induction 1 as [|x l Hs IH Hhd]; simpl; constructor; auto.
  destruct Hhd as [|y l' Hxy]; simpl; constructor.
  simpl. now apply Qle_bool_iff.
Qed.

(** X10.  [process_holder_data] keeps every entry of the snapshot
    (address, or "Unknown" when it is missing, with its holding
    percentage [pctOfCap·100]), orders the rows by decreasing holding
    percentage and numbers them 1, 2, ..., n. *)
Theorem holder_table_is_ranked :
  forall entries : list HolderEntry,
    let rows := process_holder_data entries in
    map Rank rows = seq 1 (length entries)
    /\ Permutation
         (map (fun h => (Address h, Holding_pct h)) rows)
         (map (fun e => (match entry_address e with
                         | Some a => a
                         | None => "Unknown"
                         end, pctOfCap e * (100 # 1))) entries)
    /\ Sorted (fun a b => snd b <= snd a)
              (map (fun h => (Address h, Holding_pct h)) rows).
Proof.
  intros entries rows. unfold rows, process_holder_data.
  set (raw := map _ entries).
  split; [|split].
  - rewrite assign_rank_ranks, sort_values_length. unfold raw.
    now rewrite length_map.
  - rewrite assign_rank_holdings.
    rewrite (Permutation_map _ (sort_values_perm by_holding_desc raw)).
    unfold raw. rewrite map_map. reflexivity.
  - rewrite assign_rank_holdings. apply Sorted_holdings.
    apply sort_values_Sorted. intros a b. apply Qle_bool_total.
Qed.

Lemma holder_table_sorted_pairs (entries : list HolderEntry) :
  Permutation
    (map (fun h => (Address h, Holding_pct h)) (process_holder_data entries))
    (map (fun e => (match entry_address e with
                    | Some a => a
                    | None => "Unknown"
                    end, pctOfCap e * (100 # 1))) entries)
  /\ Sorted (fun a b : string * Q => snd b <= snd a)
            (map (fun h => (Address h, Holding_pct h))
                 (process_holder_data entries)).
Proof.
  unfold process_holder_data. set (raw := map _ entries).
  rewrite assign_rank_holdings. split.
  - rewrite (Permutation_map _ (sort_values_perm by_holding_desc raw)).
    unfold raw. rewrite map_map. reflexivity.
  - apply Sorted_holdings.
    apply sort_values_Sorted. intros a b. apply Qle_bool_total.
Qed.

Lemma pair_order_transitive :
  Transitive (fun a b : string * Q => snd b <= snd a).
Proof. intros a b c H1 H2. eapply Qle_trans; eassumption. Qed.

Lemma Qsum_firstn_mono (n m : nat) (l : list Q) :
  (n <= m)%nat -> Forall (Qle 0) l ->
  Frame.Qsum (firstn n l) <= Frame.Qsum (firstn m l).
Proof.
  intros Hnm Hl. revert n m Hnm.
  induction Hl as [|x l Hx Hl IH]; intros n m Hnm.
  - rewrite !firstn_nil. apply Qle_refl.
  - destruct n as [|n].
    + simpl. apply Qsum_nonneg. apply (Forall_take _ m (x :: l)). now constructor.
    + destruct m as [|m]; [lia |]. simpl.
      specialize (IH n m ltac:(lia)).
      fold (Frame.Qsum (firstn n l)). fold (Frame.Qsum (firstn m l)). lra.
Qed.

(** X11.  On the table built by [process_holder_data] from a non-empty
    snapshot, [whale_dominance] is the largest holding percentage, and
    when no percentage is negative the top-3 ratio does not exceed the
    top-10 ratio. *)
Theorem whale_dominance_is_largest_share :
  forall entries : list HolderEntry,
    entries <> [] ->
    let rows := process_holder_data entries in
    let metrics := calculate_concentration_metrics (Some rows) in
    (forall h, In h rows -> Holding_pct h <= whale_dominance metrics)
    /\ (exists h, In h rows /\ Holding_pct h = whale_dominance metrics)
    /\ (Forall (fun e => 0 <= pctOfCap e) entries ->
        top_3_ratio metrics <= top_10_ratio metrics).
Proof.
  intros entries Hne rows metrics.
  destruct (holder_table_sorted_pairs entries) as (P & S).
  fold rows in P, S.
  destruct rows as [|first rest] eqn:E.
  { apply Permutation_nil in P. destruct entries; [congruence | discriminate]. }
  unfold metrics. cbn [calculate_concentration_metrics whale_dominance
                       top_3_ratio top_10_ratio].
  split; [|split].
  - apply (@Sorted_StronglySorted _ _ pair_order_transitive) in S.
    simpl in S. inversion S as [|? ? _ Hall]; subst.
    intros h [<- | Hh]; [apply Qle_refl |].
    rewrite List.Forall_forall in Hall.
    apply (Hall (Address h, Holding_pct h)).
    apply in_map_iff. eauto.
  - exists first. split; [now left | reflexivity].
  - intros Hpos.
    change (Frame.head 3 (first :: rest)) with (firstn 3 (first :: rest)).
    change (Frame.head 10 (first :: rest)) with (firstn 10 (first :: rest)).
    rewrite <- !firstn_map. apply Qsum_firstn_mono; [simpl; lia |].
    assert (F : Forall (fun p : string * Q => 0 <= snd p)
                       (map (fun h => (Address h, Holding_pct h)) (first :: rest))).
    { eapply Permutation_Forall; [symmetry; exact P |].
      apply Forall_map. eapply List.Forall_impl; [| exact Hpos].
      intros e He. simpl. apply Qmult_le_0_compat; [exact He | discriminate]. }
    rewrite Forall_map in F. apply Forall_map. exact F.
Qed.
End HolderTable.

Section HolderTableSamples.
Import HolderAnalyzer Samples.
Local Open Scope Q_scope.

Lemma whale_dominance_is_largest_share_witness :
  three_entries <> []
  /\ exists h, In h (process_holder_data three_entries)
               /\ Holding_pct h
                  = whale_dominance
                      (calculate_concentration_metrics
                         (Some (process_holder_data three_entries))).
Proof.
  assert (H : three_entries <> []) by discriminate.
  split; [exact H |].
  exact (proj1 (proj2 (whale_dominance_is_largest_share three_entries H))).
Defined.

Example whale_dominance_sample :
  whale_dominance (calculate_concentration_metrics
                     (Some (process_holder_data three_entries))) == 70 # 1.
Proof. vm_compute. reflexivity. Qed.
End HolderTableSamples.

(** ** Group keys are listed once *)
Section UniqueKeys.
Context {A K : Type} (cmp : K -> K -> comparison) (key : A -> K).
Hypothesis cmp_eq : forall a b, cmp a b = Eq <-> a = b.
Hypothesis cmp_antisym : forall a b, cmp a b = CompOpp (cmp b a).
Hypothesis cmp_trans : forall a b c, cmp a b = Lt -> cmp b c = Lt -> cmp a c = Lt.

Lemma insert_key_increasing (k : K) (ks : list K) :
  StronglySorted (fun a b => cmp a b = Lt) ks ->
  StronglySorted (fun a b => cmp a b = Lt) (Frame.insert_key cmp k ks).
Proof.
  induction 1 as [|k0 ks Hs IH Hall]; simpl.
  - repeat constructor.
  - destruct (cmp k k0) eqn:E.
    + now constructor.
    + constructor; [now constructor |].
      constructor; [exact E |].
      eapply List.Forall_impl; [| exact Hall].
      intros c Hc. eapply cmp_trans; eassumption.
    + constructor; [exact IH |].
      rewrite List.Forall_forall in *. intros c Hc.
      apply (insert_key_In cmp cmp_eq) in Hc. destruct Hc as [-> | Hc].
      * rewrite cmp_antisym, E. reflexivity.
      * now apply Hall.
Qed.

Lemma unique_keys_increasing (rows : list A) :
  StronglySorted (fun a b => cmp a b = Lt) (Frame.unique_keys cmp key rows).
Proof.
  unfold Frame.unique_keys. induction rows as [|r rows IH]; simpl.
  - constructor.
  - now apply insert_key_increasing.
Qed.

Lemma increasing_NoDup (ks : list K) :
  StronglySorted (fun a b => cmp a b = Lt) ks -> List.NoDup ks.
Proof.
  induction 1 as [|k ks Hs IH Hall]; constructor; [|exact IH].
  intros Hin. rewrite List.Forall_forall in Hall. specialize (Hall k Hin).
  assert (cmp k k = Eq) by now apply cmp_eq. congruence.
Qed.

Lemma unique_keys_NoDup (rows : list A) :
  List.NoDup (Frame.unique_keys cmp key rows).
Proof. apply increasing_NoDup, unique_keys_increasing. Qed.

Lemma groupby_keys (rows : list A) :
  map fst (Frame.groupby cmp key rows) = Frame.unique_keys cmp key rows.
Proof.
  unfold Frame.groupby. rewrite map_map. simpl. apply map_id.
Qed.
End UniqueKeys.

Section KeyOrders.
Lemma string_compare_trans (a b c : string) :
  String.compare a b = Lt -> String.compare b c = Lt -> String.compare a c = Lt.
Proof.
  intros H1 H2.
  apply (proj2 (OrderedTypeEx.String_as_OT.cmp_lt a c)).
  eapply OrderedTypeEx.String_as_OT.lt_trans;
    apply OrderedTypeEx.String_as_OT.cmp_lt; eassumption.
Qed.

Lemma pair_compare_antisym (p q : string * string) :
  Frame.pair_compare p q = CompOpp (Frame.pair_compare q p).
Proof.
  destruct p as [a b], q as [c d]. unfold Frame.pair_compare. simpl.
  rewrite (String.compare_antisym a c).
  destruct (String.compare c a); simpl; auto using String.compare_antisym.
Qed.

Lemma pair_compare_trans (p q r : string * string) :
  Frame.pair_compare p q = Lt -> Frame.pair_compare q r = Lt ->
  Frame.pair_compare p r = Lt.
Proof.
  destruct p as [a b], q as [c d], r as [e f]. unfold Frame.pair_compare. simpl.
  destruct (String.compare a c) eqn:E1; try discriminate;
    destruct (String.compare c e) eqn:E2; try discriminate; intros H1 H2.
  - apply string_compare_eq in E1, E2. subst.
    rewrite string_compare_refl. eapply string_compare_trans; eassumption.
  - apply string_compare_eq in E1. subst. now rewrite E2.
  - apply string_compare_eq in E2. subst. now rewrite E1.
  - now rewrite (string_compare_trans a c e E1 E2).
Qed.

Lemma Z_compare_eq (a b : Z) : Z.compare a b = Eq <-> a = b.
Proof. apply Z.compare_eq_iff. Qed.

Lemma Z_compare_trans (a b c : Z) :
  Z.compare a b = Lt -> Z.compare b c = Lt -> Z.compare a c = Lt.
Proof. rewrite !Z.compare_lt_iff. lia. Qed.
End KeyOrders.

(** ** The other pattern detectors *)
Section SelfTransfers.
Import DataFetcher WashTradingDetector.

Lemma start_key_is (w : string) (r : UserFlow) :
  Frame.key_is String.compare start_wallet w r = String.eqb (start_wallet r) w.
Proof.
  apply Bool.eq_iff_eq_true.
  rewrite (key_is_true _ _ string_compare_eq), String.eqb_eq. reflexivity.
Qed.

Lemma self_transfer_rows (d : Detector) (row : SelfTransferRow) :
  In row (fst (detect_self_transfers d)) <->
  exists w,
    (exists f, In f (user_flows d) /\ is_self_transfer f = true
               /\ start_wallet f = w)
    /\ row = self_transfer_summary
               (w, List.filter (fun f => is_self_transfer f
                                         && String.eqb (start_wallet f) w)
                               (user_flows d)).
Proof.
  unfold detect_self_transfers.
  set (self_rows := List.filter is_self_transfer (user_flows d)).
  assert (G : forall w,
             List.filter (Frame.key_is String.compare start_wallet w) self_rows
             = List.filter (fun f => is_self_transfer f
                                     && String.eqb (start_wallet f) w)
                           (user_flows d)).
  { intros w. unfold self_rows. rewrite filter_filter.
    apply filter_ext. intros r. now rewrite start_key_is. }
  assert (M : In row (Frame.sort_values
                        (fun a b => (st_transfer_count b <=? st_transfer_count a)%nat)
                        (map self_transfer_summary
                             (Frame.groupby String.compare start_wallet self_rows)))
              <-> exists w,
                (exists f, In f (user_flows d) /\ is_self_transfer f = true
                           /\ start_wallet f = w)
                /\ row = self_transfer_summary
                           (w, List.filter (fun f => is_self_transfer f
                                                     && String.eqb (start_wallet f) w)
                                           (user_flows d))).
  { rewrite sort_values_In, in_map_iff. split.
    - intros ([w g] & <- & Hg).
      apply (groupby_In _ _ string_compare_eq) in Hg.
      destruct Hg as [(f & Hf & Hk) ->]. exists w. split.
      + apply filter_In in Hf. exists f. tauto.
      + now rewrite G.
    - intros (w & (f & Hf & Hs & Hw) & ->).
      exists (w, List.filter (Frame.key_is String.compare start_wallet w) self_rows).
      split; [now rewrite G |].
      apply (groupby_In _ _ string_compare_eq). split; [|reflexivity].
      exists f. split; [|exact Hw]. apply filter_In. auto. }
  destruct self_rows as [|r0 rest] eqn:E; [|exact M].
  cbn [fst]. split; [intros [] |].
  intros (w & (f & Hf & Hs & _) & _).
  assert (In f self_rows) by (apply filter_In; auto).
  unfold self_rows in *. rewrite E in H. destruct H.
Qed.

(** X12.  The self-transfer table has one row for each wallet that
    starts at least one flow marked as self-transfer and no other row;
    the row counts these flows, sums their USD value and divides the
    sum by the count. *)
Theorem self_transfer_table :
  forall d : Detector,
    let rows := fst (detect_self_transfers d) in
    let own w :=
      List.filter (fun f => is_self_transfer f && String.eqb (start_wallet f) w)
                  (user_flows d) in
    List.NoDup (map st_wallet rows)
    /\ (forall w, In w (map st_wallet rows)
                  <-> exists f, In f (user_flows d) /\ is_self_transfer f = true
                                /\ start_wallet f = w)
    /\ (forall row, In row rows ->
          st_transfer_count row = length (own (st_wallet row))
          /\ (1 <= st_transfer_count row)%nat
          /\ st_total_volume_usd row
             = Frame.Qsum (map usd_value (own (st_wallet row)))
          /\ st_avg_volume_usd row
             = Qdiv (st_total_volume_usd row)
                    (inject_Z (Z.of_nat (st_transfer_count row)))).
Proof.
  intros d rows own. split; [|split].
  - unfold rows, detect_self_transfers.
    destruct (List.filter is_self_transfer (user_flows d)) as [|r0 rest] eqn:E;
      [constructor |]. cbn [fst].
    eapply Permutation_NoDup.
    + symmetry. apply Permutation_map. apply sort_values_perm.
    + rewrite map_map. cbn [self_transfer_summary st_wallet].
      change (fun x : string * list UserFlow => fst x) with (@fst string (list UserFlow)).
      rewrite (groupby_keys String.compare start_wallet).
      apply (unique_keys_NoDup _ _ string_compare_eq String.compare_antisym
                               string_compare_trans).
  - intros w. rewrite in_map_iff. split.
    + intros (row & <- & Hrow). apply self_transfer_rows in Hrow.
      destruct Hrow as (w & Hw & ->). exact Hw.
    + intros Hw. eexists. split; [| apply self_transfer_rows; exists w; eauto].
      reflexivity.
  - intros row Hrow. apply self_transfer_rows in Hrow.
    destruct Hrow as (w & (f & Hf & Hs & Hw) & ->).
    cbn [self_transfer_summary st_wallet st_transfer_count st_total_volume_usd
         st_avg_volume_usd fst snd].
    repeat split; try reflexivity.
    assert (Hin : In f (own w)).
    { unfold own. apply filter_In. split; [exact Hf |].
      rewrite Hs. simpl. now apply String.eqb_eq. }
    fold (own w). destruct (own w); [destruct Hin | simpl; lia].
Qed.
End SelfTransfers.

Section HighFrequencyPairs.
Import DataFetcher WashTradingDetector RoundTripSpec.

Lemma high_frequency_rows (m : Z) (d : Detector) (row : HighFrequencyRow) :
  In row (fst (detect_high_frequency_pairs m d)) <->
  exists p,
    (exists r, In r (user_flows d) /\ wallet_pair r = p)
    /\ (m <= Z.of_nat (length (List.filter (in_pair p) (user_flows d))))%Z
    /\ row = {| hf_wallet_a := fst p; hf_wallet_b := snd p;
                hf_transaction_count :=
                  length (List.filter (in_pair p) (user_flows d)) |}.
Proof.
  unfold detect_high_frequency_pairs.
  set (high := List.filter _ _).
  assert (H : forall pc, In pc high <->
                         (exists r, In r (user_flows d) /\ wallet_pair r = fst pc)
                         /\ snd pc = length (List.filter (in_pair (fst pc))
                                                         (user_flows d))
                         /\ (m <= Z.of_nat (snd pc))%Z).
  { intros [p n]. unfold high. rewrite filter_In, in_map_iff. cbn [fst snd].
    rewrite Z.leb_le. split.
    - intros [([p' g] & E & Hg) Hm]. cbn [fst snd] in E. inversion E; subst.
      apply (groupby_In _ _ pair_compare_eq) in Hg. destruct Hg as [Hr ->].
      auto.
    - intros (Hr & -> & Hm). split; [|exact Hm].
      exists (p, List.filter (in_pair p) (user_flows d)). split; [reflexivity |].
      apply (groupby_In _ _ pair_compare_eq). auto. }
  assert (M : In row (Frame.sort_values
                        (fun a b => (hf_transaction_count b
                                     <=? hf_transaction_count a)%nat)
                        (map (fun pc => {| hf_wallet_a := fst (fst pc);
                                           hf_wallet_b := snd (fst pc);
                                           hf_transaction_count := snd pc |})
                             high))
              <-> exists p,
                (exists r, In r (user_flows d) /\ wallet_pair r = p)
                /\ (m <= Z.of_nat (length (List.filter (in_pair p) (user_flows d))))%Z
                /\ row = {| hf_wallet_a := fst p; hf_wallet_b := snd p;
                            hf_transaction_count :=
                              length (List.filter (in_pair p) (user_flows d)) |}).
  { rewrite sort_values_In, in_map_iff. split.
    - intros ([p n] & <- & Hpc). apply H in Hpc. cbn [fst snd] in *.
      destruct Hpc as (Hr & -> & Hm). exists p. auto.
    - intros (p & Hr & Hm & ->).
      exists (p, length (List.filter (in_pair p) (user_flows d))).
      split; [reflexivity |]. apply H. cbn [fst snd]. auto. }
  destruct high as [|pc pcs] eqn:E; [|exact M].
  cbn [fst]. split; [intros [] |].
  intros (p & Hr & Hm & _).
  assert (In (p, length (List.filter (in_pair p) (user_flows d))) [])
    by (apply H; cbn [fst snd]; auto).
  destruct H0.
Qed.

Lemma high_frequency_pairs_NoDup (m : Z) (d : Detector) :
  List.NoDup (map (fun r => (hf_wallet_a r, hf_wallet_b r))
                  (fst (detect_high_frequency_pairs m d))).
Proof.
  unfold detect_high_frequency_pairs.
  set (counts := map _ (Frame.groupby _ _ _)).
  assert (N : List.NoDup (map fst (List.filter
                                     (fun pc : string * string * nat =>
                                        (m <=? Z.of_nat (snd pc))%Z) counts))).
  { assert (Nc : List.NoDup (map fst counts)).
    { unfold counts. rewrite map_map. cbn [fst].
      change (fun x : string * string * list UserFlow => fst x)
        with (@fst (string * string) (list UserFlow)).
      rewrite (groupby_keys Frame.pair_compare wallet_pair).
      apply (unique_keys_NoDup _ _ pair_compare_eq pair_compare_antisym
                               pair_compare_trans). }
    clear -Nc. induction counts as [|c cs IH]; simpl in *; [constructor |].
    inversion Nc; subst. destruct (m <=? Z.of_nat (snd c))%Z; simpl; auto.
    constructor; auto. intros Hin. apply H1.
    apply in_map_iff in Hin. destruct Hin as (x & Ex & Hx).
    apply filter_In in Hx. apply in_map_iff. exists x. tauto. }
  destruct (List.filter _ counts) as [|pc pcs] eqn:E; [constructor |].
  cbn [fst]. eapply Permutation_NoDup.
  - symmetry. apply Permutation_map. apply sort_values_perm.
  - rewrite map_map. cbn [hf_wallet_a hf_wallet_b].
    erewrite map_ext; [exact N |]. intros [[a b] n]. reflexivity.
Qed.

(** X13.  The high-frequency table has exactly one row for each
    unordered wallet pair that has at least one flow and at least
    [min_transactions] flows between its two wallets, in either
    direction; the row names the pair in string order and counts these
    flows. *)
Theorem high_frequency_table :
  forall (min_transactions : Z) (d : Detector),
    let rows := fst (detect_high_frequency_pairs min_transactions d) in
    List.NoDup (map (fun r => (hf_wallet_a r, hf_wallet_b r)) rows)
    /\ (forall row, In row rows ->
          String.leb (hf_wallet_a row) (hf_wallet_b row) = true
          /\ hf_transaction_count row
             = flows_between (user_flows d) (hf_wallet_a row) (hf_wallet_b row)
          /\ (1 <= hf_transaction_count row)%nat
          /\ (min_transactions <= Z.of_nat (hf_transaction_count row))%Z)
    /\ (forall a b,
          String.leb a b = true ->
          (1 <= flows_between (user_flows d) a b)%nat ->
          (min_transactions <= Z.of_nat (flows_between (user_flows d) a b))%Z ->
          exists row, In row rows /\ hf_wallet_a row = a /\ hf_wallet_b row = b).
Proof.
  intros m d rows. split; [apply high_frequency_pairs_NoDup |]. split.
  - intros row Hrow. apply high_frequency_rows in Hrow.
    destruct Hrow as ([a b] & (r & Hr & Hp) & Hm & ->).
    cbn [hf_wallet_a hf_wallet_b hf_transaction_count fst snd] in *.
    assert (Hab : String.leb a b = true).
    { pose proof (wallet_pair_canonical r) as C. now rewrite Hp in C. }
    rewrite (group_length_is_flows_between (user_flows d) a b Hab) in *.
    repeat split; auto.
    rewrite <- (group_length_is_flows_between (user_flows d) a b Hab).
    assert (Hin : In r (List.filter (in_pair (a, b)) (user_flows d)))
      by (apply filter_In; split; [exact Hr | now apply in_pair_true]).
    destruct (List.filter (in_pair (a, b)) (user_flows d));
      [destruct Hin | simpl; lia].
  - intros a b Hab H1 Hm.
    rewrite <- (group_length_is_flows_between (user_flows d) a b Hab) in H1, Hm.
    eexists. split.
    + apply high_frequency_rows. exists (a, b). split; [|split; [exact Hm |]].
      * destruct (List.filter (in_pair (a, b)) (user_flows d)) as [|r l] eqn:E;
          [simpl in H1; lia |].
        assert (Hin : In r (List.filter (in_pair (a, b)) (user_flows d)))
          by (rewrite E; now left).
        apply filter_In in Hin. destruct Hin as [Hr Hp].
        exists r. split; [exact Hr | now apply in_pair_true].
      * reflexivity.
    + split; reflexivity.
Qed.
End HighFrequencyPairs.

Section CircularPatterns.
Import DataFetcher WashTradingDetector.
Variable simple_cycles : DiGraph -> option (list (list string)).

(** X14.  When the cycle enumeration raises, the circular-pattern
    detector reports nothing and leaves the suspicious-wallet set as it
    was.  Otherwise it reports, in enumeration order, the cycles among
    the first 1000 enumerated whose length lies between 2 and
    [max_cycle_length]: at most 1000 rows, each carrying a cycle and
    its length. *)
Theorem circular_pattern_table :
  forall (max_cycle_length : Z) (d : Detector),
    let found := detect_circular_patterns simple_cycles max_cycle_length d in
    match simple_cycles (build_graph (user_flows d)) with
    | None => found = ([], d)
    | Some cycles =>
        map wallets (fst found)
        = List.filter (keep_cycle max_cycle_length) (firstn 1000 cycles)
        /\ (length (fst found) <= 1000)%nat
        /\ (forall row, In row (fst found) ->
              cycle_length row = length (wallets row)
              /\ (2 <= Z.of_nat (cycle_length row) <= max_cycle_length)%Z)
        /\ user_flows (snd found) = user_flows d
    end.
Proof.
  intros mx d found. unfold found, detect_circular_patterns.
  destruct (simple_cycles (build_graph (user_flows d))) as [cycles|];
    [|reflexivity].
  destruct (circular_loop mx (firstn 1000 cycles) ([], d)) as [H1 H2].
  cbv zeta in H1, H2. cbn [fst snd app] in H1, H2.
  set (loop := fold_left _ (firstn 1000 cycles) ([], d)) in *.
  assert (Hw : map wallets (fst loop)
               = List.filter (keep_cycle mx) (firstn 1000 cycles)).
  { rewrite H1, map_map. cbn [wallets]. apply map_id. }
  split; [exact Hw |]. split; [|split].
  - rewrite <- (length_map wallets), Hw.
    etransitivity; [apply filter_length_le |].
    rewrite length_firstn. lia.
  - intros row Hrow. rewrite H1 in Hrow. apply in_map_iff in Hrow.
    destruct Hrow as (c & <- & Hc). cbn [cycle_length wallets].
    split; [reflexivity |].
    apply filter_In in Hc. destruct Hc as [_ Hk].
    unfold keep_cycle in Hk. apply andb_true_iff in Hk. lia.
  - unfold loop. clear.
    assert (G : forall l (acc : list CycleRow * Detector),
               user_flows
                 (snd (fold_left
                         (fun acc cycle =>
                            if keep_cycle mx cycle
                            then (fst acc ++ [{| cycle_length := length cycle;
                                                 wallets := cycle |}],
                                  update (snd acc) cycle)
                            else acc) l acc))
               = user_flows (snd acc)).
    { induction l as [|c l IH]; intros acc; simpl; [reflexivity |].
      destruct (keep_cycle mx c); rewrite IH; reflexivity. }
    now rewrite G.
Qed.
End CircularPatterns.

Section TemporalClustering.
Import DataFetcher WashTradingDetector.
Local Open Scope Z_scope.

Lemma floor_to_iff (w t s : Z) :
  0 < w -> (floor_to w t = s <-> s mod w = 0 /\ s <= t < s + w).
Proof.
  intros Hw. unfold floor_to.
  pose proof (Z.mod_pos_bound t w Hw) as B.
  pose proof (Z.div_mod t w ltac:(lia)) as D.
  split.
  - intros <-. split; [|lia].
    replace (t - t mod w) with ((t / w) * w) by lia.
    apply Z.mod_mul. lia.
  - intros [Hs Hb].
    apply Z.mod_divide in Hs; [|lia]. destruct Hs as [q ->].
    assert (E : t mod w = t - q * w).
    { symmetry. apply (Z.mod_unique t w q); [lia | lia]. }
    lia.
Qed.

Lemma window_key_is (w s : Z) (r : UserFlow) :
  0 < w -> s mod w = 0 ->
  Frame.key_is Z.compare (fun r => floor_to w (timestamp r)) s r
  = (s <=? timestamp r) && (timestamp r <? s + w).
Proof.
  intros Hw Hs. apply Bool.eq_iff_eq_true.
  rewrite (key_is_true _ _ Z_compare_eq), andb_true_iff, Z.leb_le, Z.ltb_lt.
  rewrite (floor_to_iff w (timestamp r) s Hw). tauto.
Qed.

(** X15.  For a positive window length, the temporal-clustering table
    has exactly one row for each window [[s, s + window)], [s] a
    multiple of the window length, that holds at least 3 flows; the row
    carries [s] and the number of flows in the window, rows come in
    increasing time order, and the detector itself is left unchanged. *)
Theorem temporal_cluster_table :
  forall (time_window_minutes : Z) (d : Detector),
    0 < time_window_minutes ->
    let w := timedelta_minutes time_window_minutes in
    let inside s :=
      List.filter (fun f => (s <=? timestamp f) && (timestamp f <? s + w))
                  (user_flows d) in
    let rows := fst (detect_temporal_clustering time_window_minutes d) in
    snd (detect_temporal_clustering time_window_minutes d) = d
    /\ StronglySorted Z.lt (map tc_timestamp rows)
    /\ (forall row, In row rows ->
          tc_timestamp row mod w = 0
          /\ tc_transaction_count row = length (inside (tc_timestamp row))
          /\ (3 <= tc_transaction_count row)%nat)
    /\ (forall s, s mod w = 0 -> (3 <= length (inside s))%nat ->
          exists row, In row rows /\ tc_timestamp row = s).
Proof.
  intros minutes d Hmin w inside rows.
  assert (Hw : 0 < w) by (unfold w, timedelta_minutes; lia).
  unfold rows, detect_temporal_clustering. cbn [fst snd]. fold w.
  set (key := fun r : UserFlow => floor_to w (timestamp r)).
  split; [reflexivity |].
  assert (G : forall s g, In (s, g) (Frame.groupby Z.compare key (user_flows d)) ->
                          s mod w = 0 /\ g = inside s).
  { intros s g Hg. apply (groupby_In _ _ Z_compare_eq) in Hg.
    destruct Hg as [(r & Hr & Hk) ->].
    assert (Hs : s mod w = 0).
    { unfold key in Hk. apply (floor_to_iff w (timestamp r) s Hw) in Hk. tauto. }
    split; [exact Hs |]. unfold inside. apply filter_ext.
    intros r'. now apply window_key_is. }
  split; [|split].
  - assert (S : StronglySorted (fun a b => Z.compare a b = Lt)
                  (map fst (Frame.groupby Z.compare key (user_flows d)))).
    { rewrite (groupby_keys Z.compare key).
      apply (unique_keys_increasing _ _ Z_compare_eq
               (fun a b => Z.compare_antisym b a) Z_compare_trans). }
    remember (Frame.groupby Z.compare key (user_flows d)) as groups eqn:Eg.
    clear Eg G. induction groups as [|g groups IH];
      cbn [map List.filter fst snd]; [constructor |].
    cbn [map] in S. inversion S as [|? ? S' Hall]; subst. specialize (IH S').
    destruct (3 <=? length (snd g))%nat;
      cbn [map List.filter fst snd tc_timestamp]; [|exact IH].
    constructor; [exact IH |].
    rewrite List.Forall_forall in *. intros t Ht.
    apply in_map_iff in Ht. destruct Ht as (row & <- & Hrow).
    apply in_map_iff in Hrow. destruct Hrow as (c & <- & Hc).
    apply filter_In in Hc. destruct Hc as [Hc _].
    apply in_map_iff in Hc. destruct Hc as (g' & <- & Hg'). cbn [tc_timestamp fst].
    apply Z.compare_lt_iff. apply Hall. now apply in_map.
  - intros row Hrow. apply in_map_iff in Hrow. destruct Hrow as (c & <- & Hc).
    apply filter_In in Hc. destruct Hc as [Hc H3].
    apply in_map_iff in Hc. destruct Hc as ([s g] & <- & Hg).
    cbn [tc_timestamp tc_transaction_count fst snd] in *.
    destruct (G s g Hg) as [Hs ->]. apply Nat.leb_le in H3. auto.
  - intros s Hs H3.
    exists {| tc_timestamp := s; tc_transaction_count := length (inside s) |}.
    split; [|reflexivity].
    apply in_map_iff. exists (s, length (inside s)). split; [reflexivity |].
    apply filter_In. split; [|now apply Nat.leb_le].
    apply in_map_iff.
    exists (s, List.filter (Frame.key_is Z.compare key s) (user_flows d)).
    assert (E : List.filter (Frame.key_is Z.compare key s) (user_flows d)
                = inside s).
    { unfold inside. apply filter_ext. intros r'. now apply window_key_is. }
    split; [cbn [fst snd]; now rewrite E |].
    apply (groupby_In _ _ Z_compare_eq). split; [|reflexivity].
    destruct (inside s) as [|r l] eqn:Ei; [simpl in H3; lia |].
    assert (Hr : In r (inside s)) by (rewrite Ei; now left).
    unfold inside in Hr. apply filter_In in Hr. destruct Hr as [Hr Hb].
    exists r. split; [exact Hr |]. unfold key.
    apply (floor_to_iff w (timestamp r) s Hw).
    apply andb_true_iff in Hb. rewrite Z.leb_le, Z.ltb_lt in Hb. tauto.
Qed.
End TemporalClustering.

Section TemporalClusteringSamples.
Import DataFetcher WashTradingDetector Samples.

Lemma temporal_cluster_table_witness :
  (0 < 5)%Z
  /\ snd (detect_temporal_clustering 5 (init payments_to_sink))
     = init payments_to_sink.
Proof.
  assert (H : (0 < 5)%Z) by lia.
  split; [exact H |].
  exact (proj1 (temporal_cluster_table 5 (init payments_to_sink) H)).
Defined.
End TemporalClusteringSamples.

Section Prefixes.
Context {A : Type}.

Lemma Sorted_firstn (R : A -> A -> Prop) (n : nat) (l : list A) :
  Sorted R l -> Sorted R (firstn n l).
Proof.
  intros H. revert n. induction H as [|x l Hs IH Hhd]; intros n.
  - rewrite firstn_nil. constructor.
  - destruct n as [|n]; simpl; constructor; [apply IH |].
    destruct Hhd as [|y l' Hxy]; [rewrite firstn_nil; constructor |].
    destruct n; simpl; constructor. exact Hxy.
Qed.

Lemma Sorted_weaken (R R' : A -> A -> Prop) (l : list A) :
  (forall a b, R a b -> R' a b) -> Sorted R l -> Sorted R' l.
Proof.
  intros HR H. induction H as [|x l Hs IH Hhd]; constructor; auto.
  destruct Hhd; constructor; auto.
Qed.

Lemma Sorted_mapped {B : Type} (f : A -> B) (R : A -> A -> Prop)
      (R' : B -> B -> Prop) (l : list A) :
  (forall a b, R a b -> R' (f a) (f b)) -> Sorted R l -> Sorted R' (map f l).
Proof.
  intros HR H. induction H as [|x l Hs IH Hhd]; simpl; constructor; auto.
  destruct Hhd; simpl; constructor; auto.
Qed.

Lemma NoDup_firstn (n : nat) (l : list A) :
  List.NoDup l -> List.NoDup (firstn n l).
Proof.
  intros H. rewrite <- (firstn_skipn n l) in H.
  now apply NoDup_app_remove_r in H.
Qed.

Lemma head_firstn (n : Z) (l : list A) :
  exists k, Frame.head n l = firstn k l /\ ((0 <= n)%Z -> k = Z.to_nat n).
Proof.
  unfold Frame.head. destruct (0 <=? n)%Z eqn:E.
  - eexists. split; [reflexivity | reflexivity].
  - eexists. split; [reflexivity |]. apply Z.leb_gt in E. lia.
Qed.

Lemma insert_key_length (cmp : A -> A -> comparison) (k : A) (ks : list A) :
  (length (Frame.insert_key cmp k ks) <= S (length ks))%nat.
Proof.
  induction ks as [|k0 ks IH]; simpl; [lia |].
  destruct (cmp k k0); simpl; lia.
Qed.
End Prefixes.

Section VolumeConcentration.
Import DataFetcher WashTradingDetector.
Local Open Scope Q_scope.

Lemma lookup_volume_by (key : UserFlow -> string) (flows : list UserFlow)
      (w : string) :
  lookup_volume w (volume_by key flows)
  = Frame.Qsum (map usd_value
                    (List.filter (fun r => String.eqb (key r) w) flows)).
Proof.
  assert (K : forall r, Frame.key_is String.compare key w r = String.eqb (key r) w).
  { intros r. apply Bool.eq_iff_eq_true.
    rewrite (key_is_true _ _ string_compare_eq), String.eqb_eq. reflexivity. }
  unfold lookup_volume, volume_by.
  destruct (List.find _ _) as [kv|] eqn:E.
  - apply find_some in E. destruct E as [Hin Hk].
    apply String.eqb_eq in Hk. apply in_map_iff in Hin.
    destruct Hin as ([k g] & <- & Hg). cbn [fst snd] in *. subst k.
    apply (groupby_In _ _ string_compare_eq) in Hg. destruct Hg as [_ ->].
    now rewrite (filter_ext _ _ K).
  - destruct (List.filter (fun r => String.eqb (key r) w) flows) as [|r l] eqn:F;
      [reflexivity |].
    exfalso.
    assert (Hr : In r (List.filter (fun r => String.eqb (key r) w) flows))
      by (rewrite F; now left).
    apply filter_In in Hr. destruct Hr as [Hr Hk]. apply String.eqb_eq in Hk.
    pose proof (find_none _ _ E
                  (w, Frame.Qsum (map usd_value
                                      (List.filter
                                         (Frame.key_is String.compare key w)
                                         flows)))) as N.
    cbn [fst] in N. rewrite String.eqb_refl in N.
    assert (discr : true = false -> False) by discriminate.
    apply discr, N. apply in_map_iff.
    exists (w, List.filter (Frame.key_is String.compare key w) flows).
    split; [reflexivity |].
    apply (groupby_In _ _ string_compare_eq). split; [eauto | reflexivity].
Qed.

Lemma volume_by_keys (key : UserFlow -> string) (flows : list UserFlow)
      (w : string) :
  In w (map fst (volume_by key flows)) <-> exists r, In r flows /\ key r = w.
Proof.
  unfold volume_by. rewrite map_map. cbn [fst].
  change (fun x : string * list UserFlow => fst x)
    with (@fst string (list UserFlow)).
  rewrite (groupby_keys String.compare key).
  apply (unique_keys_In _ _ string_compare_eq).
Qed.

Lemma add_fill_rows (flows : list UserFlow) (kv : string * Q) :
  In kv (add_fill (volume_by start_wallet flows) (volume_by end_wallet flows))
  <-> (exists r, In r flows /\ (start_wallet r = fst kv \/ end_wallet r = fst kv))
      /\ snd kv
         = Frame.Qsum (map usd_value
                           (List.filter
                              (fun r => String.eqb (start_wallet r) (fst kv)) flows))
           + Frame.Qsum (map usd_value
                             (List.filter
                                (fun r => String.eqb (end_wallet r) (fst kv)) flows)).
Proof.
  unfold add_fill. rewrite in_map_iff.
  setoid_rewrite (unique_keys_In String.compare (fun w : string => w)
                                 string_compare_eq).
  split.
  - intros (w & <- & (w' & Hw' & <-)). cbn [fst snd].
    rewrite !lookup_volume_by. split; [|reflexivity].
    apply in_app_or in Hw'. destruct Hw' as [H | H];
      apply volume_by_keys in H; destruct H as (r & Hr & Hk); eauto.
  - intros [(r & Hr & Hk) Hv]. exists (fst kv). split.
    + rewrite !lookup_volume_by. destruct kv; cbn [fst snd] in *. now rewrite Hv.
    + exists (fst kv). split; [|reflexivity]. apply in_or_app.
      destruct Hk as [Hk | Hk]; [left | right]; apply volume_by_keys; eauto.
Qed.

Lemma add_fill_NoDup (s1 s2 : list (string * Q)) :
  List.NoDup (map fst (add_fill s1 s2)).
Proof.
  unfold add_fill. rewrite map_map. cbn [fst]. rewrite map_id.
  apply (unique_keys_NoDup _ _ string_compare_eq String.compare_antisym
                           string_compare_trans).
Qed.

(** X16.  The volume-concentration table lists wallets of the flow
    table, each at most once, in order of decreasing volume, at most
    [top_n] of them; a wallet's volume is the USD value of the flows it
    starts plus the USD value of the flows it ends (a self-transfer
    counts twice), and the detector itself is left unchanged. *)
Theorem volume_concentration_table :
  forall (top_n : Z) (d : Detector),
    let rows := fst (analyze_volume_concentration top_n d) in
    snd (analyze_volume_concentration top_n d) = d
    /\ List.NoDup (map vc_wallet rows)
    /\ Sorted (fun a b => vc_total_volume_usd b <= vc_total_volume_usd a) rows
    /\ ((0 <= top_n)%Z -> (length rows <= Z.to_nat top_n)%nat)
    /\ (forall row, In row rows ->
          (exists r, In r (user_flows d)
                     /\ (start_wallet r = vc_wallet row
                         \/ end_wallet r = vc_wallet row))
          /\ vc_total_volume_usd row
             = Frame.Qsum
                 (map usd_value
                      (List.filter
                         (fun r => String.eqb (start_wallet r) (vc_wallet row))
                         (user_flows d)))
               + Frame.Qsum
                   (map usd_value
                        (List.filter
                           (fun r => String.eqb (end_wallet r) (vc_wallet row))
                           (user_flows d)))).
Proof.
  intros top_n d rows. unfold rows, analyze_volume_concentration. cbn [fst snd].
  set (filled := add_fill (volume_by start_wallet (user_flows d))
                          (volume_by end_wallet (user_flows d))).
  set (total := Frame.sort_values (fun a b => Qle_bool (snd b) (snd a)) filled).
  destruct (head_firstn top_n total) as (k & Ek & Hk). rewrite Ek.
  split; [reflexivity |]. split; [|split; [|split]].
  - rewrite map_map. cbn [vc_wallet].
    change (fun x : string * Q => fst x) with (@fst string Q).
    rewrite <- firstn_map. apply NoDup_firstn.
    eapply Permutation_NoDup.
    + symmetry. apply Permutation_map. apply sort_values_perm.
    + apply add_fill_NoDup.
  - apply Sorted_mapped with (R := fun a b : string * Q => snd b <= snd a);
      [intros a b H; exact H |].
    apply Sorted_firstn.
    apply Sorted_weaken
      with (R := Frame.in_order (fun a b : string * Q => Qle_bool (snd b) (snd a))).
    + intros a b H. now apply Qle_bool_iff.
    + apply sort_values_Sorted. intros a b. apply Qle_bool_total.
  - intros H0. rewrite length_map, length_firstn, (Hk H0). lia.
  - intros row Hrow. apply in_map_iff in Hrow. destruct Hrow as (kv & <- & Hkv).
    cbn [vc_wallet vc_total_volume_usd].
    assert (Hin : In kv filled).
    { apply (sort_values_In (fun a b => Qle_bool (snd b) (snd a))). fold total.
      rewrite <- (firstn_skipn k total). apply in_or_app. now left. }
    now apply add_fill_rows in Hin.
Qed.
End VolumeConcentration.

Section TransferGraph.
Import DataFetcher WashTradingDetector.
Local Open Scope Q_scope.

Lemma Qsum_app (l1 l2 : list Q) :
  Frame.Qsum (l1 ++ l2) == Frame.Qsum l1 + Frame.Qsum l2.
Proof.
  induction l1 as [|x l1 IH]; simpl; [ring | rewrite IH; ring].
Qed.

Lemma has_edge_In (G : DiGraph) (u v : string) :
  has_edge G u v = true <-> exists w, In (u, v, w) G.
Proof.
  unfold has_edge. rewrite existsb_exists. split.
  - intros ([[u' v'] w] & Hin & He). unfold same_edge in He. cbn [fst snd] in He.
    apply andb_true_iff in He. destruct He as [Hu Hv].
    apply String.eqb_eq in Hu, Hv. subst. eauto.
  - intros [w Hin]. exists (u, v, w). split; [exact Hin |].
    unfold same_edge. cbn [fst snd]. now rewrite !String.eqb_refl.
Qed.

Lemma add_weight_keys (u v : string) (w : Q) (G : DiGraph) :
  map fst (add_weight u v w G) = map fst G.
Proof.
  unfold add_weight. rewrite map_map. apply map_ext.
  intros e. now destruct (same_edge u v e).
Qed.

Lemma build_graph_snoc (flows : list UserFlow) (row : UserFlow) :
  build_graph (flows ++ [row])
  = if has_edge (build_graph flows) (start_wallet row) (end_wallet row)
    then add_weight (start_wallet row) (end_wallet row) (usd_value row)
                    (build_graph flows)
    else add_edge (start_wallet row) (end_wallet row) (usd_value row)
                  (build_graph flows).
Proof. unfold build_graph. now rewrite fold_left_app. Qed.

Lemma has_edge_add_weight (u0 v0 : string) (w : Q) (G : DiGraph) (u v : string) :
  has_edge (add_weight u0 v0 w G) u v = has_edge G u v.
Proof.
  unfold has_edge, add_weight. induction G as [|[[a b] c] G IH]; [reflexivity |].
  cbn [map existsb]. rewrite IH. f_equal.
  destruct (same_edge u0 v0 (a, b, c)); reflexivity.
Qed.

Lemma build_graph_has_edge (flows : list UserFlow) (u v : string) :
  has_edge (build_graph flows) u v = true ->
  exists r, In r flows /\ start_wallet r = u /\ end_wallet r = v.
Proof.
  induction flows as [|row flows IH] using rev_ind; [discriminate |].
  rewrite build_graph_snoc. intros H.
  assert (E : has_edge (build_graph flows) u v = true
              \/ (start_wallet row = u /\ end_wallet row = v)).
  { destruct (has_edge (build_graph flows) (start_wallet row) (end_wallet row)).
    - left. now rewrite has_edge_add_weight in H.
    - unfold add_edge, has_edge in H. rewrite existsb_app in H.
      apply orb_true_iff in H. destruct H as [H | H]; [now left | right].
      cbn in H. rewrite orb_false_r in H. apply andb_true_iff in H.
      destruct H as [Hu Hv]. apply String.eqb_eq in Hu, Hv. auto. }
  destruct E as [E | [Hu Hv]].
  - destruct (IH E) as (r & Hr & Hr'). exists r. split; [|exact Hr'].
    apply in_or_app. now left.
  - exists row. split; [apply in_or_app; right; now left | auto].
Qed.

(** X17.  The transfer graph built for cycle detection has exactly one
    edge for every ordered pair (sender, receiver) that occurs in the
    flow table, and no other edge; the weight of the edge is the total
    USD value of the flows from that sender to that receiver. *)
Theorem build_graph_edges :
  forall (flows : list UserFlow),
    let G := build_graph flows in
    List.NoDup (map fst G)
    /\ (forall u v,
          has_edge G u v = true
          <-> exists r, In r flows /\ start_wallet r = u /\ end_wallet r = v)
    /\ (forall u v w,
          In (u, v, w) G ->
          w == Frame.Qsum
                 (map usd_value
                      (List.filter
                         (fun r => String.eqb (start_wallet r) u
                                   && String.eqb (end_wallet r) v) flows))).
Proof.
  intros flows. cbv zeta.
  induction flows as [|row flows (ND & Hedge & Hw)] using rev_ind.
  - split; [constructor | split].
    + intros u v. split; [discriminate | intros (r & [] & _)].
    + intros u v w [].
  - rewrite build_graph_snoc.
    set (G := build_graph flows) in *.
    set (u0 := start_wallet row). set (v0 := end_wallet row).
    assert (Hsnoc : forall u v,
               (exists r, In r (flows ++ [row])
                          /\ start_wallet r = u /\ end_wallet r = v)
               <-> has_edge G u v = true \/ (u0 = u /\ v0 = v)).
    { intros u v. rewrite Hedge. split.
      - intros (r & Hr & Hu & Hv). apply in_app_or in Hr.
        destruct Hr as [Hr | [<- | []]]; [left; eauto | now right].
      - intros [(r & Hr & Hu & Hv) | [Hu Hv]].
        + exists r. split; [apply in_or_app; now left | now split].
        + exists row. split; [apply in_or_app; right; now left | now split]. }
    assert (Hsum : forall u v,
               Frame.Qsum
                 (map usd_value
                      (List.filter
                         (fun r => String.eqb (start_wallet r) u
                                   && String.eqb (end_wallet r) v)
                         (flows ++ [row])))
               == Frame.Qsum
                    (map usd_value
                         (List.filter
                            (fun r => String.eqb (start_wallet r) u
                                      && String.eqb (end_wallet r) v) flows))
                  + (if same_edge u0 v0 (u, v, 0) then usd_value row else 0)).
    { intros u v. rewrite List.filter_app, map_app, Qsum_app.
      apply Qplus_comp; [reflexivity |]. cbn [List.filter].
      unfold same_edge. cbn [fst snd]. fold u0 v0.
      rewrite (String.eqb_sym u u0), (String.eqb_sym v v0).
      destruct (String.eqb u0 u && String.eqb v0 v)%bool; simpl; ring. }
    destruct (has_edge G u0 v0) eqn:E.
    + split; [now rewrite add_weight_keys | split].
      * intros u v. rewrite Hsnoc.
        assert (K : has_edge (add_weight u0 v0 (usd_value row) G) u v
                    = has_edge G u v).
        { apply Bool.eq_iff_eq_true. rewrite !has_edge_In. split.
          - intros [w Hin]. unfold add_weight in Hin. apply in_map_iff in Hin.
            destruct Hin as ([[u' v'] w'] & He & Hin).
            destruct (same_edge u0 v0 (u', v', w')); inversion He; subst; eauto.
          - intros [w Hin].
            assert (Hk : In (u, v) (map fst (add_weight u0 v0 (usd_value row) G))).
            { rewrite add_weight_keys. apply in_map_iff.
              exists (u, v, w). now split. }
            apply in_map_iff in Hk. destruct Hk as ([[u' v'] w'] & He & Hin').
            cbn [fst] in He. inversion He; subst. eauto. }
        rewrite K. split; [tauto |].
        intros [H | [<- <-]]; [exact H | exact E].
      * intros u v w Hin. unfold add_weight in Hin. apply in_map_iff in Hin.
        destruct Hin as ([[u' v'] w'] & He & Hin).
        rewrite Hsum.
        assert (S : same_edge u0 v0 (u', v', w') = same_edge u0 v0 (u', v', 0))
          by reflexivity.
        rewrite S in He.
        destruct (same_edge u0 v0 (u', v', 0)) eqn:Es; inversion He; subst;
          rewrite Es; rewrite (Hw _ _ _ Hin); ring.
    + unfold add_edge. split; [|split].
      * rewrite map_app. cbn [map fst].
        apply List.NoDup_app; [exact ND | repeat constructor; intros [] |].
        intros p Hp [<- | []]. apply in_map_iff in Hp.
        destruct Hp as ([[u' v'] w'] & He & Hin). cbn [fst] in He.
        inversion He; subst.
        assert (T : has_edge G u0 v0 = true) by (apply has_edge_In; eauto).
        congruence.
      * intros u v. rewrite Hsnoc, !has_edge_In. split.
        -- intros [w Hin]. apply in_app_or in Hin.
           destruct Hin as [Hin | [He | []]]; [left; eauto |].
           inversion He; subst. now right.
        -- intros [[w Hin] | [<- <-]].
           ++ exists w. apply in_or_app. now left.
           ++ exists (usd_value row). apply in_or_app. right. now left.
      * intros u v w Hin. rewrite Hsum. apply in_app_or in Hin.
        destruct Hin as [Hin | [He | []]].
        -- assert (Es : same_edge u0 v0 (u, v, 0) = false).
           { destruct (same_edge u0 v0 (u, v, 0)) eqn:Es; [|reflexivity].
             unfold same_edge in Es. cbn [fst snd] in Es.
             apply andb_true_iff in Es. destruct Es as [Hu Hv].
             apply String.eqb_eq in Hu, Hv. subst u v.
             assert (T : has_edge G u0 v0 = true) by (apply has_edge_In; eauto).
             congruence. }
           rewrite Es, (Hw _ _ _ Hin). ring.
        -- inversion He; subst u v w.
           assert (Es : same_edge u0 v0 (u0, v0, 0) = true)
             by (unfold same_edge; cbn [fst snd]; now rewrite !String.eqb_refl).
           rewrite Es.
           assert (Z0 : List.filter
                          (fun r => String.eqb (start_wallet r) u0
                                    && String.eqb (end_wallet r) v0) flows = []).
           { destruct (List.filter _ flows) as [|r l] eqn:F; [reflexivity |].
             exfalso.
             assert (Hr : In r (List.filter
                                  (fun r => String.eqb (start_wallet r) u0
                                            && String.eqb (end_wallet r) v0)
                                  flows)) by (rewrite F; now left).
             apply filter_In in Hr. destruct Hr as [Hr Hk].
             apply andb_true_iff in Hk. destruct Hk as [Hu Hv].
             apply String.eqb_eq in Hu, Hv.
             assert (T : has_edge G u0 v0 = true) by (apply Hedge; eauto).
             congruence. }
           rewrite Z0. simpl. ring.
Qed.
End TransferGraph.

Section FlowTable.
Import DataFetcher.

Lemma omap_increasing {A B : Type} (R : string -> string -> Prop)
      (f : A -> option B) (ka : A -> string) (kb : B -> string) (l : list A) :
  (forall x y, f x = Some y -> kb y = ka x) ->
  StronglySorted R (map ka l) -> StronglySorted R (map kb (omap f l)).
Proof.
  intros Hk. induction l as [|x l IH]; simpl; intros H; [constructor |].
  inversion H as [|? ? Hs Hall]; subst.
  destruct (f x) as [y|] eqn:E; simpl; [|now apply IH].
  constructor; [now apply IH |].
  rewrite (Hk _ _ E). rewrite List.Forall_forall in *.
  intros k Hin. apply Hall. apply in_map_iff in Hin.
  destruct Hin as (y' & <- & Hy'). apply omap_In in Hy'.
  destruct Hy' as (x' & Hx' & E'). rewrite (Hk _ _ E').
  now apply in_map.
Qed.

Lemma find_finds {A : Type} (p : A -> bool) (l : list A) :
  (exists x, In x l /\ p x = true) -> exists y, List.find p l = Some y.
Proof.
  intros (x & Hx & Hp). destruct (List.find p l) as [y|] eqn:E; [eauto |].
  pose proof (find_none _ _ E x Hx). congruence.
Qed.

Lemma hash_is (tx : string) (r : Transfer) :
  Frame.key_is String.compare transactionHash tx r
  = String.eqb (transactionHash r) tx.
Proof.
  apply Bool.eq_iff_eq_true.
  rewrite (key_is_true _ _ string_compare_eq), String.eqb_eq. reflexivity.
Qed.

Lemma process_group_fields display token tx_hash group f :
  process_group display token tx_hash group = Some f ->
  transaction_hash f = tx_hash
  /\ token_symbol f = display
  /\ token_address f = token
  /\ start_wallet f <> "" /\ end_wallet f <> ""
  /\ exists first rest,
      Frame.sort_values by_blockNumber group = first :: rest
      /\ block_number f = blockNumber first
      /\ timestamp f = blockTimestamp first.
Proof.
  unfold process_group.
  destruct (Frame.sort_values by_blockNumber group) as [|first rest]; [discriminate|].
  destruct (scan_start (first :: rest)) as [rs|]; [|discriminate].
  destruct (scan_end (first :: rest)) as [re|]; [|discriminate].
  destruct (truthy (get_address (fromAddress rs))) as [sw|] eqn:Ts; [|discriminate].
  destruct (truthy (get_address (toAddress re))) as [ew|] eqn:Te; [|discriminate].
  apply truthy_Some in Ts, Te.
  intros H. inversion H; subst; cbn. repeat split; try tauto. eauto.
Qed.

Lemma by_blockNumber_sorted (group : list Transfer) :
  StronglySorted (fun a b => (blockNumber a <= blockNumber b)%Z)
                 (Frame.sort_values by_blockNumber group).
Proof.
  apply Sorted_StronglySorted; [intros a b c; lia |].
  apply Sorted_weaken with (R := Frame.in_order by_blockNumber).
  - intros a b H. now apply Z.leb_le.
  - apply sort_values_Sorted. intros a b. unfold by_blockNumber.
    rewrite !Z.leb_le. lia.
Qed.

(** X18.  When every hop carries a sender and a receiver address, the
    flow table has at most one flow per transaction, in
    increasing order of transaction hash.  Every flow stems from the hops
    of its transaction: its start wallet is the non-empty sender address
    of a hop whose sender is not an intermediary, its end wallet the
    non-empty receiver address of a hop whose receiver is not an
    intermediary, its value the sum of the hops' known USD values, its
    hop count their number and its block number the smallest of theirs;
    token symbol and address are the ones the call was given. *)
Theorem user_flow_table :
  forall (display token : string) (df : list Transfer),
    (forall r, In r df ->
               get_address (fromAddress r) <> None
               /\ get_address (toAddress r) <> None) ->
    let flows := process_transfers_to_user_flows display token df in
    List.NoDup (map transaction_hash flows)
    /\ StronglySorted (fun a b => String.compare a b = Lt)
                      (map transaction_hash flows)
    /\ (forall f, In f flows ->
          let hops :=
            List.filter
              (fun r => String.eqb (transactionHash r) (transaction_hash f)) df in
          (exists rs, In rs hops
                      /\ from_is_intermediary rs = false
                      /\ get_address (fromAddress rs) = Some (start_wallet f)
                      /\ start_entity_type f = get_entity_type (fromAddress rs))
          /\ (exists re, In re hops
                         /\ to_is_intermediary re = false
                         /\ get_address (toAddress re) = Some (end_wallet f)
                         /\ end_entity_type f = get_entity_type (toAddress re))
          /\ start_wallet f <> "" /\ end_wallet f <> ""
          /\ Qeq (usd_value f) (Frame.sum_skipna (map historicalUSD hops))
          /\ hop_count f = length hops
          /\ (exists first, In first hops
                            /\ block_number f = blockNumber first
                            /\ timestamp f = blockTimestamp first)
          /\ (forall r, In r hops -> (block_number f <= blockNumber r)%Z)
          /\ token_symbol f = display
          /\ token_address f = token).
Proof.
  intros display token df _ flows.
  assert (S : StronglySorted (fun a b => String.compare a b = Lt)
                             (map transaction_hash flows)).
  { unfold flows, process_transfers_to_user_flows.
    apply omap_increasing with (ka := fst).
    - intros [tx g] f Hf. now apply process_group_fields in Hf.
    - rewrite (groupby_keys String.compare transactionHash).
      apply (unique_keys_increasing _ _ string_compare_eq String.compare_antisym
                                    string_compare_trans). }
  split; [|split; [exact S |]].
  { apply (increasing_NoDup String.compare string_compare_eq). exact S. }
  intros f Hf. unfold flows, process_transfers_to_user_flows in Hf.
  apply omap_In in Hf. destruct Hf as ([tx g] & Hg & Hf). cbn [fst snd] in Hf.
  apply (groupby_In _ _ string_compare_eq) in Hg. destruct Hg as [_ Hg].
  rewrite (filter_ext _ _ (hash_is tx)) in Hg.
  pose proof (process_group_fields _ _ _ _ _ Hf)
    as (Eh & Ed & Et & Ns & Ne & first & rest & Esort & Eb & Ets).
  pose proof (process_group_shape _ _ _ _ _ Hf)
    as ((rs & Fs & As & Ts) & (re & Fe & Ae & Te) & Eusd & Elen).
  rewrite Eh. cbv zeta. rewrite <- Hg.
  apply find_some in Fs, Fe. destruct Fs as [Is Ps], Fe as [Ie Pe].
  apply in_rev in Ie. apply sort_values_In in Is, Ie.
  apply negb_true_iff in Ps, Pe.
  pose proof (by_blockNumber_sorted g) as B. rewrite Esort in B.
  apply StronglySorted_inv in B. destruct B as [_ Hall].
  assert (Hfirst : In first g)
    by (apply (sort_values_In by_blockNumber); rewrite Esort; now left).
  repeat split; try assumption.
  - exists rs. auto.
  - exists re. auto.
  - exists first. auto.
  - intros r Hr. apply (sort_values_In by_blockNumber) in Hr.
    rewrite Esort in Hr. rewrite Eb. destruct Hr as [<- | Hr]; [lia |].
    rewrite List.Forall_forall in Hall. now apply Hall.
Qed.

(** X19.  A transaction yields a flow as soon as it has a hop whose
    sender is not an intermediary and a hop whose receiver is not an
    intermediary, provided all its hops carry non-empty sender and
    receiver addresses. *)
Theorem transaction_with_user_endpoints_yields_flow :
  forall (display token : string) (df : list Transfer) (tx : string),
    (forall r, In r df -> transactionHash r = tx ->
               (exists s, get_address (fromAddress r) = Some s /\ s <> "")
               /\ (exists t, get_address (toAddress r) = Some t /\ t <> "")) ->
    (exists r, In r df /\ transactionHash r = tx
               /\ from_is_intermediary r = false) ->
    (exists r, In r df /\ transactionHash r = tx
               /\ to_is_intermediary r = false) ->
    In tx (map transaction_hash
               (process_transfers_to_user_flows display token df)).
Proof.
  intros display token df tx Haddr (r1 & I1 & H1 & P1) (r2 & I2 & H2 & P2).
  set (g := List.filter (Frame.key_is String.compare transactionHash tx) df).
  assert (Hg : In (tx, g) (Frame.groupby String.compare transactionHash df)).
  { apply (groupby_In _ _ string_compare_eq). split; [eauto | reflexivity]. }
  assert (Hmem : forall r, In r (Frame.sort_values by_blockNumber g) ->
                           In r df /\ transactionHash r = tx).
  { intros r Hr. apply sort_values_In in Hr.
    now apply (groupby_member _ _ string_compare_eq _ _ _ r Hg). }
  assert (Hin : forall r, In r df -> transactionHash r = tx ->
                          In r (Frame.sort_values by_blockNumber g)).
  { intros r Hr Hk. apply sort_values_In.
    now apply (groupby_member _ _ string_compare_eq _ _ _ r Hg). }
  assert (exists f, process_group display token tx g = Some f) as [f Hf].
  { unfold process_group, scan_start, scan_end. cbv zeta.
    set (hops := Frame.sort_values by_blockNumber g) in *. clearbody hops.
    destruct (find_finds (fun r => negb (from_is_intermediary r)) hops)
      as [rs Fs].
    { exists r1. split; [now apply Hin | now rewrite P1]. }
    destruct (find_finds (fun r => negb (to_is_intermediary r)) (rev hops))
      as [re Fe].
    { exists r2. split; [apply in_rev; rewrite rev_involutive; now apply Hin
                        | now rewrite P2]. }
    rewrite Fs, Fe. apply find_some in Fs, Fe.
    destruct Fs as [Is _], Fe as [Ie _]. apply in_rev in Ie.
    destruct hops as [|first rest]; [destruct Is |].
    destruct (Hmem _ Is) as [Ds Ks]. destruct (Hmem _ Ie) as [De Ke].
    destruct (Haddr _ Ds Ks) as [(s & Es & Ns) _].
    destruct (Haddr _ De Ke) as [_ (t & Et & Nt)].
    rewrite Es, Et. cbn [truthy].
    apply String.eqb_neq in Ns, Nt. rewrite Ns, Nt. eauto. }
  apply in_map_iff. exists f. split.
  - now apply process_group_fields in Hf.
  - unfold process_transfers_to_user_flows. apply omap_In.
    exists (tx, g). split; [exact Hg | exact Hf].
Qed.
End FlowTable.

Section FlowTableSamples.
Import DataFetcher Samples.

Lemma user_flow_table_witness :
  (forall r, In r relay_newest_first ->
             get_address (fromAddress r) <> None
             /\ get_address (toAddress r) <> None)
  /\ List.NoDup (map transaction_hash
                    (process_transfers_to_user_flows "TOKEN" "mint"
                                                     relay_newest_first)).
Proof.
  assert (H : forall r, In r relay_newest_first ->
                        get_address (fromAddress r) <> None
                        /\ get_address (toAddress r) <> None)
    by (intros r [<- | [<- | []]]; split; discriminate).
  split; [exact H |].
  exact (proj1 (user_flow_table "TOKEN" "mint" relay_newest_first H)).
Defined.

Lemma transaction_with_user_endpoints_yields_flow_witness :
  In "tx1" (map transaction_hash
                (process_transfers_to_user_flows "TOKEN" "mint" relay_newest_first)).
Proof.
  apply (transaction_with_user_endpoints_yields_flow
           "TOKEN" "mint" relay_newest_first "tx1").
  - intros r [<- | [<- | []]] _; split; eexists; split;
      try reflexivity; discriminate.
  - eexists. split; [left; reflexivity | split; reflexivity].
  - eexists. split; [left; reflexivity | split; reflexivity].
Defined.
End FlowTableSamples.

Section SuspicionOrigin.
Import DataFetcher WashTradingDetector.
Variable simple_cycles : DiGraph -> option (list (list string)).

Lemma pair_wallets (r : UserFlow) (p : string * string) :
  wallet_pair r = p ->
  (start_wallet r = fst p \/ end_wallet r = fst p)
  /\ (start_wallet r = snd p \/ end_wallet r = snd p).
Proof.
  unfold wallet_pair.
  destruct (String.leb (start_wallet r) (end_wallet r)); intros <-; cbn; auto.
Qed.

Lemma update_user_flows (d : Detector) (ws : list string) :
  user_flows (update d ws) = user_flows d.
Proof. reflexivity. Qed.

Lemma detect_self_transfers_user_flows (d : Detector) :
  user_flows (snd (detect_self_transfers d)) = user_flows d.
Proof.
  unfold detect_self_transfers.
  now destruct (List.filter is_self_transfer (user_flows d)).
Qed.

Lemma detect_rapid_roundtrips_user_flows (h : Z) (d : Detector) :
  user_flows (snd (detect_rapid_roundtrips h d)) = user_flows d.
Proof. unfold detect_rapid_roundtrips. now destruct (omap _ _). Qed.

Lemma detect_high_frequency_pairs_user_flows (m : Z) (d : Detector) :
  user_flows (snd (detect_high_frequency_pairs m d)) = user_flows d.
Proof. unfold detect_high_frequency_pairs. now destruct (List.filter _ _). Qed.

Lemma self_transfer_wallet_origin (d : Detector) (w : string) :
  In w (map st_wallet (fst (detect_self_transfers d))) ->
  exists r, In r (user_flows d) /\ (start_wallet r = w \/ end_wallet r = w).
Proof.
  intros H. apply in_map_iff in H. destruct H as (row & <- & Hrow).
  apply self_transfer_rows in Hrow.
  destruct Hrow as (w & (f & Hf & _ & Hw) & ->). cbn. eauto.
Qed.

Lemma roundtrip_wallet_origin (h : Z) (d : Detector) (w : string) :
  In w (map rt_wallet_a (fst (detect_rapid_roundtrips h d))
        ++ map rt_wallet_b (fst (detect_rapid_roundtrips h d))) ->
  exists r, In r (user_flows d) /\ (start_wallet r = w \/ end_wallet r = w).
Proof.
  rewrite detect_rapid_roundtrips_rows. intros H.
  assert (exists row p r,
             In r (user_flows d) /\ wallet_pair r = p
             /\ rt_wallet_a row = fst p /\ rt_wallet_b row = snd p
             /\ (w = rt_wallet_a row \/ w = rt_wallet_b row))
    as (row & p & r & Hr & Hp & Ea & Eb & Hw).
  { assert (exists row,
               In row (omap (roundtrip_of_group h)
                            (Frame.groupby Frame.pair_compare wallet_pair
                                           (user_flows d)))
               /\ (w = rt_wallet_a row \/ w = rt_wallet_b row))
      as (row & Hrow & Hw).
    { apply in_app_or in H. destruct H as [H | H];
        apply in_map_iff in H; destruct H as (row & <- & Hrow); eauto. }
    apply omap_In in Hrow. destruct Hrow as ([p g] & Hg & Hrt).
    apply (groupby_In _ _ pair_compare_eq) in Hg.
    destruct Hg as [(r & Hr & Hp) _].
    rewrite roundtrip_of_group_count in Hrt. cbv zeta in Hrt.
    destruct (2 <=? _)%nat; [|discriminate].
    inversion Hrt; subst row; cbn in Hw.
    exists {| rt_wallet_a := fst p; rt_wallet_b := snd p;
              roundtrip_count := 0; total_transactions := 0 |}, p, r.
    cbn. auto. }
  apply pair_wallets in Hp. exists r. split; [exact Hr |].
  destruct Hw as [-> | ->]; [rewrite Ea | rewrite Eb]; tauto.
Qed.

Lemma high_frequency_wallet_origin (m : Z) (d : Detector) (w : string) :
  In w (map hf_wallet_a (fst (detect_high_frequency_pairs m d))
        ++ map hf_wallet_b (fst (detect_high_frequency_pairs m d))) ->
  exists r, In r (user_flows d) /\ (start_wallet r = w \/ end_wallet r = w).
Proof.
  intros H.
  assert (exists row, In row (fst (detect_high_frequency_pairs m d))
                      /\ (w = hf_wallet_a row \/ w = hf_wallet_b row))
    as (row & Hrow & Hw).
  { apply in_app_or in H. destruct H as [H | H];
      apply in_map_iff in H; destruct H as (row & <- & Hrow); eauto. }
  apply high_frequency_rows in Hrow.
  destruct Hrow as (p & (r & Hr & Hp) & _ & ->). cbn in Hw.
  apply pair_wallets in Hp. exists r. split; [exact Hr |].
  destruct Hw as [-> | ->]; tauto.
Qed.

Lemma circular_wallet_origin (mx : Z) (d : Detector) (w : string) :
  (forall cycles c v,
      simple_cycles (build_graph (user_flows d)) = Some cycles ->
      In c cycles -> In v c ->
      exists u, has_edge (build_graph (user_flows d)) v u = true
                \/ has_edge (build_graph (user_flows d)) u v = true) ->
  In w (concat (map wallets (fst (detect_circular_patterns simple_cycles mx d)))) ->
  exists r, In r (user_flows d) /\ (start_wallet r = w \/ end_wallet r = w).
Proof.
  intros Hnodes H. unfold detect_circular_patterns in H.
  destruct (simple_cycles (build_graph (user_flows d))) as [cycles|] eqn:E;
    [|destruct H].
  destruct (circular_loop mx (firstn 1000 cycles) ([], d)) as [H1 _].
  cbv zeta in H1. cbn [fst snd] in H1. rewrite H1 in H. cbn [app] in H.
  apply in_concat in H. destruct H as (c & Hc & Hw).
  apply in_map_iff in Hc. destruct Hc as (row & <- & Hrow).
  apply in_map_iff in Hrow. destruct Hrow as (c & <- & Hc). cbn in Hw.
  apply filter_In in Hc. destruct Hc as [Hc _].
  assert (Hc' : In c cycles).
  { rewrite <- (firstn_skipn 1000 cycles). apply in_or_app. now left. }
  destruct (Hnodes cycles c w eq_refl Hc' Hw) as [u [Hu | Hu]];
    apply build_graph_has_edge in Hu;
    destruct Hu as (r & Hr & Hs & He); eauto.
Qed.

(** X20.  Provided the cycle enumeration only reports wallets that are
    nodes of the transfer graph, every wallet that [run_all_analyses]
    marks as suspicious is the start wallet or the end wallet of some
    flow of the flow table. *)
Theorem suspicious_wallets_come_from_flows :
  forall (flows : list UserFlow),
    (forall cycles c v,
        simple_cycles (build_graph flows) = Some cycles ->
        In c cycles -> In v c ->
        exists u, has_edge (build_graph flows) v u = true
                  \/ has_edge (build_graph flows) u v = true) ->
    forall w,
      w ∈ suspicious_wallets (snd (run_all_analyses simple_cycles (init flows))) ->
      exists r, In r flows /\ (start_wallet r = w \/ end_wallet r = w).
Proof.
  intros flows Hnodes w. unfold run_all_analyses.
  pose proof (detect_self_transfers_suspicious (init flows)) as H1.
  pose proof (detect_self_transfers_user_flows (init flows)) as U1.
  pose proof (self_transfer_wallet_origin (init flows)) as O1.
  destruct (detect_self_transfers (init flows)) as [r1 d1].
  pose proof (detect_rapid_roundtrips_suspicious 24 d1) as H2.
  pose proof (detect_rapid_roundtrips_user_flows 24 d1) as U2.
  pose proof (roundtrip_wallet_origin 24 d1) as O2.
  destruct (detect_rapid_roundtrips 24 d1) as [r2 d2].
  pose proof (detect_high_frequency_pairs_suspicious 10 d2) as H3.
  pose proof (detect_high_frequency_pairs_user_flows 10 d2) as U3.
  pose proof (high_frequency_wallet_origin 10 d2) as O3.
  destruct (detect_high_frequency_pairs 10 d2) as [r3 d3].
  pose proof (detect_circular_patterns_suspicious simple_cycles 4 d3) as H4.
  pose proof (circular_wallet_origin 4 d3) as O4.
  destruct (detect_circular_patterns simple_cycles 4 d3) as [r4 d4].
  destruct (analyze_volume_concentration 20 d4) as [r5 d5] eqn:E5.
  destruct (detect_temporal_clustering 5 d5) as [r6 d6] eqn:E6.
  unfold analyze_volume_concentration in E5. inversion E5; subst d5.
  unfold detect_temporal_clustering in E6. inversion E6; subst d6.
  cbn [fst snd] in *.
  assert (F1 : user_flows d1 = flows) by exact U1.
  assert (F2 : user_flows d2 = flows) by congruence.
  assert (F3 : user_flows d3 = flows) by congruence.
  cbn [init user_flows] in O1. rewrite F1 in O2. rewrite F2 in O3.
  rewrite F3 in O4. specialize (fun w => O4 w Hnodes).
  rewrite H4, H3, H2, H1. cbn [init suspicious_wallets].
  rewrite !elem_of_union, !elem_of_list_to_set, !list_elem_of_In.
  intros [[[[Hw | Hw] | Hw] | Hw] | Hw]; auto.
  now apply elem_of_empty in Hw.
Qed.
End SuspicionOrigin.

Section SuspicionOriginSamples.
Import DataFetcher WashTradingDetector Samples.

Lemma suspicious_wallets_come_from_flows_witness :
  "A" ∈ suspicious_wallets (snd (run_all_analyses find_return_cycle
                                                  (init one_return)))
  /\ exists r, In r one_return /\ (start_wallet r = "A" \/ end_wallet r = "A").
Proof.
  assert (H : "A" ∈ suspicious_wallets
                (snd (run_all_analyses find_return_cycle (init one_return))))
    by (vm_compute; set_solver).
  split; [exact H |].
  apply (suspicious_wallets_come_from_flows find_return_cycle one_return);
    [|exact H].
  intros cycles c v E Hc Hv. inversion E; subst cycles.
  destruct Hc as [<- | []].
  destruct Hv as [<- | [<- | []]]; [exists "B" | exists "A"]; left; reflexivity.
Defined.
End SuspicionOriginSamples.

Section ClassificationTable.
Import DataFetcher BotDetector.
Local Open Scope Q_scope.

Lemma unique_NoDup (l : list string) : List.NoDup (unique l).
Proof.
  induction l as [|x l IH]; simpl; constructor.
  - intros H. apply filter_In in H. destruct H as [_ H].
    now rewrite String.eqb_refl in H.
  - now apply List.NoDup_filter.
Qed.

Lemma NoDup_fst_filter {A B : Type} (p : A * B -> bool) (l : list (A * B)) :
  List.NoDup (map fst l) -> List.NoDup (map fst (List.filter p l)).
Proof.
  induction l as [|c cs IH]; simpl; intros N; [constructor |].
  inversion N as [|? ? Hc Hcs]; subst. destruct (p c); simpl; auto.
  constructor; auto. intros Hin. apply Hc.
  apply in_map_iff in Hin. destruct Hin as (x & Ex & Hx).
  apply filter_In in Hx. apply in_map_iff. exists x. tauto.
Qed.

Lemma eligible_wallets_NoDup (flows : list UserFlow) (m : Z) (s : option Z) :
  List.NoDup (eligible_wallets flows m s).
Proof.
  unfold eligible_wallets.
  set (all := Frame.sort_values _ (map _ (value_counts (map start_wallet flows)))).
  assert (N : List.NoDup (map fst all)).
  { unfold all. eapply Permutation_NoDup.
    { symmetry. apply Permutation_map, sort_values_perm. }
    rewrite map_map. cbn [fst]. unfold value_counts.
    eapply Permutation_NoDup.
    { symmetry.
      apply (Permutation_map (fun x : string * nat => fst x)), sort_values_perm. }
    rewrite map_map. cbn [fst]. rewrite map_id. apply unique_NoDup. }
  apply (NoDup_fst_filter (fun c => (m <=? Z.of_nat (snd c))%Z)) in N.
  destruct s as [n|]; [|exact N].
  destruct (n =? 0)%Z; [exact N |].
  destruct (head_firstn n (map fst (List.filter
                                      (fun c => (m <=? Z.of_nat (snd c))%Z) all)))
    as (k & -> & _).
  now apply NoDup_firstn.
Qed.

Lemma eligible_wallets_sample (flows : list UserFlow) (m n : Z) :
  (0 < n)%Z ->
  (length (eligible_wallets flows m (Some n)) <= Z.to_nat n)%nat.
Proof.
  intros Hn. unfold eligible_wallets.
  destruct (Z.eqb_spec n 0) as [-> | _]; [lia |].
  destruct (head_firstn n (map fst (List.filter
                                      (fun c => (m <=? Z.of_nat (snd c))%Z)
                                      (Frame.sort_values
                                         (fun a b => (snd b <=? snd a)%nat)
                                         (map (fun c => (fst c, (snd c + count_of (fst c) (value_counts (map end_wallet flows)))%nat))
                                              (value_counts (map start_wallet flows)))))))
    as (k & -> & Hk).
  rewrite length_firstn, Hk by lia. lia.
Qed.

Section Provider.
Variable std : list Q -> option Q.
Variable count_decimals : Q -> nat.
Variable api : string -> WalletData.

Ltac untouched :=
    repeat match goal with
           | |- context [match ?x with _ => _ end] => destruct x
           | |- context [if ?b then _ else _] => destruct b
           end;
    cbn [set_num];
    rewrite ?lookup_insert_ne by discriminate; reflexivity.

Lemma extract_features_local (wallet_data : gmap string WalletData)
        (w key : string) :
    key = "local_tx_count" \/ key = "local_volume_usd" ->
    extract_features std count_decimals wallet_data w !! key = None.
  Proof.
    intros Hk. unfold extract_features.
    destruct (wallet_data !! w) as [data|]; [|apply lookup_empty].
    assert (F : forall f : Features,
               flow_features (flow data) f !! key = f !! key).
    { intros f. unfold flow_features. destruct Hk as [-> | ->]; untouched. }
    assert (B : forall f : Features,
               balances_features (balances data) f !! key = f !! key).
    { intros f. unfold balances_features. destruct Hk as [-> | ->]; untouched. }
    assert (I : forall f : Features,
               intelligence_features (intelligence data) f !! key = f !! key).
    { intros f. unfold intelligence_features.
      destruct Hk as [-> | ->]; untouched. }
    assert (C : forall f : Features,
               counterparties_features (counterparties data) f !! key = f !! key).
    { intros f. unfold counterparties_features.
      destruct Hk as [-> | ->]; untouched. }
    assert (V : forall rows (f : Features),
               value_features std count_decimals rows f !! key = f !! key).
    { intros rows f. unfold value_features, cv.
      destruct Hk as [-> | ->]; untouched. }
    assert (M : forall rows (f : Features),
               timing_features std rows f !! key = f !! key).
    { intros rows f. unfold timing_features, cv.
      destruct Hk as [-> | ->]; untouched. }
    assert (T : forall f : Features,
               transfers_features std count_decimals (transfers data) f !! key
               = f !! key).
    { intros f. unfold transfers_features.
      destruct (transfers data) as [[|r rows]|]; try reflexivity.
      rewrite V, M. destruct Hk as [-> | ->];
        rewrite ?lookup_insert_ne by discriminate; reflexivity. }
    cbv zeta. rewrite F, B, I, C, T.
    destruct Hk as [-> | ->]; now rewrite lookup_singleton_ne by discriminate.
  Qed.

Lemma classify_one_local flows wallet_data w :
    let row := classify_one std count_decimals flows wallet_data w in
    let wallet_txs :=
      List.filter (fun r => String.eqb (start_wallet r) w
                            || String.eqb (end_wallet r) w) flows in
    features row !! "local_tx_count" = Some (Num (Qnat (length wallet_txs)))
    /\ features row !! "local_volume_usd"
       = Some (Num (Frame.Qsum (map usd_value wallet_txs))).
  Proof.
    unfold classify_one. destruct (calculate_bot_score _) as [score why].
    cbn [features]. split.
    - rewrite lookup_union_r by (apply extract_features_local; auto).
      rewrite lookup_insert_ne by discriminate. apply lookup_insert_eq.
    - rewrite lookup_union_r by (apply extract_features_local; auto).
      apply lookup_insert_eq.
  Qed.

  (** X21.  When at least one wallet is eligible, the classification
      table has exactly one row per eligible wallet, in order of
      decreasing bot score, and a positive [sample_size] bounds the number
      of rows.  A row's [local_tx_count] is the number of flows that the
      wallet starts or ends (a self-transfer counts once) and its
      [local_volume_usd] their total USD value; no endpoint payload
      overrides them. *)
Theorem classification_table :
    forall (flows : list UserFlow) (min_transactions : Z)
           (sample_size : option Z),
      eligible_wallets flows min_transactions sample_size <> [] ->
      let rows := classify_wallets std count_decimals api flows
                                   min_transactions sample_size in
      Permutation (map wallet rows)
                  (eligible_wallets flows min_transactions sample_size)
      /\ List.NoDup (map wallet rows)
      /\ Sorted (fun a b => bot_score b <= bot_score a) rows
      /\ (forall n, sample_size = Some n -> (0 < n)%Z ->
                    (length rows <= Z.to_nat n)%nat)
      /\ (forall row, In row rows ->
            let wallet_txs :=
              List.filter (fun r => String.eqb (start_wallet r) (wallet row)
                                    || String.eqb (end_wallet r) (wallet row))
                          flows in
            features row !! "local_tx_count"
            = Some (Num (Qnat (length wallet_txs)))
            /\ features row !! "local_volume_usd"
               = Some (Num (Frame.Qsum (map usd_value wallet_txs)))).
  Proof.
    intros flows m s _ rows. unfold rows, classify_wallets.
    set (eligible := eligible_wallets flows m s).
    set (wallet_data := batch_fetch_wallet_data api eligible).
    assert (P : Permutation
                  (map wallet
                       (Frame.sort_values
                          (fun a b => Qle_bool (bot_score b) (bot_score a))
                          (map (classify_one std count_decimals flows
                                             wallet_data) eligible)))
                  eligible).
    { etransitivity; [apply Permutation_map, sort_values_perm |].
      rewrite map_map. erewrite map_ext; [rewrite map_id; reflexivity |].
      intros w. apply classify_one_wallet. }
    split; [exact P |]. split; [|split; [|split]].
    - eapply Permutation_NoDup; [symmetry; exact P |].
      apply eligible_wallets_NoDup.
    - apply Sorted_weaken
        with (R := Frame.in_order
                     (fun a b => Qle_bool (bot_score b) (bot_score a))).
      + intros a b H. now apply Qle_bool_iff.
      + apply sort_values_Sorted. intros a b. apply Qle_bool_total.
    - intros n -> Hn. rewrite sort_values_length, length_map.
      now apply eligible_wallets_sample.
    - intros row Hrow. apply sort_values_In in Hrow.
      apply in_map_iff in Hrow. destruct Hrow as (w & <- & _).
      rewrite classify_one_wallet. apply classify_one_local.
  Qed.
End Provider.
End ClassificationTable.

Section ClassificationTableSamples.
Import DataFetcher BotDetector Samples.

Lemma classification_table_witness :
  eligible_wallets ten_payments 5 None <> []
  /\ List.NoDup (map wallet ten_bots).
Proof.
  assert (H : eligible_wallets ten_payments 5 None <> [])
    by (vm_compute; discriminate).
  split; [exact H |].
  exact (proj1 (proj2 (classification_table
                         (fun _ => None) (fun _ => 0%nat) (fun _ => no_payloads)
                         ten_payments 5 None H))).
Defined.
End ClassificationTableSamples.

Section FeatureRanges.
Import DataFetcher BotDetector.
Local Open Scope Q_scope.
Variable std : list Q -> option Q.
Variable count_decimals : Q -> nat.

Ltac untouched :=
  repeat match goal with
         | |- context [match ?x with _ => _ end] => destruct x
         | |- context [if ?b then _ else _] => destruct b
         end;
  cbn [set_num];
  rewrite ?lookup_insert_ne by discriminate; reflexivity.

Lemma Qnat_nonneg (n : nat) : 0 <= Qnat n.
Proof. unfold Qnat, Qle. simpl. lia. Qed.

Lemma Qnat_le (n m : nat) : (n <= m)%nat -> Qnat n <= Qnat m.
Proof. intros H. unfold Qnat, Qle. simpl. lia. Qed.

Lemma Qnat_pos (n : nat) : (0 < n)%nat -> 0 < Qnat n.
Proof. intros H. unfold Qnat, Qlt. simpl. lia. Qed.

Lemma ratio_unit (a b : Q) : 0 <= a -> a <= b -> 0 < b -> 0 <= a / b /\ a / b <= 1.
Proof.
  intros Ha Hab Hb. split.
  - apply Qle_shift_div_l; [exact Hb | lra].
  - apply Qle_shift_div_r; [exact Hb | lra].
Qed.

Lemma dropna_length {A : Type} (l : list (option A)) :
  (length (dropna l) <= length l)%nat.
Proof.
  unfold dropna. induction l as [|[x|] l IH]; cbn; lia.
Qed.

Lemma later_features_keep (data : WalletData) (f : Features) (key : string) :
  key = "api_off_hours_ratio" \/ key = "api_txs_per_hour"
  \/ key = "api_transfer_count" \/ key = "cp_dex_ratio" \/ key = "cp_cex_ratio" ->
  flow_features (flow data)
    (balances_features (balances data)
       (intelligence_features (intelligence data) f)) !! key = f !! key.
Proof.
  intros Hk.
  assert (F : forall f : Features, flow_features (flow data) f !! key = f !! key).
  { intros g. unfold flow_features.
    destruct Hk as [-> | [-> | [-> | [-> | ->]]]]; untouched. }
  assert (B : forall f : Features,
             balances_features (balances data) f !! key = f !! key).
  { intros g. unfold balances_features.
    destruct Hk as [-> | [-> | [-> | [-> | ->]]]]; untouched. }
  assert (I : forall f : Features,
             intelligence_features (intelligence data) f !! key = f !! key).
  { intros g. unfold intelligence_features.
    destruct Hk as [-> | [-> | [-> | [-> | ->]]]]; untouched. }
  now rewrite F, B, I.
Qed.

Lemma counterparties_features_keep payload (f : Features) (key : string) :
  key = "api_off_hours_ratio" \/ key = "api_txs_per_hour"
  \/ key = "api_transfer_count" ->
  counterparties_features payload f !! key = f !! key.
Proof.
  intros Hk. unfold counterparties_features.
  destruct Hk as [-> | [-> | ->]]; untouched.
Qed.

Lemma transfers_features_keep payload (f : Features) (key : string) :
  key = "cp_dex_ratio" \/ key = "cp_cex_ratio" ->
  transfers_features std count_decimals payload f !! key = f !! key.
Proof.
  intros Hk.
  assert (V : forall rows (f : Features),
             value_features std count_decimals rows f !! key = f !! key).
  { intros rows g. unfold value_features, cv. destruct Hk as [-> | ->]; untouched. }
  assert (M : forall rows (f : Features),
             timing_features std rows f !! key = f !! key).
  { intros rows g. unfold timing_features, cv. destruct Hk as [-> | ->]; untouched. }
  unfold transfers_features. destruct payload as [[|r rows]|]; try reflexivity.
  rewrite V, M. destruct Hk as [-> | ->];
    rewrite ?lookup_insert_ne by discriminate; reflexivity.
Qed.

Lemma value_features_keep rows (f : Features) (key : string) :
  key = "api_off_hours_ratio" \/ key = "api_txs_per_hour"
  \/ key = "api_transfer_count" ->
  value_features std count_decimals rows f !! key = f !! key.
Proof.
  intros Hk. unfold value_features, cv. destruct Hk as [-> | [-> | ->]]; untouched.
Qed.

Lemma timing_features_range rows (f : Features) :
  rows <> [] ->
  f !! "api_off_hours_ratio" = None ->
  f !! "api_txs_per_hour" = None ->
  let g := timing_features std rows f in
  (forall v, g !! "api_off_hours_ratio" = Some v ->
             exists q, v = Num q /\ 0 <= q /\ q <= 1)
  /\ (forall v, g !! "api_txs_per_hour" = Some v ->
                exists q, v = Num q /\ 0 < q /\ q <= Qnat (length rows))
  /\ g !! "api_transfer_count" = f !! "api_transfer_count".
Proof.
  intros Hrows H1 H2. cbv zeta. unfold timing_features.
  destruct (column_present (map tr_blockTimestamp rows)).
  2:{ rewrite H1, H2. repeat split; intros v E; discriminate. }
  set (times := dropna _).
  set (off := List.filter _ times).
  set (span := Qdiv _ (3600 # 1)).
  assert (Hlen : (0 < length rows)%nat) by (destruct rows; [congruence | simpl; lia]).
  assert (Hoff : (length off <= length rows)%nat).
  { unfold off, times. etransitivity; [apply List.filter_length_le |].
    etransitivity; [apply dropna_length | now rewrite length_map]. }
  assert (R1 : 0 <= Qnat (length off) / Qnat (length rows)
               /\ Qnat (length off) / Qnat (length rows) <= 1).
  { apply ratio_unit; [apply Qnat_nonneg | now apply Qnat_le | now apply Qnat_pos]. }
  assert (R2 : 0 < Qnat (length rows) / Qmax span 1
               /\ Qnat (length rows) / Qmax span 1 <= Qnat (length rows)).
  { pose proof (Q.le_max_r span 1) as M. pose proof (Qnat_pos _ Hlen) as N.
    split.
    - apply Qlt_shift_div_l; [lra | lra].
    - apply Qle_shift_div_r; [lra |]. nra. }
  set (rate := match times with
               | [] => None
               | _ => Some (Qnat (length rows) / Qmax span 1)
               end).
  assert (G : forall g : Features,
             g !! "api_off_hours_ratio"
             = Some (Num (Qnat (length off) / Qnat (length rows))) ->
             g !! "api_txs_per_hour" = set_num "api_txs_per_hour" rate f
                                         !! "api_txs_per_hour" ->
             (forall v, g !! "api_off_hours_ratio" = Some v ->
                        exists q, v = Num q /\ 0 <= q /\ q <= 1)
             /\ (forall v, g !! "api_txs_per_hour" = Some v ->
                           exists q, v = Num q /\ 0 < q /\ q <= Qnat (length rows))).
  { intros g E1 E2. split.
    - intros v E. rewrite E1 in E. inversion E; subst. eauto.
    - intros v E. rewrite E2 in E. unfold rate, set_num in E.
      destruct times.
      + rewrite H2 in E. discriminate.
      + rewrite lookup_insert_eq in E. inversion E; subst. eauto. }
  assert (K : forall rate, set_num "api_txs_per_hour" rate f !! "api_transfer_count"
                           = f !! "api_transfer_count").
  { intros [q|]; cbn [set_num]; [now rewrite lookup_insert_ne by discriminate
                                | reflexivity]. }
  assert (S : forall v (g : Features) k,
             k <> "api_time_regularity_cv" ->
             set_num "api_time_regularity_cv" v g !! k = g !! k).
  { intros [q|] g k Hk; cbn [set_num]; [|reflexivity].
    apply lookup_insert_ne. congruence. }
  destruct (map seconds (diffs _)) as [|x xs];
    [|rewrite !S by discriminate];
    (split; [|split]; [apply G | apply G |];
     rewrite ?lookup_insert_eq, ?lookup_insert_ne by discriminate;
     rewrite ?lookup_insert_eq; try reflexivity; apply K).
Qed.

Lemma transfers_features_range payload (f : Features) :
  f !! "api_off_hours_ratio" = None ->
  f !! "api_txs_per_hour" = None ->
  f !! "api_transfer_count" = None ->
  let g := transfers_features std count_decimals payload f in
  (forall v, g !! "api_off_hours_ratio" = Some v ->
             exists q, v = Num q /\ 0 <= q /\ q <= 1)
  /\ (forall v, g !! "api_txs_per_hour" = Some v ->
                exists q n, v = Num q
                            /\ g !! "api_transfer_count" = Some (Num (Qnat n))
                            /\ 0 < q /\ q <= Qnat n).
Proof.
  intros H1 H2 H3. cbv zeta. unfold transfers_features.
  assert (Z0 : (forall v, f !! "api_off_hours_ratio" = Some v ->
                          exists q, v = Num q /\ 0 <= q /\ q <= 1)
               /\ (forall v, f !! "api_txs_per_hour" = Some v ->
                             exists q n, v = Num q
                                         /\ f !! "api_transfer_count"
                                            = Some (Num (Qnat n))
                                         /\ 0 < q /\ q <= Qnat n)).
  { rewrite H1, H2. split; intros v E; discriminate. }
  destruct payload as [[|r rows]|]; try exact Z0.
  set (f2 := <["api_total_volume" := _]> _).
  destruct (timing_features_range (r :: rows) f2) as (T1 & T2 & T3);
    [discriminate | | |].
  { unfold f2. now rewrite !lookup_insert_ne by discriminate. }
  { unfold f2. now rewrite !lookup_insert_ne by discriminate. }
  rewrite !value_features_keep by auto. split; [exact T1 |].
  intros v E. destruct (T2 v E) as (q & -> & Hq).
  exists q, (length (r :: rows)). split; [reflexivity |]. split; [|exact Hq].
  rewrite T3. unfold f2.
  rewrite lookup_insert_ne, lookup_insert_eq by discriminate. reflexivity.
Qed.

Lemma entity_ratio_range (kind : string) (rows : list CounterpartyRow) :
  rows <> [] -> 0 <= entity_ratio kind rows /\ entity_ratio kind rows <= 1.
Proof.
  intros Hrows. unfold entity_ratio. apply ratio_unit.
  - apply Qnat_nonneg.
  - apply Qnat_le, List.filter_length_le.
  - apply Qnat_pos. destruct rows; [congruence | simpl; lia].
Qed.

Lemma counterparties_features_range payload (f : Features) :
  f !! "cp_dex_ratio" = None ->
  f !! "cp_cex_ratio" = None ->
  let g := counterparties_features payload f in
  (forall v, g !! "cp_dex_ratio" = Some v -> exists q, v = Num q /\ 0 <= q /\ q <= 1)
  /\ (forall v, g !! "cp_cex_ratio" = Some v ->
                exists q, v = Num q /\ 0 <= q /\ q <= 1).
Proof.
  intros H1 H2. cbv zeta. unfold counterparties_features.
  assert (Z0 : forall g : Features,
             g !! "cp_dex_ratio" = None -> g !! "cp_cex_ratio" = None ->
             (forall v, g !! "cp_dex_ratio" = Some v ->
                        exists q, v = Num q /\ 0 <= q /\ q <= 1)
             /\ (forall v, g !! "cp_cex_ratio" = Some v ->
                           exists q, v = Num q /\ 0 <= q /\ q <= 1)).
  { intros g E1 E2. rewrite E1, E2. split; intros v E; discriminate. }
  destruct payload as [[|first rows]|]; try (now apply Z0).
  set (f2 := if column_present (map totalVolumeUSD (first :: rows)) then _ else _).
  assert (K : f2 !! "cp_dex_ratio" = None /\ f2 !! "cp_cex_ratio" = None).
  { unfold f2. split;
      repeat match goal with
             | |- context [match ?x with _ => _ end] => destruct x
             | |- context [if ?b then _ else _] => destruct b
             end;
      cbn [set_num]; rewrite ?lookup_insert_ne by discriminate; assumption. }
  destruct (column_present (map arkhamEntity (first :: rows)));
    [|now apply Z0].
  rewrite lookup_insert_ne, lookup_insert_eq by discriminate.
  rewrite lookup_insert_eq.
  split; intros v E; inversion E; subst; eexists; (split; [reflexivity |]);
    apply entity_ratio_range; discriminate.
Qed.

(** X22.  Whatever the endpoint payloads hold, a stored
    [api_off_hours_ratio] is a number between 0 and 1, a stored
    [api_txs_per_hour] is a positive number of at most the stored
    [api_transfer_count], and a stored [cp_dex_ratio] or [cp_cex_ratio]
    is a number between 0 and 1.  (A feature whose value is NaN, as
    [api_txs_per_hour] is for a timestamp column without a single
    timestamp, counts as not stored.) *)
Theorem extracted_feature_ranges :
  forall (wallet_data : gmap string WalletData) (w : string),
    let f := extract_features std count_decimals wallet_data w in
    (forall v, f !! "api_off_hours_ratio" = Some v ->
               exists q, v = Num q /\ 0 <= q /\ q <= 1)
    /\ (forall v, f !! "api_txs_per_hour" = Some v ->
                  exists q n, v = Num q
                              /\ f !! "api_transfer_count" = Some (Num (Qnat n))
                              /\ 0 < q /\ q <= Qnat n)
    /\ (forall v, f !! "cp_dex_ratio" = Some v ->
                  exists q, v = Num q /\ 0 <= q /\ q <= 1)
    /\ (forall v, f !! "cp_cex_ratio" = Some v ->
                  exists q, v = Num q /\ 0 <= q /\ q <= 1).
Proof.
  intros wallet_data w. cbv zeta. unfold extract_features.
  destruct (wallet_data !! w) as [data|].
  2:{ rewrite !lookup_empty. repeat split; intros v E; discriminate. }
  set (f0 := ({[ "wallet" := Text w ]} : Features)).
  pose proof (transfers_features_range (transfers data) f0) as T.
  pose proof (counterparties_features_range
                (counterparties data)
                (transfers_features std count_decimals (transfers data) f0)) as C.
  cbv zeta in T, C.
  rewrite !later_features_keep by auto 10.
  rewrite !counterparties_features_keep by auto.
  rewrite !transfers_features_keep in C by auto.
  unfold f0 in *. rewrite !lookup_singleton_ne in T, C by discriminate.
  specialize (T eq_refl eq_refl eq_refl). specialize (C eq_refl eq_refl).
  tauto.
Qed.
End FeatureRanges.

Section WhaleList.
Import HolderAnalyzer.
Local Open Scope Q_scope.

Lemma StronglySorted_cross {A : Type} (R : A -> A -> Prop) (l1 l2 : list A) :
  StronglySorted R (l1 ++ l2) ->
  forall x y, In x l1 -> In y l2 -> R x y.
Proof.
  induction l1 as [|a l1 IH]; simpl; intros H x y Hx Hy; [destruct Hx |].
  apply StronglySorted_inv in H. destruct H as [Hs Hall].
  destruct Hx as [<- | Hx]; [|now apply IH].
  rewrite List.Forall_forall in Hall. apply Hall, in_or_app. now right.
Qed.

(** X23.  The whale list handed to the risk analysis names the
    [min 50 n] holders with the largest holding percentages: every holder
    left out holds at most as much as every holder listed, and every
    listed address is the address of a snapshot entry (or "Unknown"
    for an entry without one). *)
Theorem top_holders_are_largest :
  forall entries : list HolderEntry,
    entries <> [] ->
    let rows := process_holder_data entries in
    let whales := top_holders (Some rows) in
    length whales = Nat.min 50 (length entries)
    /\ whales = map Address (firstn 50 rows)
    /\ (forall h h', In h (firstn 50 rows) -> In h' (skipn 50 rows) ->
                     Holding_pct h' <= Holding_pct h)
    /\ (forall w, In w whales ->
                  exists e, In e entries
                            /\ w = match entry_address e with
                                   | Some a => a
                                   | None => "Unknown"
                                   end).
Proof.
  intros entries _ rows whales.
  assert (W : whales = map Address (firstn 50 rows)) by reflexivity.
  destruct (holder_table_sorted_pairs entries) as [P S]. fold rows in P, S.
  split; [|split; [exact W |split]].
  - rewrite W, length_map, length_firstn. unfold rows, process_holder_data.
    now rewrite assign_rank_length, sort_values_length, length_map.
  - intros h h' Hh Hh'.
    apply Sorted_StronglySorted in S; [|exact pair_order_transitive].
    rewrite <- (firstn_skipn 50 rows), map_app in S.
    apply (StronglySorted_cross _ _ _ S (Address h, Holding_pct h)
                                (Address h', Holding_pct h')).
    + apply (in_map (fun h => (Address h, Holding_pct h))), Hh.
    + apply (in_map (fun h => (Address h, Holding_pct h))), Hh'.
  - intros w Hw. rewrite W in Hw. apply in_map_iff in Hw.
    destruct Hw as (h & <- & Hh).
    assert (Hin : In h rows).
    { rewrite <- (firstn_skipn 50 rows). apply in_or_app. now left. }
    apply (in_map (fun h => (Address h, Holding_pct h))) in Hin.
    apply (Permutation_in _ P) in Hin. apply in_map_iff in Hin.
    destruct Hin as (e & E & He). inversion E. eauto.
Qed.
End WhaleList.

Section WhaleListSamples.
Import HolderAnalyzer Samples.

Lemma top_holders_are_largest_witness :
  three_entries <> []
  /\ length (top_holders (Some (process_holder_data three_entries))) = 3%nat.
Proof.
  assert (H : three_entries <> []) by discriminate.
  split; [exact H |].
  exact (proj1 (top_holders_are_largest three_entries H)).
Defined.
End WhaleListSamples.

Section CombinedRiskLevel.
Local Open Scope Q_scope.

(** X24.  For a wallet that is not a top holder the risk level and score
    of [RiskScoreAnalyzer._calculate_risk_level] are those of
    [CombinedAnalyzer._calculate_risk_level]; for a top holder the score
    is never lower and the level is CRITICAL whenever the combined
    analyzer's is. *)
Theorem risk_level_extends_combined_analyzer :
  forall (bs : Q) (bc : string) (wash : bool) (n : nat),
    RiskScoreAnalyzer._calculate_risk_level bs bc wash n false
    = CombinedAnalyzer._calculate_risk_level bs bc wash n
    /\ snd (CombinedAnalyzer._calculate_risk_level bs bc wash n)
       <= snd (RiskScoreAnalyzer._calculate_risk_level bs bc wash n true)
    /\ (fst (CombinedAnalyzer._calculate_risk_level bs bc wash n) = "CRITICAL" ->
        fst (RiskScoreAnalyzer._calculate_risk_level bs bc wash n true)
        = "CRITICAL").
Proof.
  intros bs bc wash n.
  assert (E : RiskScoreAnalyzer._calculate_risk_level bs bc wash n false
              = CombinedAnalyzer._calculate_risk_level bs bc wash n)
    by reflexivity.
  assert (L : snd (CombinedAnalyzer._calculate_risk_level bs bc wash n)
              <= snd (RiskScoreAnalyzer._calculate_risk_level bs bc wash n true)).
  { rewrite <- E, !calculate_risk_level_score.
    destruct wash; cbn [orb].
    - apply Q.min_glb; apply Q.le_min_r.
    - destruct (String.eqb bc "BOT").
      + apply Q.min_glb; apply Q.le_min_r.
      + destruct (Qmin_cases (0 + bs * (50 # 1)) (100 # 1)) as [[H1 E1] | [H1 E1]];
          destruct (Qmin_cases (0 + bs * (50 # 1) + (20 # 1)) (100 # 1))
            as [[H2 E2] | [H2 E2]];
          rewrite E1, E2; lra. }
  split; [exact E |]. split; [exact L |].
  rewrite <- E in *.
  pose proof (calculate_risk_level_thresholds bs bc wash n false) as T0.
  pose proof (calculate_risk_level_thresholds bs bc wash n true) as T1.
  revert T0 T1 L.
  generalize (RiskScoreAnalyzer._calculate_risk_level bs bc wash n false).
  generalize (RiskScoreAnalyzer._calculate_risk_level bs bc wash n true).
  intros [l1 s1] [l0 s0]. cbv zeta. cbn [fst snd].
  intros (_ & H50 & H25 & Hlow) (H75 & _) L H0.
  apply H75. destruct (Qlt_le_dec s0 (75 # 1)) as [Lt75 | Ge75]; [|lra].
  exfalso. destruct (Qlt_le_dec s0 (50 # 1)) as [Lt50 | Ge50].
  - destruct (Qlt_le_dec s0 (25 # 1)) as [Lt25 | Ge25].
    + rewrite (Hlow Lt25) in H0. discriminate.
    + rewrite (H25 Ge25 Lt50) in H0. discriminate.
  - rewrite (H50 Ge50 Lt75) in H0. discriminate.
Qed.
End CombinedRiskLevel.
